(** * SAP AI Core provider adapter ([src/api/providers/sapaicore.ts])

    A shallow embedding of the [SapAiCoreHandler] class: token caching,
    deployment lookup, dispatch by model family and the two stream parsers,
    followed by the properties the specification states about them.

    Conventions of the embedding.
    - A JavaScript string is a [string]: its characters stand for the code
      units 0..255.  [toLowerCase] and [trim] are written out for that range.
    - A JavaScript number is an integer [Z] (token counts, epoch milliseconds).
    - Values of type [any] (HTTP response bodies, parsed frames) are [JS]
      values: JSON data plus [undefined].
    - Built-ins whose full definition lies outside the class ([JSON.parse],
      string coercion of non-strings, numeric coercion in [>]) are Section
      variables: every theorem holds for all of their behaviours.
    - Module constants imported from [shared/api] (the model registry and the
      default model id) are Section variables as well.
    - Network traffic is recorded in a trace; replies come from an
      environment record. *)

From Stdlib Require Import String Ascii List ZArith Lia Bool.
Import ListNotations.

Local Open Scope string_scope.
Local Open Scope Z_scope.
Local Open Scope list_scope.

(** ** JavaScript strings *)

Module Str.

Definition LF : ascii := "010"%char.
Definition COLON : ascii := ":"%char.

Definition of_char (c : ascii) : string := String c EmptyString.

Definition isEmpty (s : string) : bool :=
  match s with EmptyString => true | String _ _ => false end.

(** [s.split(sep)] for a one-character separator. *)
Fixpoint split (sep : ascii) (s : string) : list string :=
  match s with
  | EmptyString => [EmptyString]
  | String c rest =>
      if Ascii.eqb c sep then EmptyString :: split sep rest
      else match split sep rest with
           | [] => [of_char c]
           | piece :: pieces => String c piece :: pieces
           end
  end.

(** [s.split(sep)[0]]. *)
Definition split0 (sep : ascii) (s : string) : string :=
  hd EmptyString (split sep s).

(** [s.startsWith(p)]. *)
Fixpoint startsWith (s p : string) {struct p} : bool :=
  match p with
  | EmptyString => true
  | String c p' =>
      match s with
      | EmptyString => false
      | String d s' => Ascii.eqb c d && startsWith s' p'
      end
  end.

(** [s.slice(n)] for [n >= 0]. *)
Fixpoint slice (n : nat) (s : string) : string :=
  match n, s with
  | O, _ => s
  | S _, EmptyString => EmptyString
  | S m, String _ rest => slice m rest
  end.

(** Upper-case code units below 256: A-Z, and U+00C0..U+00DE except U+00D7. *)
Definition isUpper (c : ascii) : bool :=
  let n := nat_of_ascii c in
  ((65 <=? n) && (n <=? 90) || (192 <=? n) && (n <=? 222) && negb (n =? 215))%nat.

Definition lowerChar (c : ascii) : ascii :=
  if isUpper c then ascii_of_nat (nat_of_ascii c + 32) else c.

(** [s.toLowerCase()]. *)
Fixpoint toLowerCase (s : string) : string :=
  match s with
  | EmptyString => EmptyString
  | String c rest => String (lowerChar c) (toLowerCase rest)
  end.

(** White space and line terminators below 256: TAB, LF, VT, FF, CR, SP, NBSP. *)
Definition isSpace (c : ascii) : bool :=
  let n := nat_of_ascii c in
  ((9 <=? n) && (n <=? 13) || (n =? 32) || (n =? 160))%nat.

Fixpoint trimStart (s : string) : string :=
  match s with
  | EmptyString => EmptyString
  | String c rest => if isSpace c then trimStart rest else s
  end.

(** Drops trailing white space: the result of trimming the tail is kept
    unless it is empty and the head is a space too. *)
Fixpoint trimEnd (s : string) : string :=
  match s with
  | EmptyString => EmptyString
  | String c rest =>
      match trimEnd rest with
      | EmptyString => if isSpace c then EmptyString else of_char c
      | t => String c t
      end
  end.

(** [s.trim()]. *)
Definition trim (s : string) : string := trimEnd (trimStart s).

(** [xs.includes(s)] on an array of strings. *)
Definition includes (xs : list string) (s : string) : bool :=
  existsb (String.eqb s) xs.

End Str.

(** ** Values of type [any] *)

#[local] Set Warnings "-register-all".

Inductive JS : Type :=
| JUndef
| JNull
| JBool (b : bool)
| JNum (n : Z)
| JStr (s : string)
| JArr (elems : list JS)
| JObj (members : list (string * JS)).

Inductive Error : Type :=
| TypeError                 (* property read on [null] or [undefined]; value
                               that cannot be converted to a primitive *)
| SyntaxError               (* [JSON.parse] of text that is not JSON *)
| AxiosError                (* rejected request: transport failure or non-2xx *)
| StreamError               (* the response stream fails while it is read *)
| Err (message : string).   (* [new Error(message)] *)

Inductive Res (A : Type) : Type :=
| Val (a : A)
| Throw (e : Error).
Arguments Val {A} a.
Arguments Throw {A} e.

Module Js.

(** Truthiness, as tested by [if], [!], [&&], [||] and [filter(Boolean)]. *)
Definition truthy (v : JS) : bool :=
  match v with
  | JUndef | JNull => false
  | JBool b => b
  | JNum n => negb (n =? 0)
  | JStr s => negb (Str.isEmpty s)
  | JArr _ | JObj _ => true
  end.

(** [a || b]. *)
Definition or (a b : JS) : JS := if truthy a then a else b.

Fixpoint lookup (k : string) (members : list (string * JS)) : JS :=
  match members with
  | [] => JUndef
  | (k', v) :: rest => if String.eqb k k' then v else lookup k rest
  end.

(** [v.k] for the member names the class reads ([type], [usage], [choices],
    [length], ...); none of them is inherited from a prototype except
    [length], which arrays and strings own. *)
Definition get (v : JS) (k : string) : Res JS :=
  match v with
  | JUndef | JNull => Throw TypeError
  | JObj members => Val (lookup k members)
  | JArr elems =>
      Val (if String.eqb k "length" then JNum (Z.of_nat (List.length elems)) else JUndef)
  | JStr s =>
      Val (if String.eqb k "length" then JNum (Z.of_nat (String.length s)) else JUndef)
  | JBool _ | JNum _ => Val JUndef
  end.

(** [v?.k]. *)
Definition getOpt (v : JS) (k : string) : JS :=
  match get v k with
  | Val x => x
  | Throw _ => JUndef
  end.

(** [v[0]]. *)
Definition get0 (v : JS) : Res JS :=
  match v with
  | JUndef | JNull => Throw TypeError
  | JObj members => Val (lookup "0" members)
  | JArr elems => Val (hd JUndef elems)
  | JStr s =>
      Val (match s with
           | EmptyString => JUndef
           | String c _ => JStr (Str.of_char c)
           end)
  | JBool _ | JNum _ => Val JUndef
  end.

(** [v === "s"]. *)
Definition isStr (v : JS) (s : string) : bool :=
  match v with
  | JStr t => String.eqb t s
  | _ => false
  end.

End Js.

(** ** Effects

    [M] is the monad of the [async] methods: they read and update the handler
    and the outside world, and may throw.  A throw keeps the state reached.
    [Gen] adds the chunks a generator has yielded so far. *)

Inductive ApiStreamChunk : Type :=
| TextChunk (text : JS)
| UsageChunk (inputTokens outputTokens : JS).

Definition M (S A : Type) : Type := S -> Res A * S.

Definition Gen (S A : Type) : Type := S -> list ApiStreamChunk * (Res A * S).

Module Monad.

Definition ret {S A} (a : A) : M S A := fun s => (Val a, s).

Definition bind {S A B} (m : M S A) (k : A -> M S B) : M S B :=
  fun s =>
    match m s with
    | (Val a, s1) => k a s1
    | (Throw e, s1) => (Throw e, s1)
    end.

Definition throw {S A} (e : Error) : M S A := fun s => (Throw e, s).

Definition ofRes {S A} (r : Res A) : M S A := fun s => (r, s).

Definition get {S} : M S S := fun s => (Val s, s).

Definition tryCatch {S A} (m : M S A) (h : Error -> M S A) : M S A :=
  fun s =>
    match m s with
    | (Val a, s1) => (Val a, s1)
    | (Throw e, s1) => h e s1
    end.

Definition gret {S A} (a : A) : Gen S A := fun s => ([], (Val a, s)).

Definition gbind {S A B} (g : Gen S A) (k : A -> Gen S B) : Gen S B :=
  fun s =>
    match g s with
    | (out, (Val a, s1)) => let (out', r) := k a s1 in (out ++ out', r)
    | (out, (Throw e, s1)) => (out, (Throw e, s1))
    end.

(** [await m] inside a generator. *)
Definition await {S A} (m : M S A) : Gen S A := fun s => ([], m s).

Definition yield {S} (c : ApiStreamChunk) : Gen S unit :=
  fun s => ([c], (Val tt, s)).

Definition gtryCatch {S A} (g : Gen S A) (h : Error -> Gen S A) : Gen S A :=
  fun s =>
    match g s with
    | (out, (Val a, s1)) => (out, (Val a, s1))
    | (out, (Throw e, s1)) => let (out', r) := h e s1 in (out ++ out', r)
    end.

(** [for (const x of xs) body]; the body answers [true] when it executed
    [return], which leaves the loop and the generator. *)
Fixpoint forOf {S X} (body : X -> Gen S bool) (xs : list X) : Gen S bool :=
  match xs with
  | [] => gret false
  | x :: rest =>
      gbind (body x) (fun returned =>
        if returned then gret true else forOf body rest)
  end.

End Monad.

Declare Scope m_scope.
Delimit Scope m_scope with m.
Notation "x <- m ;; k" := (Monad.bind m (fun x => k))
  (at level 100, m at next level, right associativity) : m_scope.
Notation "m ;;; k" := (Monad.bind m (fun _ => k))
  (at level 100, right associativity) : m_scope.

Declare Scope gen_scope.
Delimit Scope gen_scope with gen.
Notation "x <- g ;; k" := (Monad.gbind g (fun x => k))
  (at level 100, g at next level, right associativity) : gen_scope.
Notation "g ;;; k" := (Monad.gbind g (fun _ => k))
  (at level 100, right associativity) : gen_scope.

(** ** Data of the handler *)

Module Deployment.
Record t : Type := mk { id : JS; name : string }.
End Deployment.

Module Token.
Record t : Type := mk {
  access_token : string;
  expires_in : Z;
  scope : string;
  jti : string;
  token_type : string;
  exipres_at : Z
}.

Definition with_exipres_at (at_ : Z) (tok : t) : t :=
  mk (access_token tok) (expires_in tok) (scope tok) (jti tok) (token_type tok) at_.
End Token.

(** The fields of [ApiHandlerOptions] the class reads; each may be unset. *)
Record ApiHandlerOptions : Type := {
  apiModelId : option string;
  sapAiCoreClientId : option string;
  sapAiCoreClientSecret : option string;
  sapAiCoreTokenUrl : option string;
  sapAiResourceGroup : option string;
  sapAiCoreBaseUrl : option string
}.

(** Modelled from the spec: [ModelInfo] of [shared/api], the static metadata of
    a model, of which the class reads the max-token limit. *)
Record ModelInfo : Type := { maxTokens : option Z }.

(** What [sapAiCoreModels[id]] evaluates to: the metadata stored under an own
    key, a member inherited from [Object.prototype], or [undefined]. *)
Inductive RegistryMember : Type :=
| OwnMember (info : ModelInfo)
| InheritedMember
| NoMember.

Record Model : Type := { model_id : string; model_info : RegistryMember }.

(** The body of a streaming response: the chunks delivered, and whether the
    transport fails after them. *)
Record Stream : Type := { chunks : list string; broken : bool }.

Record Headers : Type := {
  Authorization : string;
  AI_Resource_Group : string
}.

(** Requests sent through [axios]. *)
Inductive NetCall : Type :=
| PostToken (url client_id client_secret : string)
| GetDeployments (url : string) (headers : Headers)
| PostInference (url : string) (payload : JS) (headers : Headers).

Definition isPostToken (c : NetCall) : bool :=
  match c with PostToken _ _ _ => true | _ => false end.
Definition isGetDeployments (c : NetCall) : bool :=
  match c with GetDeployments _ _ => true | _ => false end.
Definition isPostInference (c : NetCall) : bool :=
  match c with PostInference _ _ _ => true | _ => false end.

(** The outside world: the reading of the clock at each [Date.now()], and the
    reply to the request issued after [n] earlier requests ([None]: the request
    is rejected). *)
Record Env : Type := {
  clock : nat -> Z;
  tokenReply : nat -> option Token.t;
  deploymentsReply : nat -> option JS;
  inferenceReply : nat -> option Stream
}.

(** The handler instance together with the history of its effects. *)
Record State : Type := {
  options : ApiHandlerOptions;
  token : option Token.t;
  deployments : option (list Deployment.t);
  trace : list NetCall;
  ticks : nat
}.

Definition set_token (tok : Token.t) (s : State) : State :=
  {| options := options s; token := Some tok; deployments := deployments s;
     trace := trace s; ticks := ticks s |}.

Definition set_deployments (ds : list Deployment.t) (s : State) : State :=
  {| options := options s; token := token s; deployments := Some ds;
     trace := trace s; ticks := ticks s |}.

Definition log_call (c : NetCall) (s : State) : State :=
  {| options := options s; token := token s; deployments := deployments s;
     trace := trace s ++ [c]; ticks := ticks s |}.

Definition tick (s : State) : State :=
  {| options := options s; token := token s; deployments := deployments s;
     trace := trace s; ticks := S (ticks s) |}.

(** [new SapAiCoreHandler(options)]. *)
Definition constructor (opts : ApiHandlerOptions) : State :=
  {| options := opts; token := None; deployments := None; trace := []; ticks := O |}.

(** [o || d] for an optional string. *)
Definition orDefault (o : option string) (d : string) : string :=
  match o with
  | Some s => if Str.isEmpty s then d else s
  | None => d
  end.

(** An optional string inside a template literal. *)
Definition showOpt (o : option string) : string :=
  match o with
  | Some s => s
  | None => "undefined"
  end.

(** Own keys of [Object.prototype], which [in] finds on every object literal. *)
Definition objectPrototypeKeys : list string :=
  [ "constructor"; "__defineGetter__"; "__defineSetter__"; "hasOwnProperty";
    "__lookupGetter__"; "__lookupSetter__"; "isPrototypeOf";
    "propertyIsEnumerable"; "toString"; "valueOf"; "__proto__";
    "toLocaleString" ].

Fixpoint ownMember (k : string) (registry : list (string * ModelInfo)) : option ModelInfo :=
  match registry with
  | [] => None
  | (k', info) :: rest => if String.eqb k k' then Some info else ownMember k rest
  end.

(** [k in registry]. *)
Definition hasProperty (k : string) (registry : list (string * ModelInfo)) : bool :=
  match ownMember k registry with
  | Some _ => true
  | None => Str.includes objectPrototypeKeys k
  end.

(** [registry[k]]. *)
Definition member (k : string) (registry : list (string * ModelInfo)) : RegistryMember :=
  match ownMember k registry with
  | Some info => OwnMember info
  | None => if Str.includes objectPrototypeKeys k then InheritedMember else NoMember
  end.

(** [info.maxTokens]. *)
Definition maxTokensOf (m : RegistryMember) : Res JS :=
  match m with
  | OwnMember info =>
      Val (match maxTokens info with
           | Some n => JNum n
           | None => JUndef
           end)
  | InheritedMember => Val JUndef
  | NoMember => Throw TypeError
  end.

(** ** The class *)

Section SapAiCoreHandler.

(** [JSON.parse]: [None] when it throws a [SyntaxError]. *)
Variable JSON_parse : string -> option JS.
(** [String(v)] for a value that is not a string: its text, or the
    [TypeError] of an object or array that cannot be converted to a
    primitive (an own member [toString] that is not a function hides the
    inherited method). *)
Variable ToString : JS -> Res string.
(** [v > 0] for a string, an array or an object, which [>] first coerces. *)
Variable coercedPositive : JS -> bool.
(** [sapAiCoreModels] (its own entries) and [sapAiCoreDefaultModelId]. *)
Variable sapAiCoreModels : list (string * ModelInfo).
Variable sapAiCoreDefaultModelId : string.
(** [convertToOpenAiMessages] of [transform/openai-format]. *)
Variable convertToOpenAiMessages : list JS -> list JS.
Variable env : Env.

(** A value inside a template literal, or appended to a string with [+=]. *)
Definition show (v : JS) : Res string :=
  match v with
  | JStr s => Val s
  | _ => ToString v
  end.

(** [v > 0]. *)
Definition positive (v : JS) : bool :=
  match v with
  | JNum n => 0 <? n
  | JBool b => b
  | JUndef | JNull => false
  | JStr _ | JArr _ | JObj _ => coercedPositive v
  end.

(** [Date.now()]. *)
Definition Date_now : M State Z :=
  fun s => (Val (clock env (ticks s)), tick s).

(** A request: it is logged, then answered by the environment. *)
Definition request {A} (c : NetCall) (reply : nat -> option A) : M State A :=
  fun s =>
    match reply (List.length (trace s)) with
    | Some a => (Val a, log_call c s)
    | None => (Throw AxiosError, log_call c s)
    end.

Definition authenticate : M State Token.t :=
  (s <- Monad.get ;;
   let url := orDefault (sapAiCoreTokenUrl (options s)) "" in
   let client_id := orDefault (sapAiCoreClientId (options s)) "" in
   let client_secret := orDefault (sapAiCoreClientSecret (options s)) "" in
   tok <- request (PostToken url client_id client_secret) (tokenReply env) ;;
   now <- Date_now ;;
   Monad.ret (Token.with_exipres_at (now + Token.expires_in tok * 1000) tok))%m.

Definition getToken : M State string :=
  (s <- Monad.get ;;
   match token s with
   | None =>
       tok <- authenticate ;;
       fun s1 => (Val (Token.access_token tok), set_token tok s1)
   | Some cached =>
       now <- Date_now ;;
       if Token.exipres_at cached <? now then
         tok <- authenticate ;;
         fun s1 => (Val (Token.access_token tok), set_token tok s1)
       else Monad.ret (Token.access_token cached)
   end)%m.

Definition headersFor (bearer : string) (s : State) : Headers :=
  {| Authorization := ("Bearer " ++ bearer)%string;
     AI_Resource_Group := orDefault (sapAiResourceGroup (options s)) "default" |}.

(** [xs.filter(p)] for a callback that may throw. *)
Fixpoint filterRes {A} (p : A -> Res bool) (xs : list A) : Res (list A) :=
  match xs with
  | [] => Val []
  | x :: rest =>
      match p x with
      | Throw e => Throw e
      | Val b =>
          match filterRes p rest with
          | Throw e => Throw e
          | Val ys => Val (if b then x :: ys else ys)
          end
      end
  end.

(** [xs.map(f)] for a callback that may throw. *)
Fixpoint mapRes {A B} (f : A -> Res B) (xs : list A) : Res (list B) :=
  match xs with
  | [] => Val []
  | x :: rest =>
      match f x with
      | Throw e => Throw e
      | Val y =>
          match mapRes f rest with
          | Throw e => Throw e
          | Val ys => Val (y :: ys)
          end
      end
  end.

Definition bindRes {A B} (r : Res A) (k : A -> Res B) : Res B :=
  match r with
  | Val a => k a
  | Throw e => Throw e
  end.

(** [deployment.targetStatus === "RUNNING"]. *)
Definition isRunning (deployment : JS) : Res bool :=
  bindRes (Js.get deployment "targetStatus") (fun st => Val (Js.isStr st "RUNNING")).

(** [deployment.details?.resources?.backend_details?.model]. *)
Definition backendModel (deployment : JS) : Res JS :=
  bindRes (Js.get deployment "details") (fun details =>
    Val (Js.getOpt (Js.getOpt (Js.getOpt details "resources") "backend_details") "model")).

(** The callback of [map]: [None] stands for the [null] of a skipped row. *)
Definition toDeployment (deployment : JS) : Res (option Deployment.t) :=
  bindRes (backendModel deployment) (fun model =>
    if negb (Js.truthy (Js.getOpt model "name")) || negb (Js.truthy (Js.getOpt model "version"))
    then Val None
    else
      bindRes (Js.get deployment "id") (fun id =>
      bindRes (Js.get model "name") (fun name =>
      bindRes (show name) (fun nameText =>
      bindRes (Js.get model "version") (fun version =>
      bindRes (show version) (fun versionText =>
        Val (Some (Deployment.mk id (nameText ++ ":" ++ versionText)%string)))))))).

Fixpoint dropNull {A} (xs : list (option A)) : list A :=
  match xs with
  | [] => []
  | Some x :: rest => x :: dropNull rest
  | None :: rest => dropNull rest
  end.

(** [deployments.filter(..).map(..).filter(..)]; a value that is not an array
    has no [filter] method, and calling it throws. *)
Definition runningDeployments (resources : JS) : Res (list Deployment.t) :=
  match resources with
  | JArr rows =>
      bindRes (filterRes isRunning rows) (fun running =>
      bindRes (mapRes toDeployment running) (fun mapped =>
        Val (dropNull mapped)))
  | _ => Throw TypeError
  end.

Definition notConfigured : Deployment.t :=
  Deployment.mk (JStr "notconfigured") "ai-core-not-configured".

Definition isEmptySecret (o : option string) : bool :=
  match o with
  | Some s => Str.isEmpty s
  | None => false
  end.

Definition getAiCoreDeployments : M State (list Deployment.t) :=
  (s <- Monad.get ;;
   if isEmptySecret (sapAiCoreClientSecret (options s)) then
     Monad.ret [notConfigured]
   else
     bearer <- getToken ;;
     s1 <- Monad.get ;;
     let headers := headersFor bearer s1 in
     let url := (showOpt (sapAiCoreBaseUrl (options s1))
                   ++ "/lm/deployments?$top=10000&$skip=0")%string in
     Monad.tryCatch
       (data <- request (GetDeployments url headers) (deploymentsReply env) ;;
        Monad.ofRes (bindRes (Js.get data "resources") runningDeployments))
       (fun _ => Monad.throw (Err "Failed to fetch deployments")))%m.

(** [x.split(":")[0].toLowerCase()]. *)
Definition baseName (x : string) : string :=
  Str.toLowerCase (Str.split0 Str.COLON x).

Definition matchesModel (modelId : string) (d : Deployment.t) : bool :=
  String.eqb (baseName (Deployment.name d)) (baseName modelId).

Definition hasDeploymentForModel (modelId : string) (s : State) : bool :=
  match deployments s with
  | Some ds => existsb (matchesModel modelId) ds
  | None => false
  end.

Definition needsRefresh (modelId : string) (s : State) : bool :=
  match deployments s with
  | None => true
  | Some _ => negb (hasDeploymentForModel modelId s)
  end.

Definition getDeploymentForModel (modelId : string) : M State JS :=
  (s <- Monad.get ;;
   (if needsRefresh modelId s then
      ds <- getAiCoreDeployments ;;
      fun s1 => (Val tt, set_deployments ds s1)
    else Monad.ret tt) ;;;
   s2 <- Monad.get ;;
   match deployments s2 with
   | None => Monad.throw TypeError
   | Some ds =>
       match find (matchesModel modelId) ds with
       | None =>
           Monad.throw (Err ("No running deployment found for model " ++ modelId)%string)
       | Some deployment => Monad.ret (Deployment.id deployment)
       end
   end)%m.

Definition getModel (opts : ApiHandlerOptions) : Model :=
  match apiModelId opts with
  | Some modelId =>
      if negb (Str.isEmpty modelId) && hasProperty modelId sapAiCoreModels
      then {| model_id := modelId; model_info := member modelId sapAiCoreModels |}
      else {| model_id := sapAiCoreDefaultModelId;
              model_info := member sapAiCoreDefaultModelId sapAiCoreModels |}
  | None =>
      {| model_id := sapAiCoreDefaultModelId;
         model_info := member sapAiCoreDefaultModelId sapAiCoreModels |}
  end.

(** *** Stream parsers *)

(** [chunk.toString().split("\n").filter(Boolean)]. *)
Definition linesOf (chunk : string) : list string :=
  filter (fun l => negb (Str.isEmpty l)) (Str.split Str.LF chunk).

Definition parseJson (text : string) : Res JS :=
  match JSON_parse text with
  | Some data => Val data
  | None => Throw SyntaxError
  end.

(** The local [usage] of [streamCompletion]. *)
Record Usage : Type := { input_tokens : JS; output_tokens : JS }.

Definition liftRes {S A} (r : Res A) : Gen S A := fun s => ([], (r, s)).

Definition getLocal {S} : Gen S S := fun s => ([], (Val s, s)).

Definition setLocal {S} (s : S) : Gen S unit := fun _ => ([], (Val tt, s)).

(** The statements of [streamCompletion] that follow [JSON.parse]. *)
Definition anthropicFrame (data : JS) : Gen Usage unit :=
  (type <- liftRes (Js.get data "type") ;;
   if Js.isStr type "message_start" then
     message <- liftRes (Js.get data "message") ;;
     usage <- liftRes (Js.get message "usage") ;;
     input <- liftRes (Js.get usage "input_tokens") ;;
     u <- getLocal ;;
     setLocal {| input_tokens := input; output_tokens := output_tokens u |} ;;;
     Monad.yield (UsageChunk input (output_tokens u))
   else if Js.isStr type "content_block_start" || Js.isStr type "content_block_delta" then
     contentBlock <- liftRes (if Js.isStr type "content_block_start"
                              then Js.get data "content_block"
                              else Js.get data "delta") ;;
     blockType <- liftRes (Js.get contentBlock "type") ;;
     if Js.isStr blockType "text" || Js.isStr blockType "text_delta" then
       text <- liftRes (Js.get contentBlock "text") ;;
       Monad.yield (TextChunk (Js.or text (JStr "")))
     else Monad.gret tt
   else if Js.isStr type "message_delta" then
     usage <- liftRes (Js.get data "usage") ;;
     if Js.truthy usage then
       output <- liftRes (Js.get usage "output_tokens") ;;
       u <- getLocal ;;
       setLocal {| input_tokens := input_tokens u; output_tokens := output |} ;;;
       Monad.yield (UsageChunk (JNum 0) output)
     else Monad.gret tt
   else Monad.gret tt)%gen.

(** The body of the loop over lines; the inner [catch] logs and goes on. *)
Definition anthropicLine (line : string) : Gen Usage bool :=
  (if Str.startsWith line "data: " then
     let jsonData := Str.slice 6 line in
     Monad.gtryCatch
       (data <- liftRes (parseJson jsonData) ;; anthropicFrame data)
       (fun _ => Monad.gret tt) ;;;
     Monad.gret false
   else Monad.gret false)%gen.

(** [for await (const chunk of stream)] around a loop over the lines of the
    chunk; the outer [catch] rethrows. *)
Definition consume {S} (line : string -> Gen S bool) (stream : Stream) : Gen S unit :=
  (returned <- Monad.forOf (fun chunk => Monad.forOf line (linesOf chunk)) (chunks stream) ;;
   if returned then Monad.gret tt
   else if broken stream then liftRes (Throw StreamError)
   else Monad.gret tt)%gen.

(** Runs a generator with its own local variables inside the caller. *)
Definition withLocals {S T A} (init : T) (g : Gen T A) : Gen S A :=
  fun s => let '(out, (r, _)) := g init in (out, (r, s)).

Definition streamCompletion {S} (stream : Stream) : Gen S unit :=
  withLocals {| input_tokens := JNum 0; output_tokens := JNum 0 |}
    (consume anthropicLine stream).

(** The locals [inputTokens] and [outputTokens] of [streamCompletionGPT].
    [currentContent] is appended to and never read: of [currentContent += v]
    the coercion of [v] is kept, which may throw, and the text is dropped. *)
Record Totals : Type := { inputTokens : JS; outputTokens : JS }.

Definition yieldTotals : Gen Totals unit :=
  (t <- getLocal ;; Monad.yield (UsageChunk (inputTokens t) (outputTokens t)))%gen.

(** The statements of [streamCompletionGPT] that follow [JSON.parse]. *)
Definition gptFrame (data : JS) : Gen Totals unit :=
  (choices <- liftRes (Js.get data "choices") ;;
   (if Js.truthy choices then
      len <- liftRes (Js.get choices "length") ;;
      if positive len then
        choice <- liftRes (Js.get0 choices) ;;
        delta <- liftRes (Js.get choice "delta") ;;
        if Js.truthy delta then
          content <- liftRes (Js.get delta "content") ;;
          if Js.truthy content then
            Monad.yield (TextChunk content) ;;;
            liftRes (show content) ;;;
            Monad.gret tt
          else Monad.gret tt
        else Monad.gret tt
      else Monad.gret tt
    else Monad.gret tt) ;;;
   usage <- liftRes (Js.get data "usage") ;;
   (if Js.truthy usage then
      prompt <- liftRes (Js.get usage "prompt_tokens") ;;
      t <- getLocal ;;
      setLocal {| inputTokens := Js.or prompt (inputTokens t);
                  outputTokens := outputTokens t |} ;;;
      completion <- liftRes (Js.get usage "completion_tokens") ;;
      t1 <- getLocal ;;
      setLocal {| inputTokens := inputTokens t1;
                  outputTokens := Js.or completion (outputTokens t1) |} ;;;
      yieldTotals
    else Monad.gret tt) ;;;
   stop <- (if Js.truthy choices then
              first <- liftRes (Js.get0 choices) ;;
              reason <- liftRes (Js.get first "finish_reason") ;;
              Monad.gret (Js.isStr reason "stop")
            else Monad.gret false) ;;
   if stop then
     if negb (Js.truthy usage) then yieldTotals else Monad.gret tt
   else Monad.gret tt)%gen.

Definition gptLine (line : string) : Gen Totals bool :=
  (if String.eqb (Str.trim line) "data: [DONE]" then
     yieldTotals ;;; Monad.gret true
   else if Str.startsWith line "data: " then
     let jsonData := Str.slice 6 line in
     Monad.gtryCatch
       (data <- liftRes (parseJson jsonData) ;; gptFrame data)
       (fun _ => Monad.gret tt) ;;;
     Monad.gret false
   else Monad.gret false)%gen.

Definition streamCompletionGPT {S} (stream : Stream) : Gen S unit :=
  withLocals {| inputTokens := JNum 0; outputTokens := JNum 0 |}
    (consume gptLine stream).

(** *** Dispatch *)

Definition anthropicModels : list string :=
  [ "anthropic--claude-3.5-sonnet"; "anthropic--claude-3-sonnet";
    "anthropic--claude-3-haiku"; "anthropic--claude-3-opus" ].

Definition openAIModels : list string := [ "gpt-4o"; "gpt-4"; "gpt-4o-mini" ].

Definition anthropicPayload (max_tokens : JS) (systemPrompt : string)
    (messages : list JS) : JS :=
  JObj [ ("max_tokens", max_tokens); ("system", JStr systemPrompt);
         ("messages", JArr messages);
         ("anthropic_version", JStr "bedrock-2023-05-31") ].

Definition openAiPayload (max_tokens : JS) (systemPrompt : string)
    (messages : list JS) : JS :=
  JObj [ ("stream", JBool true);
         ("messages",
          JArr (JObj [ ("role", JStr "system"); ("content", JStr systemPrompt) ]
                  :: convertToOpenAiMessages messages));
         ("max_tokens", max_tokens);
         ("temperature", JNum 0); ("frequency_penalty", JNum 0);
         ("presence_penalty", JNum 0); ("stop", JNull);
         ("stream_options", JObj [ ("include_usage", JBool true) ]) ].

Definition createMessage (systemPrompt : string) (messages : list JS)
    : Gen State unit :=
  (bearer <- Monad.await getToken ;;
   s <- getLocal ;;
   let headers := headersFor bearer s in
   let model := getModel (options s) in
   deploymentId <- Monad.await (getDeploymentForModel (model_id model)) ;;
   request_ <-
     (if Str.includes anthropicModels (model_id model) then
        idText <- liftRes (show deploymentId) ;;
        max_tokens <- liftRes (maxTokensOf (model_info model)) ;;
        Monad.gret ((showOpt (sapAiCoreBaseUrl (options s)) ++ "/inference/deployments/"
                       ++ idText ++ "/invoke-with-response-stream")%string,
                    anthropicPayload max_tokens systemPrompt messages)
      else if Str.includes openAIModels (model_id model) then
        idText <- liftRes (show deploymentId) ;;
        max_tokens <- liftRes (maxTokensOf (model_info model)) ;;
        Monad.gret ((showOpt (sapAiCoreBaseUrl (options s)) ++ "/inference/deployments/"
                       ++ idText ++ "/chat/completions?api-version=2023-05-15")%string,
                    openAiPayload max_tokens systemPrompt messages)
      else liftRes (Throw (Err ("Unsupported model: " ++ model_id model)%string))) ;;
   let '(url, payload) := request_ in
   Monad.gtryCatch
     (data <- Monad.await (request (PostInference url payload headers)
                             (inferenceReply env)) ;;
      if Str.includes openAIModels (model_id model)
      then streamCompletionGPT data
      else streamCompletion data)
     (fun _ => liftRes (Throw (Err "Failed to create message"))))%gen.

(** *** The request shown to the user *)

(** [createUserReadableRequest]; it reads the options of the handler and
    nothing else.  [userContent] is an array of content blocks. *)
Definition createUserReadableRequest (userContent : list JS) (s : State) : Res JS :=
  let id := model_id (getModel (options s)) in
  bindRes (maxTokensOf (model_info (getModel (options s)))) (fun max_tokens =>
    Val (JObj [ ("model", JStr id);
                ("max_tokens", max_tokens);
                ("system", JStr "(see SYSTEM_PROMPT in src/ClaudeDev.ts)");
                ("messages",
                 JArr [ JObj [ ("conversation_history", JStr "...") ];
                        JObj [ ("role", JStr "user"); ("content", JArr userContent) ] ]);
                ("tools", JStr "(see tools in src/ClaudeDev.ts)");
                ("tool_choice", JObj [ ("type", JStr "auto") ]) ])).

End SapAiCoreHandler.

(** ** A reader for a fragment of JSON

    [Json.parse] reads JSON text without fractions, exponents and [\u]
    escapes.  It stands for [JSON.parse] wherever a statement is evaluated on
    concrete text. *)

Module Json.

Definition DQUOTE : ascii := "034"%char.
Definition BACKSLASH : ascii := "092"%char.

(** Writes JSON text with apostrophes in place of double quotes. *)
Fixpoint text (s : string) : string :=
  match s with
  | EmptyString => EmptyString
  | String c rest => String (if Ascii.eqb c "'"%char then DQUOTE else c) (text rest)
  end.

Definition isWs (c : ascii) : bool :=
  let n := nat_of_ascii c in ((n =? 32) || (n =? 9) || (n =? 10) || (n =? 13))%nat.

Fixpoint skipWs (s : string) : string :=
  match s with
  | String c rest => if isWs c then skipWs rest else s
  | EmptyString => EmptyString
  end.

Definition digit (c : ascii) : option Z :=
  let n := nat_of_ascii c in
  if ((48 <=? n) && (n <=? 57))%nat then Some (Z.of_nat (n - 48)) else None.

Fixpoint digits (acc : Z) (s : string) : Z * string :=
  match s with
  | String c rest =>
      match digit c with
      | Some d => digits (10 * acc + d) rest
      | None => (acc, s)
      end
  | EmptyString => (acc, s)
  end.

Definition startsFraction (s : string) : bool :=
  match s with
  | String c _ => Ascii.eqb c "."%char || Ascii.eqb c "e"%char || Ascii.eqb c "E"%char
  | EmptyString => false
  end.

(** An integer literal: no leading zero, no fraction, no exponent. *)
Definition natural (s : string) : option (Z * string) :=
  match s with
  | String c rest =>
      match digit c with
      | Some 0 =>
          match rest with
          | String c' _ =>
              match digit c' with
              | Some _ => None
              | None => if startsFraction rest then None else Some (0, rest)
              end
          | EmptyString => Some (0, rest)
          end
      | Some d =>
          let (n, rest') := digits d rest in
          if startsFraction rest' then None else Some (n, rest')
      | None => None
      end
  | EmptyString => None
  end.

Definition unescape (c : ascii) : option ascii :=
  if Ascii.eqb c DQUOTE then Some DQUOTE
  else if Ascii.eqb c BACKSLASH then Some BACKSLASH
  else if Ascii.eqb c "/"%char then Some "/"%char
  else if Ascii.eqb c "n"%char then Some "010"%char
  else if Ascii.eqb c "t"%char then Some "009"%char
  else if Ascii.eqb c "r"%char then Some "013"%char
  else if Ascii.eqb c "b"%char then Some "008"%char
  else if Ascii.eqb c "f"%char then Some "012"%char
  else None.

(** The characters of a string literal after its opening quote. *)
Fixpoint literal (s : string) : option (string * string) :=
  match s with
  | EmptyString => None
  | String c rest =>
      if Ascii.eqb c DQUOTE then Some (EmptyString, rest)
      else if Ascii.eqb c BACKSLASH then
        match rest with
        | String e rest' =>
            match unescape e, literal rest' with
            | Some u, Some (t, r) => Some (String u t, r)
            | _, _ => None
            end
        | EmptyString => None
        end
      else if (nat_of_ascii c <? 32)%nat then None
      else
        match literal rest with
        | Some (t, r) => Some (String c t, r)
        | None => None
        end
  end.

Definition keyword (k : string) (v : JS) (s : string) : option (JS * string) :=
  if String.prefix k s then Some (v, Str.slice (String.length k) s) else None.

Fixpoint value (fuel : nat) (s : string) : option (JS * string) :=
  match fuel with
  | O => None
  | S fuel' =>
      match skipWs s with
      | EmptyString => None
      | String c rest =>
          if Ascii.eqb c "{"%char then
            match skipWs rest with
            | String c' rest' =>
                if Ascii.eqb c' "}"%char then Some (JObj [], rest')
                else members fuel' [] rest
            | EmptyString => None
            end
          else if Ascii.eqb c "["%char then
            match skipWs rest with
            | String c' rest' =>
                if Ascii.eqb c' "]"%char then Some (JArr [], rest')
                else elements fuel' [] rest
            | EmptyString => None
            end
          else if Ascii.eqb c DQUOTE then
            match literal rest with
            | Some (t, r) => Some (JStr t, r)
            | None => None
            end
          else if Ascii.eqb c "-"%char then
            match natural rest with
            | Some (n, r) => Some (JNum (- n), r)
            | None => None
            end
          else if Ascii.eqb c "t"%char then keyword "true" (JBool true) (String c rest)
          else if Ascii.eqb c "f"%char then keyword "false" (JBool false) (String c rest)
          else if Ascii.eqb c "n"%char then keyword "null" JNull (String c rest)
          else
            match natural (String c rest) with
            | Some (n, r) => Some (JNum n, r)
            | None => None
            end
      end
  end

with elements (fuel : nat) (acc : list JS) (s : string) : option (JS * string) :=
  match fuel with
  | O => None
  | S fuel' =>
      match value fuel' s with
      | Some (v, r) =>
          match skipWs r with
          | String c rest =>
              if Ascii.eqb c ","%char then elements fuel' (v :: acc) rest
              else if Ascii.eqb c "]"%char then Some (JArr (rev (v :: acc)), rest)
              else None
          | EmptyString => None
          end
      | None => None
      end
  end

with members (fuel : nat) (acc : list (string * JS)) (s : string) : option (JS * string) :=
  match fuel with
  | O => None
  | S fuel' =>
      match skipWs s with
      | String q rest =>
          if Ascii.eqb q DQUOTE then
            match literal rest with
            | Some (k, r) =>
                match skipWs r with
                | String c r' =>
                    if Ascii.eqb c ":"%char then
                      match value fuel' r' with
                      | Some (v, r'') =>
                          match skipWs r'' with
                          | String d rest' =>
                              if Ascii.eqb d ","%char then members fuel' ((k, v) :: acc) rest'
                              else if Ascii.eqb d "}"%char then Some (JObj ((k, v) :: acc), rest')
                              else None
                          | EmptyString => None
                          end
                      | None => None
                      end
                    else None
                | EmptyString => None
                end
            | None => None
            end
          else None
      | EmptyString => None
      end
  end.

(** A later member shadows an earlier one of the same name: members are kept
    latest first, and [Js.lookup] takes the first it finds. *)
Definition parse (s : string) : option JS :=
  match value (S (String.length s)) s with
  | Some (v, r) =>
      match skipWs r with
      | EmptyString => Some v
      | String _ _ => None
      end
  | None => None
  end.

End Json.

(** * Vocabulary of the statements *)

(** The request [authenticate] sends from state [s]. *)
Definition tokenRequest (s : State) : NetCall :=
  PostToken (orDefault (sapAiCoreTokenUrl (options s)) "")
            (orDefault (sapAiCoreClientId (options s)) "")
            (orDefault (sapAiCoreClientSecret (options s)) "").

(** The token [authenticate] returns when the exchange succeeds with [tok] and
    the clock is then read for the [n]-th time. *)
Definition stamped (env : Env) (n : nat) (tok : Token.t) : Token.t :=
  Token.with_exipres_at (clock env n + Token.expires_in tok * 1000) tok.

(** One client-credentials exchange made from [s]: its token is cached and its
    bearer string returned, or the rejection is passed on. *)
Definition refreshed (env : Env) (s : State) : Res string * State :=
  match tokenReply env (List.length (trace s)) with
  | Some tok =>
      (Val (Token.access_token tok),
       set_token (stamped env (ticks s) tok) (tick (log_call (tokenRequest s) s)))
  | None => (Throw AxiosError, log_call (tokenRequest s) s)
  end.

(** The cached token has run out by the time [getToken] reads the clock, or
    there is none. *)
Definition expiredOrAbsent (env : Env) (s : State) : Prop :=
  match token s with
  | None => True
  | Some cached => Token.exipres_at cached < clock env (ticks s)
  end.

(** At most one request, of kind [p]. *)
Definition atMostOne (p : NetCall -> bool) (calls : list NetCall) : Prop :=
  calls = [] \/ exists c, calls = [c] /\ p c = true.

(** The requests of kind [p] among [calls]. *)
Definition count (p : NetCall -> bool) (calls : list NetCall) : nat :=
  List.length (filter p calls).

(** The part of a string before the first [c]; all of it when [c] does not
    occur.  Written from the words of the specification, to be compared with
    [split(c)[0]]. *)
Fixpoint beforeFirst (c : ascii) (s : string) : string :=
  match s with
  | EmptyString => EmptyString
  | String d rest => if Ascii.eqb d c then EmptyString else String d (beforeFirst c rest)
  end.

(** Two labels agree when their parts before the first colon are equal up to
    letter case. *)
Definition sameBaseName (a b : string) : Prop :=
  Str.toLowerCase (beforeFirst Str.COLON a) = Str.toLowerCase (beforeFirst Str.COLON b).

(** No deployment of the list has a label that agrees with the model id. *)
Definition unserved (modelId : string) (ds : list Deployment.t) : Prop :=
  Forall (fun d => ~ sameBaseName (Deployment.name d) modelId) ds.

(** [d] is the first deployment of the list whose label agrees with the
    model id. *)
Definition firstServing (modelId : string) (ds : list Deployment.t) (d : Deployment.t)
    : Prop :=
  exists before after,
    ds = before ++ d :: after
    /\ unserved modelId before
    /\ sameBaseName (Deployment.name d) modelId.

(** The first deployment of [ds] that serves [modelId]. *)
Definition resolve (modelId : string) (ds : list Deployment.t) : Res JS :=
  match find (matchesModel modelId) ds with
  | Some d => Val (Deployment.id d)
  | None => Throw (Err ("No running deployment found for model " ++ modelId)%string)
  end.

(** A handler configured with an empty secret only ever caches the sentinel
    list. *)
Definition sentinelCache (s : State) : Prop :=
  deployments s = None \/ deployments s = Some [notConfigured].

(** *** Rows of a deployment listing *)

Definition nullish (v : JS) : bool :=
  match v with
  | JUndef | JNull => true
  | _ => false
  end.

(** The backend model details of a row. *)
Definition rowModel (row : JS) : JS :=
  Js.getOpt (Js.getOpt (Js.getOpt (Js.getOpt row "details") "resources")
               "backend_details") "model".

Definition rowRunning (row : JS) : bool :=
  Js.isStr (Js.getOpt row "targetStatus") "RUNNING".

(** The row carries a model name and a model version (present and truthy). *)
Definition rowNamed (row : JS) : bool :=
  Js.truthy (Js.getOpt (rowModel row) "name")
  && Js.truthy (Js.getOpt (rowModel row) "version").

Definition rowKept (row : JS) : bool := rowRunning row && rowNamed row.

(** The label [name:version] of a row.  There is none when the name or the
    version cannot be converted to a string. *)
Definition rowLabel (ToString : JS -> Res string) (row : JS) : Res string :=
  bindRes (show ToString (Js.getOpt (rowModel row) "name")) (fun name =>
  bindRes (show ToString (Js.getOpt (rowModel row) "version")) (fun version =>
    Val (name ++ ":" ++ version)%string)).

(** The deployment made of a row: its id under its label. *)
Definition rowDeployment (ToString : JS -> Res string) (row : JS) : Res Deployment.t :=
  bindRes (rowLabel ToString row) (fun label =>
    Val (Deployment.mk (Js.getOpt row "id") label)).

(** The listing request sent with the bearer string [bearer] from [s]. *)
Definition listingRequest (bearer : string) (s : State) : NetCall :=
  GetDeployments
    (showOpt (sapAiCoreBaseUrl (options s)) ++ "/lm/deployments?$top=10000&$skip=0")%string
    (headersFor bearer s).

(** What [getAiCoreDeployments] makes of the reply to its listing request. *)
Definition listed (ToString : JS -> Res string) (reply : option JS) : Res (list Deployment.t) :=
  match reply with
  | Some data =>
      match bindRes (Js.get data "resources") (runningDeployments ToString) with
      | Val ds => Val ds
      | Throw _ => Throw (Err "Failed to fetch deployments")
      end
  | None => Throw (Err "Failed to fetch deployments")
  end.

(** *** Streams *)

(** The lines of a stream, chunk after chunk. *)
Definition linesOfStream (stream : Stream) : list string :=
  flat_map linesOf (chunks stream).

Definition dataLine (payload : string) : string := ("data: " ++ payload)%string.

Definition isSentinel (line : string) : bool :=
  String.eqb (Str.trim line) "data: [DONE]".

(** How a generator ends once the loop over its lines is over: it has
    returned, or the stream ends, or the stream fails. *)
Definition finish {S} (stream : Stream) (looked : list ApiStreamChunk * (Res bool * S))
    : list ApiStreamChunk * Res unit :=
  match looked with
  | (out, (Val true, _)) => (out, Val tt)
  | (out, (Val false, _)) => (out, if broken stream then Throw StreamError else Val tt)
  | (out, (Throw e, _)) => (out, Throw e)
  end.

(** The locals of the two generators when they start. *)
Definition noUsage : Usage := {| input_tokens := JNum 0; output_tokens := JNum 0 |}.

Definition noTotals : Totals := {| inputTokens := JNum 0; outputTokens := JNum 0 |}.

(** *** Frames of the OpenAI format *)

(** The first choice of a frame whose [choices] is an array. *)
Definition firstChoice (frame : JS) : JS :=
  match Js.getOpt frame "choices" with
  | JArr (c :: _) => c
  | _ => JUndef
  end.

Definition deltaContent (frame : JS) : JS :=
  Js.getOpt (Js.getOpt (firstChoice frame) "delta") "content".

Definition frameUsage (frame : JS) : JS := Js.getOpt frame "usage".

Definition finishedStop (frame : JS) : bool :=
  Js.isStr (Js.getOpt (firstChoice frame) "finish_reason") "stop".

(** The totals after a frame: each field of its usage object replaces the
    total seen before unless it is absent (or otherwise falsy). *)
Definition merged (t : Totals) (frame : JS) : Totals :=
  if Js.truthy (frameUsage frame) then
    {| inputTokens := Js.or (Js.getOpt (frameUsage frame) "prompt_tokens") (inputTokens t);
       outputTokens := Js.or (Js.getOpt (frameUsage frame) "completion_tokens") (outputTokens t) |}
  else t.

Definition usagePart (t : Totals) (frame : JS) : list ApiStreamChunk :=
  if Js.truthy (frameUsage frame)
  then [UsageChunk (inputTokens (merged t frame)) (outputTokens (merged t frame))]
  else [].

Definition flushPart (t : Totals) (frame : JS) : list ApiStreamChunk :=
  if finishedStop frame && negb (Js.truthy (frameUsage frame))
  then [UsageChunk (inputTokens t) (outputTokens t)]
  else [].

(** [choices[0]] of any frame: element 0 of an array, the member ["0"] of an
    object, [undefined] when there is none. *)
Definition choice0 (frame : JS) : JS :=
  match Js.get0 (Js.getOpt frame "choices") with
  | Val c => c
  | Throw _ => JUndef
  end.

(** The frame has choices: [choices] is truthy and reports a positive
    length, as every array that is not empty does. *)
Definition hasChoices (coercedPositive : JS -> bool) (frame : JS) : bool :=
  Js.truthy (Js.getOpt frame "choices")
  && positive coercedPositive (Js.getOpt (Js.getOpt frame "choices") "length").

Definition content0 (frame : JS) : JS :=
  Js.getOpt (Js.getOpt (choice0 frame) "delta") "content".

Definition stopped (frame : JS) : bool :=
  Js.isStr (Js.getOpt (choice0 frame) "finish_reason") "stop".

(** The value can be converted to a string. *)
Definition coerces (ToString : JS -> Res string) (v : JS) : bool :=
  match show ToString v with
  | Val _ => true
  | Throw _ => false
  end.

(** The frame is given up after its text: it has choices and the first is
    [null] or missing, or the content just yielded cannot be converted to a
    string. *)
Definition cutShort (ToString : JS -> Res string) (coercedPositive : JS -> bool)
    (frame : JS) : bool :=
  hasChoices coercedPositive frame
  && (nullish (choice0 frame)
      || Js.truthy (content0 frame) && negb (coerces ToString (content0 frame))).

(** *** Dispatch *)

Definition unsupported (modelId : string) : bool :=
  negb (Str.includes anthropicModels modelId) && negb (Str.includes openAIModels modelId).

Definition noInference (calls : list NetCall) : bool :=
  forallb (fun c => negb (isPostInference c)) calls.

(** *** Further vocabulary *)

(** A reply to the listing request from which no list can be made: the request
    is rejected, the body has no [resources] to read, [resources] is not an
    array, one of its rows is [null], or one of the rows to keep has no
    label. *)
Definition unusableListing (ToString : JS -> Res string) (reply : option JS) : Prop :=
  match reply with
  | None => True
  | Some data =>
      match Js.get data "resources" with
      | Val (JArr rows) =>
          Exists (fun row => nullish row = true) rows
          \/ Exists (fun row => rowKept row = true
                                /\ forall label, rowLabel ToString row <> Val label) rows
      | _ => True
      end
  end.

(** The message of the error raised when no deployment serves a model. *)
Definition noDeployment (modelId : string) : Error :=
  Err ("No running deployment found for model " ++ modelId)%string.

(** Occurrence of a character in a string. *)
Fixpoint contains (c : ascii) (s : string) : bool :=
  match s with
  | EmptyString => false
  | String d rest => Ascii.eqb d c || contains c rest
  end.

(** A line: not empty, and without a line feed. *)
Definition isLine (l : string) : bool :=
  negb (Str.isEmpty l) && negb (contains Str.LF l).

(** The text of lines each ended by a line feed. *)
Fixpoint joinLines (ls : list string) : string :=
  match ls with
  | [] => EmptyString
  | l :: rest => (l ++ String Str.LF (joinLines rest))%string
  end.

(** The content block a [content_block_start] or [content_block_delta] frame
    carries. *)
Definition blockOf (frame : JS) : JS :=
  if Js.isStr (Js.getOpt frame "type") "content_block_start"
  then Js.getOpt frame "content_block"
  else Js.getOpt frame "delta".

Definition isTextBlock (block : JS) : bool :=
  Js.isStr (Js.getOpt block "type") "text"
  || Js.isStr (Js.getOpt block "type") "text_delta".

(** The event types [streamCompletion] acts on. *)
Definition knownType (type : JS) : bool :=
  Js.isStr type "message_start" || Js.isStr type "content_block_start"
  || Js.isStr type "content_block_delta" || Js.isStr type "message_delta".

(** *** Further vocabulary of the dispatcher *)

(** What the [catch] of [createMessage] makes of the outcome of its [try]. *)
Definition wrapped (r : Res unit) : Res unit :=
  match r with
  | Val _ => Val tt
  | Throw _ => Throw (Err "Failed to create message")
  end.

(** The url of the inference request for a deployment whose id reads
    [idText]. *)
Definition inferenceUrl (s : State) (idText : string) (suffix : string) : string :=
  (showOpt (sapAiCoreBaseUrl (options s)) ++ "/inference/deployments/"
     ++ idText ++ suffix)%string.

(** The [try] of [createMessage]: the request is sent from [s2] and, when it
    is answered, the body is handed to [parser]. *)
Definition inference (env : Env) (call : NetCall)
    (parser : Stream -> Gen State unit) (s2 : State)
    : list ApiStreamChunk * (Res unit * State) :=
  match inferenceReply env (List.length (trace s2)) with
  | None => ([], (Throw (Err "Failed to create message"), log_call call s2))
  | Some stream =>
      (fst (parser stream (log_call call s2)),
       (wrapped (fst (snd (parser stream (log_call call s2)))), log_call call s2))
  end.

(** The last request of a trace. *)
Definition lastCall (calls : list NetCall) : option NetCall :=
  last (map Some calls) None.

(** * Concrete worlds *)

Module Example.

Definition opts : ApiHandlerOptions :=
  {| apiModelId := Some "gpt-4o";
     sapAiCoreClientId := Some "client";
     sapAiCoreClientSecret := Some "secret";
     sapAiCoreTokenUrl := Some "https://auth.example/oauth/token";
     sapAiResourceGroup := None;
     sapAiCoreBaseUrl := Some "https://api.example/v2" |}.

Definition issued : Token.t :=
  Token.mk "abc" 3600 "" "" "bearer" 0.

Fixpoint hasOwn (k : string) (members : list (string * JS)) : bool :=
  match members with
  | [] => false
  | (k', _) :: rest => String.eqb k k' || hasOwn k rest
  end.

(** [String(v)] on the values that are not strings, numbers or arrays.  An
    object read from JSON with a member [toString] of its own cannot be
    converted. *)
Definition toString (v : JS) : Res string :=
  match v with
  | JUndef => Val "undefined"
  | JNull => Val "null"
  | JBool true => Val "true"
  | JBool false => Val "false"
  | JObj members =>
      if hasOwn "toString" members then Throw TypeError else Val "[object Object]"
  | _ => Val "[object Object]"
  end.

Definition read (text : string) : JS :=
  match Json.parse (Json.text text) with
  | Some v => v
  | None => JUndef
  end.

(** A listing of five deployments: one running, one stopped, one without a
    version, one without model details, one more running. *)
Definition listing : JS :=
  read ("{'resources':["
    ++ "{'id':'d1','targetStatus':'RUNNING','details':{'resources':{'backend_details':"
    ++ "{'model':{'name':'claude-3-5-sonnet','version':'v1'}}}}},"
    ++ "{'id':'d2','targetStatus':'STOPPED','details':{'resources':{'backend_details':"
    ++ "{'model':{'name':'gpt-4','version':'0613'}}}}},"
    ++ "{'id':'d3','targetStatus':'RUNNING','details':{'resources':{'backend_details':"
    ++ "{'model':{'name':'gpt-4o-mini'}}}}},"
    ++ "{'id':'d4','targetStatus':'RUNNING','details':{}},"
    ++ "{'id':'d5','targetStatus':'RUNNING','details':{'resources':{'backend_details':"
    ++ "{'model':{'name':'gpt-4o','version':'latest'}}}}}"
    ++ "]}")%string.

Definition listingRows : list JS :=
  match Js.getOpt listing "resources" with
  | JArr rows => rows
  | _ => []
  end.

Definition env : Env :=
  {| clock := fun n => 1000 + Z.of_nat n;
     tokenReply := fun _ => Some issued;
     deploymentsReply := fun _ => Some listing;
     inferenceReply := fun _ => None |}.

Definition fresh : State := constructor opts.

(** A handler that holds a token running out at instant [at_]. *)
Definition holding (at_ : Z) : State :=
  set_token (Token.mk "old" 3600 "" "" "bearer" at_) fresh.

(** The same handler configured with an empty client secret. *)
Definition unconfigured : State :=
  constructor
    {| apiModelId := Some "gpt-4o";
       sapAiCoreClientId := Some "client";
       sapAiCoreClientSecret := Some "";
       sapAiCoreTokenUrl := Some "https://auth.example/oauth/token";
       sapAiResourceGroup := None;
       sapAiCoreBaseUrl := Some "https://api.example/v2" |}.

(** *** Registries

    One with the seven models the dispatcher knows, and one with an eighth
    model that it does not know. *)

Definition registry : list (string * ModelInfo) :=
  [ ("anthropic--claude-3.5-sonnet", {| maxTokens := Some 8192 |});
    ("anthropic--claude-3-sonnet", {| maxTokens := Some 4096 |});
    ("anthropic--claude-3-haiku", {| maxTokens := Some 4096 |});
    ("anthropic--claude-3-opus", {| maxTokens := Some 4096 |});
    ("gpt-4o", {| maxTokens := Some 4096 |});
    ("gpt-4", {| maxTokens := Some 4096 |});
    ("gpt-4o-mini", {| maxTokens := Some 4096 |}) ].

Definition extended : list (string * ModelInfo) :=
  registry ++ [ ("mistralai--mistral-large-instruct", {| maxTokens := Some 8192 |}) ].

Definition defaultId : string := "anthropic--claude-3.5-sonnet".

Definition convert (messages : list JS) : list JS := messages.

Definition withModel (modelId : string) : ApiHandlerOptions :=
  {| apiModelId := Some modelId;
     sapAiCoreClientId := Some "client";
     sapAiCoreClientSecret := Some "secret";
     sapAiCoreTokenUrl := Some "https://auth.example/oauth/token";
     sapAiResourceGroup := None;
     sapAiCoreBaseUrl := Some "https://api.example/v2" |}.

(** A listing with a running deployment of the eighth model. *)
Definition otherListing : JS :=
  read ("{'resources':["
    ++ "{'id':'d9','targetStatus':'RUNNING','details':{'resources':{'backend_details':"
    ++ "{'model':{'name':'mistralai--mistral-large-instruct','version':'2407'}}}}}"
    ++ "]}")%string.

Definition otherEnv : Env :=
  {| clock := fun n => 1000 + Z.of_nat n;
     tokenReply := fun _ => Some issued;
     deploymentsReply := fun _ => Some otherListing;
     inferenceReply := fun _ => None |}.

(** *** Streams *)

Definition nl : string := Str.of_char Str.LF.

Definition parsed (payload : string) : JS :=
  match Json.parse payload with
  | Some v => v
  | None => JUndef
  end.

Definition messageStart : string :=
  Json.text "{'type':'message_start','message':{'role':'assistant','usage':{'input_tokens':10}}}".

Definition textDelta : string :=
  Json.text "{'type':'content_block_delta','index':0,'delta':{'type':'text_delta','text':'hi'}}".

Definition messageDelta : string :=
  Json.text "{'type':'message_delta','delta':{'stop_reason':'end_turn'},'usage':{'output_tokens':3}}".

(** The three frames in two chunks, with blank lines between them. *)
Definition anthropicStream : Stream :=
  {| chunks := [ (dataLine messageStart ++ nl ++ nl ++ dataLine textDelta ++ nl)%string;
                 (dataLine messageDelta ++ nl ++ nl)%string ];
     broken := false |}.

(** The same frames with a cut-off frame after the first. *)
Definition garbledStream : Stream :=
  {| chunks := [ (dataLine messageStart ++ nl ++ Json.text "data: {'type':" ++ nl
                    ++ dataLine textDelta ++ nl)%string;
                 (dataLine messageDelta ++ nl ++ nl)%string ];
     broken := false |}.

Definition contentHi : string :=
  Json.text "{'choices':[{'index':0,'delta':{'content':'hi'},'finish_reason':null}]}".

(** A frame, the sentinel, and more that is never read: the transport fails
    after the second chunk. *)
Definition gptStream : Stream :=
  {| chunks := [ (dataLine contentHi ++ nl ++ nl ++ "data: [DONE]" ++ nl)%string;
                 dataLine contentHi ];
     broken := true |}.

Definition garbledGptStream : Stream :=
  {| chunks := [ (dataLine contentHi ++ nl ++ Json.text "data: {'choices':" ++ nl
                    ++ dataLine contentHi ++ nl)%string ];
     broken := false |}.

Definition plainGptStream : Stream :=
  {| chunks := [ (dataLine contentHi ++ nl ++ dataLine contentHi ++ nl)%string ];
     broken := false |}.





(** No coercion is needed on these frames. *)
Definition noCoercion (v : JS) : bool := false.

(** *** Further worlds *)

(** A listing with a [null] row. *)
Definition nullRowListing : JS :=
  read "{'resources':[{'id':'d1','targetStatus':'RUNNING'},null]}".

Definition nullRowEnv : Env :=
  {| clock := fun n => 1000 + Z.of_nat n;
     tokenReply := fun _ => Some issued;
     deploymentsReply := fun _ => Some nullRowListing;
     inferenceReply := fun _ => None |}.

(** A listing whose running row has a version that cannot be converted to a
    string. *)
Definition oddVersionListing : JS :=
  read ("{'resources':["
    ++ "{'id':'d1','targetStatus':'RUNNING','details':{'resources':{'backend_details':"
    ++ "{'model':{'name':'gpt-4o','version':{'toString':1}}}}}}"
    ++ "]}")%string.

Definition oddVersionEnv : Env :=
  {| clock := fun n => 1000 + Z.of_nat n;
     tokenReply := fun _ => Some issued;
     deploymentsReply := fun _ => Some oddVersionListing;
     inferenceReply := fun _ => None |}.

(** A world in which every request is rejected. *)
Definition offlineEnv : Env :=
  {| clock := fun n => 1000 + Z.of_nat n;
     tokenReply := fun _ => None;
     deploymentsReply := fun _ => None;
     inferenceReply := fun _ => None |}.

(** Two versions of one model, held in the cache. *)
Definition twoVersions : State :=
  set_deployments
    [ Deployment.mk (JStr "d1") "claude-3-5-sonnet:v1";
      Deployment.mk (JStr "d2") "Claude-3-5-Sonnet:v2" ]
    fresh.

(** A listing with running deployments of one model of each family, and a
    world that answers every inference request with the body [reply]. *)
Definition servingListing : JS :=
  read ("{'resources':["
    ++ "{'id':'da','targetStatus':'RUNNING','details':{'resources':{'backend_details':"
    ++ "{'model':{'name':'anthropic--claude-3.5-sonnet','version':'1'}}}}},"
    ++ "{'id':'dg','targetStatus':'RUNNING','details':{'resources':{'backend_details':"
    ++ "{'model':{'name':'gpt-4o','version':'2024-05-13'}}}}}"
    ++ "]}")%string.

Definition servingEnv (reply : option Stream) : Env :=
  {| clock := fun n => 1000 + Z.of_nat n;
     tokenReply := fun _ => Some issued;
     deploymentsReply := fun _ => Some servingListing;
     inferenceReply := fun _ => reply |}.

Definition claude : State := constructor (withModel "anthropic--claude-3.5-sonnet").

Definition gpt : State := constructor (withModel "gpt-4o").

(** The same handler with a cached deployment whose id is an object that
    cannot be converted to a string. *)
Definition oddId : State :=
  set_deployments [ Deployment.mk (JObj [("toString", JNum 1)]) "gpt-4o:1" ] gpt.

(** The three Anthropic frames, one line in each chunk. *)
Definition rechunkedStream : Stream :=
  {| chunks := [ dataLine messageStart; (nl ++ dataLine textDelta)%string;
                 dataLine messageDelta ];
     broken := false |}.

(** The same frames with the [event: ] lines of server-sent events. *)
Definition eventStream : Stream :=
  {| chunks := [ (dataLine messageStart ++ nl ++ "event: content_block_delta" ++ nl
                    ++ dataLine textDelta ++ nl)%string;
                 (dataLine messageDelta ++ nl ++ nl)%string ];
     broken := false |}.

(** [gptStream] cut after its sentinel. *)
Definition cutGptStream : Stream :=
  {| chunks := [ (dataLine contentHi ++ nl ++ "data: [DONE]")%string ];
     broken := false |}.

Definition ping : string := Json.text "{'type':'ping'}".

Definition blockStart : string :=
  Json.text "{'type':'content_block_start','index':0,'content_block':{'type':'text','text':''}}".

Definition toolStart : string :=
  Json.text "{'type':'content_block_start','index':1,'content_block':{'type':'tool_use','id':'t1'}}".

Definition startWithoutUsage : string :=
  Json.text "{'type':'message_start','message':{'role':'assistant'}}".

End Example.

(** * Properties *)

(** Unfolds the monadic plumbing of a method body. *)
Ltac unfold_m :=
  unfold Monad.bind, Monad.ret, Monad.get, Monad.throw,
    Monad.ofRes, Monad.tryCatch, Monad.gbind, Monad.gret, Monad.await,
    Monad.yield, Monad.gtryCatch in *.

(** ** Credential manager *)

Section Credentials.

Variable env : Env.

Lemma authenticate_run (s : State) :
  authenticate env s =
    match tokenReply env (List.length (trace s)) with
    | Some tok => (Val (stamped env (ticks s) tok), tick (log_call (tokenRequest s) s))
    | None => (Throw AxiosError, log_call (tokenRequest s) s)
    end.
Proof.
  unfold authenticate, request, Date_now, stamped, tokenRequest. unfold_m.
  destruct (tokenReply env (List.length (trace s))); reflexivity.
Qed.

Lemma getToken_absent (s : State) :
  token s = None -> getToken env s = refreshed env s.
Proof.
  intros H. unfold getToken, refreshed. unfold_m. rewrite H.
  rewrite authenticate_run.
  destruct (tokenReply env (List.length (trace s))); reflexivity.
Qed.

Lemma getToken_expired (s : State) (cached : Token.t) :
  token s = Some cached ->
  Token.exipres_at cached < clock env (ticks s) ->
  getToken env s = refreshed env (tick s).
Proof.
  intros H Hlt. unfold getToken, refreshed, Date_now. unfold_m. rewrite H.
  apply Z.ltb_lt in Hlt. rewrite Hlt. rewrite authenticate_run.
  destruct (tokenReply env (List.length (trace (tick s)))); reflexivity.
Qed.

Lemma getToken_fresh (s : State) (cached : Token.t) :
  token s = Some cached ->
  clock env (ticks s) <= Token.exipres_at cached ->
  getToken env s = (Val (Token.access_token cached), tick s).
Proof.
  intros H Hle. unfold getToken, Date_now. unfold_m. rewrite H.
  apply Z.ltb_ge in Hle. rewrite Hle. reflexivity.
Qed.

Lemma refreshed_trace (s : State) :
  trace (snd (refreshed env s)) = trace s ++ [tokenRequest s].
Proof.
  unfold refreshed. destruct (tokenReply env (List.length (trace s))); reflexivity.
Qed.

(** Whatever the cache holds, [getToken] sends at most one request, and it is
    a token exchange. *)
Lemma getToken_trace (s : State) :
  exists calls,
    trace (snd (getToken env s)) = trace s ++ calls /\ atMostOne isPostToken calls.
Proof.
  destruct (token s) as [cached|] eqn:Htok.
  - destruct (Z.lt_ge_cases (Token.exipres_at cached) (clock env (ticks s))) as [Hlt|Hge].
    + rewrite (getToken_expired s cached Htok Hlt), refreshed_trace.
      exists [tokenRequest (tick s)]. split; [reflexivity|].
      right. eexists. split; reflexivity.
    + rewrite (getToken_fresh s cached Htok Hge). exists []. split.
      * simpl. now rewrite app_nil_r.
      * now left.
  - rewrite (getToken_absent s Htok), refreshed_trace.
    exists [tokenRequest s]. split; [reflexivity|].
    right. eexists. split; reflexivity.
Qed.

Lemma getToken_options (s : State) :
  options (snd (getToken env s)) = options s.
Proof.
  destruct (token s) as [cached|] eqn:Htok.
  - destruct (Z.lt_ge_cases (Token.exipres_at cached) (clock env (ticks s))) as [Hlt|Hge].
    + rewrite (getToken_expired s cached Htok Hlt). unfold refreshed.
      destruct (tokenReply env _); reflexivity.
    + now rewrite (getToken_fresh s cached Htok Hge).
  - rewrite (getToken_absent s Htok). unfold refreshed.
    destruct (tokenReply env _); reflexivity.
Qed.

Lemma getToken_deployments (s : State) :
  deployments (snd (getToken env s)) = deployments s.
Proof.
  destruct (token s) as [cached|] eqn:Htok.
  - destruct (Z.lt_ge_cases (Token.exipres_at cached) (clock env (ticks s))) as [Hlt|Hge].
    + rewrite (getToken_expired s cached Htok Hlt). unfold refreshed.
      destruct (tokenReply env _); reflexivity.
    + now rewrite (getToken_fresh s cached Htok Hge).
  - rewrite (getToken_absent s Htok). unfold refreshed.
    destruct (tokenReply env _); reflexivity.
Qed.

(** C2. A cached token whose expiry instant lies after the instant [getToken]
    reads from the clock is returned as it is, with no request sent and the
    cache untouched.  When no token is cached, or the cached one has run out,
    exactly one request is sent, the token exchange; when it succeeds its
    bearer string is returned and its token cached with a new expiry, and when
    it is rejected the rejection is passed on and the cache is left alone. *)
Theorem getToken_cached_or_one_authentication (s : State) :
  (forall cached,
      token s = Some cached ->
      clock env (ticks s) < Token.exipres_at cached ->
      fst (getToken env s) = Val (Token.access_token cached)
      /\ trace (snd (getToken env s)) = trace s
      /\ token (snd (getToken env s)) = Some cached)
  /\
  (expiredOrAbsent env s ->
   exists asked,
     trace (snd (getToken env s)) = trace s ++ [tokenRequest s]
     /\ count isPostToken [tokenRequest s] = 1%nat
     /\ match tokenReply env (List.length (trace s)) with
        | Some tok =>
            fst (getToken env s) = Val (Token.access_token tok)
            /\ token (snd (getToken env s)) = Some (stamped env asked tok)
        | None =>
            fst (getToken env s) = Throw AxiosError
            /\ token (snd (getToken env s)) = token s
        end).
Proof.
  split.
  - intros cached Htok Hlt.
    rewrite (getToken_fresh s cached Htok) by lia. simpl. auto.
  - unfold expiredOrAbsent. intros Hexp.
    destruct (token s) as [cached|] eqn:Htok.
    + rewrite (getToken_expired s cached Htok Hexp). unfold refreshed. simpl.
      exists (S (ticks s)).
      destruct (tokenReply env (List.length (trace s))); simpl; auto.
    + rewrite (getToken_absent s Htok). unfold refreshed.
      exists (ticks s).
      destruct (tokenReply env (List.length (trace s))); simpl; auto.
Qed.

End Credentials.

(** On a concrete handler: a token good until instant 5000 is reused at
    instant 1000; with no token, or one that ran out at instant 10, one
    exchange is made and its token returned. *)
Lemma getToken_cached_or_one_authentication_witness :
  (fst (getToken Example.env (Example.holding 5000)) = Val "old"
   /\ trace (snd (getToken Example.env (Example.holding 5000))) = [])
  /\ (exists asked,
        trace (snd (getToken Example.env Example.fresh))
          = [tokenRequest Example.fresh]
        /\ fst (getToken Example.env Example.fresh) = Val "abc"
        /\ token (snd (getToken Example.env Example.fresh))
             = Some (stamped Example.env asked Example.issued))
  /\ (exists asked,
        fst (getToken Example.env (Example.holding 10)) = Val "abc"
        /\ token (snd (getToken Example.env (Example.holding 10)))
             = Some (stamped Example.env asked Example.issued)).
Proof.
  pose proof (getToken_cached_or_one_authentication Example.env (Example.holding 5000)) as [Hfresh _].
  pose proof (getToken_cached_or_one_authentication Example.env Example.fresh) as [_ Habsent].
  pose proof (getToken_cached_or_one_authentication Example.env (Example.holding 10)) as [_ Hexpired].
  split; [|split].
  - destruct (Hfresh _ eq_refl) as (H1 & H2 & _); [vm_compute; reflexivity|].
    split; assumption.
  - destruct (Habsent I) as (asked & H1 & _ & H2 & H3).
    exists asked. repeat split; assumption.
  - destruct Hexpired as (asked & _ & _ & H2 & H3); [vm_compute; reflexivity|].
    exists asked. split; assumption.
Defined.

(** ** Deployment resolver *)

Lemma get_getOpt (v : JS) (k : string) :
  nullish v = false -> Js.get v k = Val (Js.getOpt v k).
Proof.
  destruct v; simpl; intros H; try discriminate; reflexivity.
Qed.

Lemma get_nullish (v : JS) (k : string) :
  nullish v = true -> Js.get v k = Throw TypeError.
Proof.
  destruct v; simpl; intros H; try discriminate; reflexivity.
Qed.

Lemma getOpt_nullish (v : JS) (k : string) :
  nullish v = true -> Js.getOpt v k = JUndef.
Proof.
  destruct v; simpl; intros H; try discriminate; reflexivity.
Qed.

Lemma truthy_getOpt_not_nullish (v : JS) (k : string) :
  Js.truthy (Js.getOpt v k) = true -> nullish v = false.
Proof.
  destruct v; simpl; intros H; try discriminate; reflexivity.
Qed.

Lemma truthy_not_nullish (v : JS) :
  Js.truthy v = true -> nullish v = false.
Proof.
  destruct v; simpl; intros H; try discriminate; reflexivity.
Qed.

(** *** [map] with a callback that may throw *)

Lemma mapRes_Forall2 {A B} (f : A -> Res B) (xs : list A) (ys : list B) :
  mapRes f xs = Val ys <-> Forall2 (fun x y => f x = Val y) xs ys.
Proof.
  revert ys. induction xs as [|x xs IH]; intros ys; simpl.
  - split.
    + intros [= <-]. constructor.
    + intros H. inversion H. reflexivity.
  - split.
    + destruct (f x) as [y|e] eqn:Hx; [|discriminate].
      destruct (mapRes f xs) as [ys'|e]; [|discriminate].
      intros [= <-]. constructor; [exact Hx|]. now apply IH.
    + intros H. inversion H as [|? y ? ys' Hx Hrest]; subst.
      rewrite Hx. apply IH in Hrest. now rewrite Hrest.
Qed.

Lemma mapRes_In {A B} (f : A -> Res B) (xs : list A) (ys : list B) :
  mapRes f xs = Val ys ->
  forall y, In y ys <-> exists x, In x xs /\ f x = Val y.
Proof.
  intros H. apply mapRes_Forall2 in H.
  induction H as [|x y xs ys Hx _ IH]; intros z; simpl.
  - split; [tauto|]. intros (x & [] & _).
  - rewrite IH. split.
    + intros [<-|(x' & Hin & Hx')]; [exists x|exists x']; auto.
    + intros (x' & [<-|Hin] & Hx'); [left; congruence|right; now exists x'].
Qed.

Lemma mapRes_Throw {A B} (f : A -> Res B) (xs : list A) (e : Error) :
  mapRes f xs = Throw e -> exists x, In x xs /\ f x = Throw e.
Proof.
  induction xs as [|x xs IH]; simpl; [discriminate|].
  destruct (f x) as [y|e'] eqn:Hx.
  - destruct (mapRes f xs) as [ys|e'']; [discriminate|].
    intros [= <-]. destruct (IH eq_refl) as (x' & Hin & Hx'). exists x'. auto.
  - intros [= <-]. exists x. auto.
Qed.

Lemma mapRes_total {A B} (f : A -> Res B) (xs : list A) :
  (forall x, In x xs -> exists y, f x = Val y) -> exists ys, mapRes f xs = Val ys.
Proof.
  intros Hall. destruct (mapRes f xs) as [ys|e] eqn:Hmap; [now exists ys|].
  destruct (mapRes_Throw _ _ _ Hmap) as (x & Hin & Hx).
  destruct (Hall x Hin) as (y & Hy). congruence.
Qed.

Section Listing.

Variable ToString : JS -> Res string.

Lemma isRunning_row (row : JS) :
  nullish row = false -> isRunning row = Val (rowRunning row).
Proof.
  intros H. unfold isRunning, rowRunning. now rewrite (get_getOpt _ _ H).
Qed.

Lemma rowDeployment_label (row : JS) (d : Deployment.t) :
  rowDeployment ToString row = Val d <->
  exists name version,
    show ToString (Js.getOpt (rowModel row) "name") = Val name
    /\ show ToString (Js.getOpt (rowModel row) "version") = Val version
    /\ d = Deployment.mk (Js.getOpt row "id") (name ++ ":" ++ version)%string.
Proof.
  unfold rowDeployment, rowLabel.
  destruct (show ToString (Js.getOpt (rowModel row) "name")) as [name|e]; simpl.
  - destruct (show ToString (Js.getOpt (rowModel row) "version")) as [version|e]; simpl.
    + split.
      * intros [= <-]. now exists name, version.
      * intros (n & v & [= <-] & [= <-] & ->). reflexivity.
    + split; [discriminate|]. intros (n & v & _ & H & _). discriminate.
  - split; [discriminate|]. intros (n & v & H & _). discriminate.
Qed.

Lemma rowDeployment_rowLabel (row : JS) :
  (exists d, rowDeployment ToString row = Val d)
  <-> (exists label, rowLabel ToString row = Val label).
Proof.
  unfold rowDeployment. destruct (rowLabel ToString row) as [label|e]; simpl.
  - split; intros _; eexists; reflexivity.
  - split; intros (x & H); discriminate.
Qed.

Lemma toDeployment_row (row : JS) :
  nullish row = false ->
  toDeployment ToString row
    = if rowNamed row
      then match rowDeployment ToString row with
           | Val d => Val (Some d)
           | Throw e => Throw e
           end
      else Val None.
Proof.
  intros H. unfold toDeployment, backendModel, rowNamed, rowDeployment, rowLabel.
  rewrite (get_getOpt _ "details" H). simpl bindRes. fold (rowModel row).
  destruct (Js.truthy (Js.getOpt (rowModel row) "name")) eqn:Hname; simpl; [|reflexivity].
  destruct (Js.truthy (Js.getOpt (rowModel row) "version")) eqn:Hver; simpl; [|reflexivity].
  pose proof (truthy_getOpt_not_nullish _ _ Hname) as Hmodel.
  rewrite (get_getOpt _ "id" H), !(get_getOpt _ _ Hmodel). cbn [bindRes].
  destruct (show ToString (Js.getOpt (rowModel row) "name")); cbn [bindRes]; [|reflexivity].
  destruct (show ToString (Js.getOpt (rowModel row) "version")); reflexivity.
Qed.

Lemma filterRes_rows (rows : list JS) :
  Forall (fun row => nullish row = false) rows ->
  filterRes isRunning rows = Val (filter rowRunning rows).
Proof.
  induction 1 as [|row rows Hrow _ IH]; simpl; [reflexivity|].
  rewrite (isRunning_row _ Hrow), IH. reflexivity.
Qed.

Lemma mapRes_rows (rows : list JS) :
  Forall (fun row => nullish row = false) rows ->
  bindRes (mapRes (toDeployment ToString) rows) (fun mapped => Val (dropNull mapped))
    = mapRes (rowDeployment ToString) (filter rowNamed rows).
Proof.
  induction 1 as [|row rows Hrow _ IH]; simpl; [reflexivity|].
  rewrite (toDeployment_row _ Hrow).
  destruct (rowNamed row); simpl.
  - destruct (rowDeployment ToString row) as [d|e]; [|reflexivity].
    rewrite <- IH.
    destruct (mapRes (toDeployment ToString) rows) as [mapped|e]; reflexivity.
  - rewrite <- IH.
    destruct (mapRes (toDeployment ToString) rows) as [mapped|e]; reflexivity.
Qed.

Lemma filter_filter_kept (rows : list JS) :
  filter rowNamed (filter rowRunning rows) = filter rowKept rows.
Proof.
  induction rows as [|row rows IH]; simpl; [reflexivity|].
  unfold rowKept at 1. destruct (rowRunning row); simpl; [|exact IH].
  destruct (rowNamed row); now rewrite IH.
Qed.

Lemma Forall_filter_keep {A} (P : A -> Prop) (p : A -> bool) (xs : list A) :
  Forall P xs -> Forall P (filter p xs).
Proof.
  induction 1; simpl; [constructor|].
  destruct (p x); [constructor|]; assumption.
Qed.

(** The chain [filter], [map], [filter] over rows none of which is [null]. *)
Lemma runningDeployments_rows (rows : list JS) :
  Forall (fun row => nullish row = false) rows ->
  runningDeployments ToString (JArr rows)
    = mapRes (rowDeployment ToString) (filter rowKept rows).
Proof.
  intros H. unfold runningDeployments.
  rewrite (filterRes_rows _ H). simpl bindRes.
  rewrite (mapRes_rows _ (Forall_filter_keep _ _ _ H)).
  now rewrite filter_filter_kept.
Qed.

(** A [null] row makes the first [filter] throw. *)
Lemma filterRes_null_row (rows : list JS) :
  Exists (fun row => nullish row = true) rows ->
  filterRes isRunning rows = Throw TypeError.
Proof.
  induction rows as [|row rows IH]; intros H.
  - inversion H.
  - simpl. destruct (nullish row) eqn:Hrow.
    + unfold isRunning. now rewrite (get_nullish _ _ Hrow).
    + rewrite (isRunning_row _ Hrow).
      inversion H as [? ? Hhd|? ? Htl]; subst; [congruence|].
      now rewrite (IH Htl).
Qed.

Variable env : Env.

Lemma getAiCoreDeployments_run (s : State) :
  getAiCoreDeployments ToString env s =
    if isEmptySecret (sapAiCoreClientSecret (options s)) then (Val [notConfigured], s)
    else
      match getToken env s with
      | (Val bearer, s1) =>
          (listed ToString (deploymentsReply env (List.length (trace s1))),
           log_call (listingRequest bearer s1) s1)
      | (Throw e, s1) => (Throw e, s1)
      end.
Proof.
  unfold getAiCoreDeployments, listed, listingRequest, request. unfold_m.
  destruct (isEmptySecret (sapAiCoreClientSecret (options s))); [reflexivity|].
  destruct (getToken env s) as [[bearer|e] s1]; [|reflexivity].
  destruct (deploymentsReply env (List.length (trace s1))) as [data|]; [|reflexivity].
  destruct (bindRes (Js.get data "resources") (runningDeployments ToString)); reflexivity.
Qed.

Lemma atMostOne_count (p : NetCall -> bool) (calls : list NetCall) :
  atMostOne p calls -> (count p calls <= 1)%nat.
Proof.
  intros [->|(c & -> & Hc)]; unfold count; simpl; [lia|].
  rewrite Hc. simpl. lia.
Qed.

(** A refresh sends at most one token exchange and then at most one listing
    request, and nothing else. *)
Lemma getAiCoreDeployments_trace (s : State) :
  exists auth listing,
    trace (snd (getAiCoreDeployments ToString env s)) = trace s ++ auth ++ listing
    /\ atMostOne isPostToken auth
    /\ atMostOne isGetDeployments listing
    /\ (isEmptySecret (sapAiCoreClientSecret (options s)) = true ->
        auth = [] /\ listing = [])
    /\ (isEmptySecret (sapAiCoreClientSecret (options s)) = false ->
        forall bearer, fst (getToken env s) = Val bearer -> List.length listing = 1%nat).
Proof.
  rewrite getAiCoreDeployments_run.
  destruct (isEmptySecret (sapAiCoreClientSecret (options s))) eqn:Hsecret.
  - exists [], []. simpl. rewrite app_nil_r.
    repeat split; try (now left); discriminate.
  - destruct (getToken_trace env s) as (auth & Htrace & Hauth).
    destruct (getToken env s) as [[bearer|e] s1] eqn:Hget; simpl in *.
    + exists auth, [listingRequest bearer s1]. rewrite Htrace, app_assoc.
      repeat split; auto; try discriminate.
      right. eexists. split; reflexivity.
    + exists auth, []. rewrite Htrace, app_nil_r.
      repeat split; auto; try discriminate; try (now left).
Qed.

Lemma getAiCoreDeployments_options (s : State) :
  options (snd (getAiCoreDeployments ToString env s)) = options s.
Proof.
  rewrite getAiCoreDeployments_run.
  destruct (isEmptySecret _); [reflexivity|].
  pose proof (getToken_options env s) as H.
  destruct (getToken env s) as [[bearer|e] s1]; simpl in *; exact H.
Qed.

(** C4. When the listing request is answered with a body whose [resources] is
    an array without [null] rows, the list [getAiCoreDeployments] returns
    holds, in the order of the rows, one deployment for each row whose
    [targetStatus] is ["RUNNING"] and whose backend model details carry both a
    name and a version (present and truthy), and none for any other row; each
    deployment has the id of its row and the label [name:version].  A list is
    returned whenever the label of each of these rows can be built; when the
    name or the version of one of them cannot be converted to a string, the
    call fails with "Failed to fetch deployments". *)
Theorem getAiCoreDeployments_keeps_running_named
    (s s1 : State) (bearer : string) (data : JS) (rows : list JS) :
  isEmptySecret (sapAiCoreClientSecret (options s)) = false ->
  getToken env s = (Val bearer, s1) ->
  deploymentsReply env (List.length (trace s1)) = Some data ->
  Js.get data "resources" = Val (JArr rows) ->
  Forall (fun row => nullish row = false) rows ->
  (forall ds,
     fst (getAiCoreDeployments ToString env s) = Val ds
     <-> Forall2 (fun row d => rowDeployment ToString row = Val d) (filter rowKept rows) ds)
  /\ (forall ds,
        fst (getAiCoreDeployments ToString env s) = Val ds ->
        forall d,
          In d ds <->
          exists row name version,
            In row rows /\ rowRunning row = true /\ rowNamed row = true
            /\ show ToString (Js.getOpt (rowModel row) "name") = Val name
            /\ show ToString (Js.getOpt (rowModel row) "version") = Val version
            /\ d = Deployment.mk (Js.getOpt row "id") (name ++ ":" ++ version)%string)
  /\ ((forall row, In row rows -> rowKept row = true ->
         exists label, rowLabel ToString row = Val label) ->
      exists ds, fst (getAiCoreDeployments ToString env s) = Val ds)
  /\ ((exists row, In row rows /\ rowKept row = true
                   /\ forall label, rowLabel ToString row <> Val label) ->
      fst (getAiCoreDeployments ToString env s) = Throw (Err "Failed to fetch deployments")).
Proof.
  intros Hsecret Htoken Hreply Hres Hrows.
  assert (Hrun : fst (getAiCoreDeployments ToString env s)
                 = match mapRes (rowDeployment ToString) (filter rowKept rows) with
                   | Val ds => Val ds
                   | Throw _ => Throw (Err "Failed to fetch deployments")
                   end).
  { rewrite getAiCoreDeployments_run, Hsecret, Htoken, Hreply.
    unfold listed. rewrite Hres. cbn [bindRes fst].
    now rewrite (runningDeployments_rows _ Hrows). }
  rewrite Hrun. clear Hrun.
  split; [|split; [|split]].
  - intros ds. rewrite <- mapRes_Forall2.
    destruct (mapRes (rowDeployment ToString) (filter rowKept rows)); [reflexivity|].
    split; discriminate.
  - intros ds Hds d.
    destruct (mapRes (rowDeployment ToString) (filter rowKept rows)) as [ds'|e] eqn:Hmap;
      [|discriminate].
    injection Hds as ->. rewrite (mapRes_In _ _ _ Hmap d). split.
    + intros (row & Hin & Hd). apply filter_In in Hin as (Hin & Hkept).
      unfold rowKept in Hkept. apply andb_true_iff in Hkept as (Hrun & Hnamed).
      apply rowDeployment_label in Hd as (name & version & Hn & Hv & ->).
      exists row, name, version. repeat split; assumption.
    + intros (row & name & version & Hin & Hrun & Hnamed & Hn & Hv & ->).
      exists row. split.
      * apply filter_In. split; [assumption|]. unfold rowKept. now rewrite Hrun, Hnamed.
      * apply rowDeployment_label. now exists name, version.
  - intros Hall.
    destruct (mapRes_total (rowDeployment ToString) (filter rowKept rows)) as (ds & Hmap).
    + intros row Hin. apply filter_In in Hin as (Hin & Hkept).
      apply rowDeployment_rowLabel. now apply Hall.
    + exists ds. now rewrite Hmap.
  - intros (row & Hin & Hkept & Hnone).
    destruct (mapRes (rowDeployment ToString) (filter rowKept rows)) as [ds|e] eqn:Hmap;
      [|reflexivity].
    exfalso.
    assert (Hrow : In row (filter rowKept rows)) by (apply filter_In; now split).
    apply mapRes_Forall2 in Hmap.
    assert (Hd : exists d, rowDeployment ToString row = Val d).
    { clear - Hmap Hrow. induction Hmap as [|x y xs ys Hx _ IH]; [destruct Hrow|].
      destruct Hrow as [<-|Hrow]; [now exists y|now apply IH]. }
    apply rowDeployment_rowLabel in Hd as (label & Hlabel). now apply (Hnone label).
Qed.

End Listing.

(** On the listing of five rows, two deployments are kept. *)
Lemma getAiCoreDeployments_keeps_running_named_witness :
  fst (getAiCoreDeployments Example.toString Example.env Example.fresh)
    = Val [ Deployment.mk (JStr "d1") "claude-3-5-sonnet:v1";
            Deployment.mk (JStr "d5") "gpt-4o:latest" ].
Proof.
  refine (proj2 (proj1 (getAiCoreDeployments_keeps_running_named
                   Example.toString Example.env Example.fresh
                   (snd (getToken Example.env Example.fresh)) "abc"
                   Example.listing Example.listingRows _ _ _ _ _) _) _).
  - reflexivity.
  - vm_compute. reflexivity.
  - reflexivity.
  - vm_compute. reflexivity.
  - vm_compute. repeat constructor.
  - vm_compute. repeat constructor.
Defined.

(** *** Matching a model to a deployment *)

Lemma split_cons (c : ascii) (s : string) :
  exists piece pieces, Str.split c s = piece :: pieces.
Proof.
  destruct s as [|d rest]; simpl.
  - now exists EmptyString, [].
  - destruct (Ascii.eqb d c).
    + now exists EmptyString, (Str.split c rest).
    + destruct (Str.split c rest) as [|piece pieces].
      * now exists (Str.of_char d), [].
      * now exists (String d piece), pieces.
Qed.

(** [split(c)[0]] is the part before the first [c]. *)
Lemma split0_beforeFirst (c : ascii) (s : string) :
  Str.split0 c s = beforeFirst c s.
Proof.
  unfold Str.split0. induction s as [|d rest IH]; simpl; [reflexivity|].
  destruct (Ascii.eqb d c); [reflexivity|].
  destruct (split_cons c rest) as (piece & pieces & Hsplit).
  rewrite Hsplit in *. simpl in *. now rewrite IH.
Qed.

Lemma matchesModel_sameBaseName (modelId : string) (d : Deployment.t) :
  matchesModel modelId d = true <-> sameBaseName (Deployment.name d) modelId.
Proof.
  unfold matchesModel, sameBaseName, baseName.
  rewrite String.eqb_eq, !split0_beforeFirst. reflexivity.
Qed.

Lemma needsRefresh_has (modelId : string) (s : State) :
  needsRefresh modelId s = negb (hasDeploymentForModel modelId s).
Proof.
  unfold needsRefresh, hasDeploymentForModel. destruct (deployments s); reflexivity.
Qed.

Lemma find_existsb {A} (p : A -> bool) (xs : list A) (x : A) :
  find p xs = Some x -> existsb p xs = true.
Proof.
  intros H. apply find_some in H as (Hin & Hp).
  apply existsb_exists. now exists x.
Qed.

Lemma unserved_existsb (modelId : string) (ds : list Deployment.t) :
  unserved modelId ds <-> existsb (matchesModel modelId) ds = false.
Proof.
  unfold unserved. induction ds as [|d ds IH]; simpl.
  - split; [reflexivity|constructor].
  - rewrite orb_false_iff, <- IH. split.
    + intros H. inversion H as [|? ? Hd Hds]; subst. split; [|assumption].
      apply not_true_is_false. intros Hm. now apply Hd, matchesModel_sameBaseName.
    + intros [Hd Hds]. constructor; [|assumption].
      intros Hm. apply matchesModel_sameBaseName in Hm. congruence.
Qed.

Lemma unserved_find (modelId : string) (ds : list Deployment.t) :
  unserved modelId ds -> find (matchesModel modelId) ds = None.
Proof.
  intros H. apply unserved_existsb in H.
  destruct (find (matchesModel modelId) ds) as [d|] eqn:Hfind; [|reflexivity].
  apply find_existsb in Hfind. congruence.
Qed.

Lemma firstServing_find (modelId : string) (ds : list Deployment.t) (d : Deployment.t) :
  firstServing modelId ds d -> find (matchesModel modelId) ds = Some d.
Proof.
  intros (before & after & -> & Hbefore & Hd).
  induction Hbefore as [|x before Hx _ IH]; simpl.
  - apply matchesModel_sameBaseName in Hd. now rewrite Hd.
  - destruct (matchesModel modelId x) eqn:Hm; [|exact IH].
    apply matchesModel_sameBaseName in Hm. contradiction.
Qed.

Lemma unserved_has (modelId : string) (s : State) :
  match deployments s with
  | Some ds => unserved modelId ds
  | None => True
  end ->
  hasDeploymentForModel modelId s = false.
Proof.
  unfold hasDeploymentForModel. destruct (deployments s); [|reflexivity].
  apply unserved_existsb.
Qed.

Section Resolver.

Variable ToString : JS -> Res string.
Variable env : Env.

(** With a matching deployment in the cached list nothing is fetched. *)
Lemma getDeploymentForModel_hit (modelId : string) (s : State) (ds : list Deployment.t) :
  deployments s = Some ds ->
  existsb (matchesModel modelId) ds = true ->
  getDeploymentForModel ToString env modelId s = (resolve modelId ds, s).
Proof.
  intros Hds Hex. unfold getDeploymentForModel, resolve. unfold_m.
  rewrite needsRefresh_has. unfold hasDeploymentForModel. rewrite Hds, Hex. simpl.
  rewrite Hds. destruct (find (matchesModel modelId) ds); reflexivity.
Qed.

(** Without one the list is fetched once and replaces the cached list. *)
Lemma getDeploymentForModel_miss (modelId : string) (s : State) :
  hasDeploymentForModel modelId s = false ->
  getDeploymentForModel ToString env modelId s =
    match getAiCoreDeployments ToString env s with
    | (Val ds, s1) => (resolve modelId ds, set_deployments ds s1)
    | (Throw e, s1) => (Throw e, s1)
    end.
Proof.
  intros Hhas. unfold getDeploymentForModel, resolve. unfold_m.
  rewrite needsRefresh_has, Hhas. simpl.
  destruct (getAiCoreDeployments ToString env s) as [[ds|e] s1]; [|reflexivity].
  simpl. destruct (find (matchesModel modelId) ds); reflexivity.
Qed.

Lemma getDeploymentForModel_trace (modelId : string) (s : State) :
  exists auth listing,
    trace (snd (getDeploymentForModel ToString env modelId s)) = trace s ++ auth ++ listing
    /\ atMostOne isPostToken auth
    /\ atMostOne isGetDeployments listing.
Proof.
  destruct (hasDeploymentForModel modelId s) eqn:Hhas.
  - unfold hasDeploymentForModel in Hhas.
    destruct (deployments s) as [ds|] eqn:Hds; [|discriminate].
    rewrite (getDeploymentForModel_hit _ _ _ Hds Hhas). exists [], []. simpl.
    rewrite app_nil_r. repeat split; now left.
  - rewrite (getDeploymentForModel_miss _ _ Hhas).
    destruct (getAiCoreDeployments_trace ToString env s)
      as (auth & listing & Htrace & Hauth & Hlisting & _).
    exists auth, listing.
    destruct (getAiCoreDeployments ToString env s) as [[ds|e] s1]; simpl in *;
      repeat split; assumption.
Qed.

Lemma getDeploymentForModel_options (modelId : string) (s : State) :
  options (snd (getDeploymentForModel ToString env modelId s)) = options s.
Proof.
  destruct (hasDeploymentForModel modelId s) eqn:Hhas.
  - unfold hasDeploymentForModel in Hhas.
    destruct (deployments s) as [ds|] eqn:Hds; [|discriminate].
    now rewrite (getDeploymentForModel_hit _ _ _ Hds Hhas).
  - rewrite (getDeploymentForModel_miss _ _ Hhas).
    pose proof (getAiCoreDeployments_options ToString env s) as H.
    destruct (getAiCoreDeployments ToString env s) as [[ds|e] s1]; simpl in *; exact H.
Qed.

(** C3. A deployment serves a model exactly when the parts of its label and
    of the model id before the first colon are equal up to letter case; so the
    label [claude-3-5-sonnet:v1] serves [claude-3-5-sonnet:20241022].  When
    the cached list holds such a deployment, the id of the first one is
    returned and nothing is fetched.  When it holds none (or there is no
    list), [getAiCoreDeployments] runs once, with at most one listing request
    (exactly one when a client secret is configured and a token is at hand);
    when it fails, so does the call; otherwise its list replaces the cached
    one, the id of the first deployment of that list that serves the model is
    returned, and if the list holds none the call fails with the error "No
    running deployment found for model" followed by the model id. *)
Theorem getDeploymentForModel_matches_or_refreshes_once (modelId : string) (s : State) :
  (forall d, matchesModel modelId d = true <-> sameBaseName (Deployment.name d) modelId)
  /\ (forall id,
        getDeploymentForModel ToString env "claude-3-5-sonnet:20241022"
          (set_deployments [Deployment.mk id "claude-3-5-sonnet:v1"] s)
        = (Val id, set_deployments [Deployment.mk id "claude-3-5-sonnet:v1"] s))
  /\ (forall ds d,
        deployments s = Some ds ->
        firstServing modelId ds d ->
        getDeploymentForModel ToString env modelId s = (Val (Deployment.id d), s))
  /\ (match deployments s with
      | Some ds => unserved modelId ds
      | None => True
      end ->
      (forall e s1,
         getAiCoreDeployments ToString env s = (Throw e, s1) ->
         getDeploymentForModel ToString env modelId s = (Throw e, s1))
      /\ (forall ds s1,
            getAiCoreDeployments ToString env s = (Val ds, s1) ->
            (forall d,
               firstServing modelId ds d ->
               getDeploymentForModel ToString env modelId s
                 = (Val (Deployment.id d), set_deployments ds s1))
            /\ (unserved modelId ds ->
                getDeploymentForModel ToString env modelId s
                  = (Throw (Err ("No running deployment found for model " ++ modelId)%string),
                     set_deployments ds s1)))
      /\ exists auth listing,
           trace (snd (getDeploymentForModel ToString env modelId s))
             = trace s ++ auth ++ listing
           /\ atMostOne isPostToken auth
           /\ (count isGetDeployments listing <= 1)%nat
           /\ (isEmptySecret (sapAiCoreClientSecret (options s)) = false ->
               forall bearer, fst (getToken env s) = Val bearer ->
               count isGetDeployments listing = 1%nat)).
Proof.
  split; [|split; [|split]].
  - intros d. apply matchesModel_sameBaseName.
  - intros id. now rewrite (getDeploymentForModel_hit _ _ [Deployment.mk id "claude-3-5-sonnet:v1"]).
  - intros ds d Hds Hfirst. apply firstServing_find in Hfirst.
    rewrite (getDeploymentForModel_hit _ _ _ Hds (find_existsb _ _ _ Hfirst)).
    unfold resolve. now rewrite Hfirst.
  - intros Hnone. apply unserved_has in Hnone as Hhas.
    rewrite (getDeploymentForModel_miss _ _ Hhas). split; [|split].
    + intros e s1 ->. reflexivity.
    + intros ds s1 ->. unfold resolve. split.
      * intros d Hfirst. now rewrite (firstServing_find _ _ _ Hfirst).
      * intros Hun. now rewrite (unserved_find _ _ Hun).
    + destruct (getAiCoreDeployments_trace ToString env s)
        as (auth & listing & Htrace & Hauth & Hlisting & _ & Hone).
      exists auth, listing. split; [|split; [assumption|split]].
      * destruct (getAiCoreDeployments ToString env s) as [[ds|e] s1]; exact Htrace.
      * now apply atMostOne_count.
      * intros Hsecret bearer Hbearer. specialize (Hone Hsecret bearer Hbearer).
        destruct Hlisting as [->|(c & -> & Hc)]; [discriminate|].
        unfold count. simpl. now rewrite Hc.
Qed.

(** C9. With the empty string as client secret, [getAiCoreDeployments]
    returns the one deployment with id "notconfigured" and label
    "ai-core-not-configured" and leaves the state, hence the trace of
    requests, as it was.  Resolving a model whose base name (the part before
    the first colon, in lower case) is not "ai-core-not-configured" then fails
    with the error "No running deployment found for model" followed by the
    model id, again with no request sent. *)
Theorem getAiCoreDeployments_not_configured (s : State) :
  sapAiCoreClientSecret (options s) = Some "" ->
  getAiCoreDeployments ToString env s
    = (Val [Deployment.mk (JStr "notconfigured") "ai-core-not-configured"], s)
  /\ (forall modelId,
        sentinelCache s ->
        Str.toLowerCase (beforeFirst Str.COLON modelId) <> "ai-core-not-configured" ->
        fst (getDeploymentForModel ToString env modelId s)
          = Throw (Err ("No running deployment found for model " ++ modelId)%string)
        /\ trace (snd (getDeploymentForModel ToString env modelId s)) = trace s
        /\ sentinelCache (snd (getDeploymentForModel ToString env modelId s))).
Proof.
  intros Hsecret.
  assert (Hfetch : getAiCoreDeployments ToString env s = (Val [notConfigured], s)).
  { rewrite getAiCoreDeployments_run, Hsecret. reflexivity. }
  split; [exact Hfetch|].
  intros modelId Hcache Hbase.
  assert (Hno : matchesModel modelId notConfigured = false).
  { apply not_true_is_false. intros Hm.
    apply matchesModel_sameBaseName in Hm. unfold sameBaseName in Hm.
    apply Hbase. rewrite <- Hm. reflexivity. }
  assert (Hhas : hasDeploymentForModel modelId s = false).
  { unfold hasDeploymentForModel.
    destruct Hcache as [->| ->]; [reflexivity|]. simpl. now rewrite Hno. }
  rewrite (getDeploymentForModel_miss _ _ Hhas), Hfetch.
  unfold resolve. cbn [find]. rewrite Hno.
  repeat split. now right.
Qed.

End Resolver.

(** On a concrete handler: a cached label serves a request that differs in
    letter case and version and nothing is sent; asked for a model the cached
    list does not serve, the handler fetches the listing, which replaces the
    cached list, and finds the deployment there, or fails for a model whose
    only deployment is stopped. *)
Lemma getDeploymentForModel_matches_or_refreshes_once_witness :
  getDeploymentForModel Example.toString Example.env "Claude-3-5-Sonnet:20241022"
      (set_deployments [Deployment.mk (JStr "d1") "claude-3-5-sonnet:v1"] Example.fresh)
    = (Val (JStr "d1"),
       set_deployments [Deployment.mk (JStr "d1") "claude-3-5-sonnet:v1"] Example.fresh)
  /\ getDeploymentForModel Example.toString Example.env "gpt-4o"
       (set_deployments [Deployment.mk (JStr "d0") "claude-3-5-sonnet:v0"] Example.fresh)
     = (Val (JStr "d5"),
        set_deployments [ Deployment.mk (JStr "d1") "claude-3-5-sonnet:v1";
                          Deployment.mk (JStr "d5") "gpt-4o:latest" ]
          (snd (getAiCoreDeployments Example.toString Example.env
                  (set_deployments [Deployment.mk (JStr "d0") "claude-3-5-sonnet:v0"]
                     Example.fresh))))
  /\ getDeploymentForModel Example.toString Example.env "gpt-4"
       (set_deployments [Deployment.mk (JStr "d0") "claude-3-5-sonnet:v0"] Example.fresh)
     = (Throw (Err "No running deployment found for model gpt-4"),
        set_deployments [ Deployment.mk (JStr "d1") "claude-3-5-sonnet:v1";
                          Deployment.mk (JStr "d5") "gpt-4o:latest" ]
          (snd (getAiCoreDeployments Example.toString Example.env
                  (set_deployments [Deployment.mk (JStr "d0") "claude-3-5-sonnet:v0"]
                     Example.fresh)))).
Proof.
  split; [|split].
  - apply (proj1 (proj2 (proj2 (getDeploymentForModel_matches_or_refreshes_once
             Example.toString Example.env "Claude-3-5-Sonnet:20241022"
             (set_deployments [Deployment.mk (JStr "d1") "claude-3-5-sonnet:v1"] Example.fresh))))
           [Deployment.mk (JStr "d1") "claude-3-5-sonnet:v1"]
           (Deployment.mk (JStr "d1") "claude-3-5-sonnet:v1")); [reflexivity|].
    exists [], []. split; [reflexivity|]. split; [constructor|]. vm_compute. reflexivity.
  - destruct (proj2 (proj2 (proj2 (getDeploymentForModel_matches_or_refreshes_once
             Example.toString Example.env "gpt-4o"
             (set_deployments [Deployment.mk (JStr "d0") "claude-3-5-sonnet:v0"]
                Example.fresh)))))
      as (_ & Hlist & _).
    + simpl. constructor; [|constructor]. intros H. vm_compute in H. discriminate.
    + refine (proj1 (Hlist [ Deployment.mk (JStr "d1") "claude-3-5-sonnet:v1";
                             Deployment.mk (JStr "d5") "gpt-4o:latest" ] _ _)
                (Deployment.mk (JStr "d5") "gpt-4o:latest") _);
        [vm_compute; reflexivity|].
      exists [Deployment.mk (JStr "d1") "claude-3-5-sonnet:v1"], [].
      split; [reflexivity|]. split; [|vm_compute; reflexivity].
      constructor; [|constructor]. intros H. vm_compute in H. discriminate.
  - destruct (proj2 (proj2 (proj2 (getDeploymentForModel_matches_or_refreshes_once
             Example.toString Example.env "gpt-4"
             (set_deployments [Deployment.mk (JStr "d0") "claude-3-5-sonnet:v0"]
                Example.fresh)))))
      as (_ & Hlist & _).
    + simpl. constructor; [|constructor]. intros H. vm_compute in H. discriminate.
    + refine (proj2 (Hlist [ Deployment.mk (JStr "d1") "claude-3-5-sonnet:v1";
                             Deployment.mk (JStr "d5") "gpt-4o:latest" ] _ _) _);
        [vm_compute; reflexivity|].
      constructor; [|constructor; [|constructor]]; intros H; vm_compute in H; discriminate.
Defined.

(** On a handler configured with an empty secret. *)
Lemma getAiCoreDeployments_not_configured_witness :
  getAiCoreDeployments Example.toString Example.env Example.unconfigured
    = (Val [Deployment.mk (JStr "notconfigured") "ai-core-not-configured"],
       Example.unconfigured)
  /\ fst (getDeploymentForModel Example.toString Example.env "gpt-4o" Example.unconfigured)
       = Throw (Err "No running deployment found for model gpt-4o")
  /\ trace (snd (getDeploymentForModel Example.toString Example.env "gpt-4o"
                   Example.unconfigured)) = [].
Proof.
  destruct (getAiCoreDeployments_not_configured Example.toString Example.env
              Example.unconfigured eq_refl) as [Hfetch Hresolve].
  split; [exact Hfetch|].
  destruct (Hresolve "gpt-4o") as (Herr & Htrace & _).
  - left. reflexivity.
  - vm_compute. discriminate.
  - split; assumption.
Defined.

(** ** Stream parsers *)

Section Loops.

Context {S X : Type}.
Variable body : X -> Gen S bool.

(** A loop over [xs ++ ys] is the loop over [xs] followed, unless it returned,
    by the loop over [ys]. *)
Lemma forOf_app (xs ys : list X) (s : S) :
  Monad.forOf body (xs ++ ys) s =
    Monad.gbind (Monad.forOf body xs)
      (fun returned => if returned then Monad.gret true else Monad.forOf body ys) s.
Proof.
  revert s. induction xs as [|x xs IH]; intros s; simpl.
  - unfold Monad.gbind, Monad.gret.
    destruct (Monad.forOf body ys s) as [out r]. reflexivity.
  - unfold Monad.gbind.
    destruct (body x s) as [out [[returned|e] s1]]; [|reflexivity].
    destruct returned.
    + unfold Monad.gret. simpl. now rewrite !app_nil_r.
    + rewrite IH. unfold Monad.gbind.
      destruct (Monad.forOf body xs s1) as [out1 [[returned|e] s2]]; [|reflexivity].
      destruct returned; simpl.
      * now rewrite !app_nil_r.
      * destruct (Monad.forOf body ys s2) as [out2 r]. now rewrite app_assoc.
Qed.

(** An element on which the body does nothing can be left out. *)
Lemma forOf_skip (x : X) (xs ys : list X) (s : S) :
  (forall s', body x s' = ([], (Val false, s'))) ->
  Monad.forOf body (xs ++ x :: ys) s = Monad.forOf body (xs ++ ys) s.
Proof.
  intros Hskip. rewrite !forOf_app. unfold Monad.gbind.
  destruct (Monad.forOf body xs s) as [out [[returned|e] s1]]; [|reflexivity].
  destruct returned; [reflexivity|].
  cbn [Monad.forOf]. unfold Monad.gbind. rewrite Hskip.
  destruct (Monad.forOf body ys s1) as [out2 r]. reflexivity.
Qed.

(** Once the body has returned, what follows is not looked at. *)
Lemma forOf_returned (xs ys : list X) (s s1 : S) (out : list ApiStreamChunk) :
  Monad.forOf body xs s = (out, (Val true, s1)) ->
  Monad.forOf body (xs ++ ys) s = (out, (Val true, s1)).
Proof.
  intros H. rewrite forOf_app. unfold Monad.gbind. rewrite H.
  unfold Monad.gret. now rewrite app_nil_r.
Qed.

End Loops.

(** The loop over the chunks and, inside, over the lines of each chunk is one
    loop over all the lines. *)
Lemma forOf_lines {S} (line : string -> Gen S bool) (cs : list string) (s : S) :
  Monad.forOf (fun chunk => Monad.forOf line (linesOf chunk)) cs s
    = Monad.forOf line (flat_map linesOf cs) s.
Proof.
  revert s. induction cs as [|c cs IH]; intros s; simpl; [reflexivity|].
  rewrite forOf_app. unfold Monad.gbind.
  destruct (Monad.forOf line (linesOf c) s) as [out [[returned|e] s1]]; [|reflexivity].
  destruct returned; [reflexivity|]. now rewrite IH.
Qed.

Lemma consume_lines {S} (line : string -> Gen S bool) (stream : Stream) (s : S) :
  (fst (consume line stream s), fst (snd (consume line stream s)))
    = finish stream (Monad.forOf line (linesOfStream stream) s).
Proof.
  unfold consume, linesOfStream, finish, Monad.gbind.
  rewrite forOf_lines.
  destruct (Monad.forOf line (flat_map linesOf (chunks stream)) s)
    as [out [[returned|e] s1]]; [|reflexivity].
  destruct returned; simpl; [now rewrite app_nil_r|].
  destruct (broken stream); simpl; now rewrite app_nil_r.
Qed.

Lemma withLocals_run {S T A} (init : T) (g : Gen T A) (s : S) :
  withLocals init g s = (fst (g init), (fst (snd (g init)), s)).
Proof.
  unfold withLocals. destruct (g init) as [out [r t]]. reflexivity.
Qed.

Section Parsers.

Variable JSON_parse : string -> option JS.
Variable ToString : JS -> Res string.
Variable coercedPositive : JS -> bool.

Lemma streamCompletion_lines {S} (stream : Stream) (s : S) :
  streamCompletion JSON_parse stream s =
    (fst (finish stream (Monad.forOf (anthropicLine JSON_parse) (linesOfStream stream) noUsage)),
     (snd (finish stream (Monad.forOf (anthropicLine JSON_parse) (linesOfStream stream) noUsage)),
      s)).
Proof.
  unfold streamCompletion. rewrite withLocals_run.
  rewrite <- (consume_lines (anthropicLine JSON_parse) stream noUsage). reflexivity.
Qed.

Lemma streamCompletionGPT_lines {S} (stream : Stream) (s : S) :
  streamCompletionGPT JSON_parse ToString coercedPositive stream s =
    (fst (finish stream
            (Monad.forOf (gptLine JSON_parse ToString coercedPositive) (linesOfStream stream) noTotals)),
     (snd (finish stream
            (Monad.forOf (gptLine JSON_parse ToString coercedPositive) (linesOfStream stream) noTotals)),
      s)).
Proof.
  unfold streamCompletionGPT. rewrite withLocals_run.
  rewrite <- (consume_lines (gptLine JSON_parse ToString coercedPositive) stream noTotals). reflexivity.
Qed.

(** A [data: ] line whose rest is not JSON leaves no chunk and no change. *)
Lemma anthropicLine_malformed (line : string) (u : Usage) :
  Str.startsWith line "data: " = true ->
  JSON_parse (Str.slice 6 line) = None ->
  anthropicLine JSON_parse line u = ([], (Val false, u)).
Proof.
  intros Hdata Hparse. unfold anthropicLine, parseJson, liftRes. unfold_m.
  rewrite Hdata, Hparse. reflexivity.
Qed.

Lemma gptLine_malformed (line : string) (t : Totals) :
  isSentinel line = false ->
  Str.startsWith line "data: " = true ->
  JSON_parse (Str.slice 6 line) = None ->
  gptLine JSON_parse ToString coercedPositive line t = ([], (Val false, t)).
Proof.
  unfold isSentinel. intros Hsentinel Hdata Hparse.
  unfold gptLine, parseJson, liftRes. unfold_m.
  rewrite Hsentinel, Hdata, Hparse. reflexivity.
Qed.

Lemma gptLine_sentinel (line : string) (t : Totals) :
  isSentinel line = true ->
  gptLine JSON_parse ToString coercedPositive line t
    = ([UsageChunk (inputTokens t) (outputTokens t)], (Val true, t)).
Proof.
  unfold isSentinel. intros Hsentinel.
  unfold gptLine, yieldTotals, getLocal. unfold_m.
  rewrite Hsentinel. reflexivity.
Qed.

End Parsers.

(** *** Frames *)

Lemma getOpt_of_falsy (d : JS) :
  Js.truthy d = false -> Js.getOpt d "content" = JUndef.
Proof.
  destruct d as [| |b|n|str|elems|members]; simpl; intros H;
    try reflexivity; try discriminate.
Qed.

Lemma get0_truthy (v : JS) :
  Js.truthy v = true ->
  Js.get0 v = Val (match Js.get0 v with Val c => c | Throw _ => JUndef end).
Proof.
  destruct v; simpl; intros H; try discriminate; reflexivity.
Qed.

Lemma get0_falsy (v : JS) :
  Js.truthy v = false ->
  match Js.get0 v with Val c => c | Throw _ => JUndef end = JUndef.
Proof.
  destruct v as [| |b|n|str|elems|members]; simpl; intros H;
    try discriminate; try reflexivity.
  destruct str; [reflexivity|discriminate].
Qed.

Section Frames.

Variable ToString : JS -> Res string.
Variable coercedPositive : JS -> bool.

(** The chunks a frame leaves and the totals it sets.  The text comes first;
    the rest of the frame is skipped when the first choice cannot be read or
    the content cannot be appended. *)
Lemma gptFrame_exact (frame : JS) (t : Totals) :
  exists r,
    gptFrame ToString coercedPositive frame t
      = ((if hasChoices coercedPositive frame && Js.truthy (content0 frame)
          then [TextChunk (content0 frame)] else [])
         ++ (if cutShort ToString coercedPositive frame then []
             else usagePart t frame
                    ++ (if stopped frame && negb (Js.truthy (frameUsage frame))
                        then [UsageChunk (inputTokens t) (outputTokens t)]
                        else [])),
         (r, if cutShort ToString coercedPositive frame then t else merged t frame)).
Proof.
  destruct frame as [| |b|n|str|elems|members];
    try (eexists; reflexivity).
  unfold cutShort, hasChoices, content0, stopped, choice0, coerces, usagePart, merged,
    frameUsage.
  unfold gptFrame, yieldTotals, getLocal, setLocal, liftRes. unfold_m.
  cbn [Js.get Js.getOpt].
  generalize (Js.lookup "choices" members). intros choices.
  generalize (Js.lookup "usage" members). intros usage.
  destruct t as [tin tout].
  assert (Husage : Js.truthy usage = true ->
                   forall k, Js.get usage k = Val (Js.getOpt usage k)).
  { intros H k. apply get_getOpt. now apply truthy_not_nullish. }
  destruct (Js.truthy choices) eqn:Hchoices.
  - rewrite (get_getOpt choices "length" (truthy_not_nullish _ Hchoices)).
    rewrite (get0_truthy _ Hchoices).
    set (c := match Js.get0 choices with Val c => c | Throw _ => JUndef end).
    cbn [andb].
    destruct (positive coercedPositive (Js.getOpt choices "length")) eqn:Hlen; cbn [andb].
    + destruct (nullish c) eqn:Hc.
      * rewrite (get_nullish c "delta" Hc), (getOpt_nullish c "delta" Hc).
        eexists; reflexivity.
      * rewrite (get_getOpt c "delta" Hc), (get_getOpt c "finish_reason" Hc). cbn [orb].
        destruct (Js.truthy (Js.getOpt c "delta")) eqn:Hd.
        -- rewrite (get_getOpt _ "content" (truthy_not_nullish _ Hd)).
           destruct (Js.truthy (Js.getOpt (Js.getOpt c "delta") "content")) eqn:Hcontent;
             cbn [andb negb].
           ++ destruct (show ToString (Js.getOpt (Js.getOpt c "delta") "content")) as [text|e];
                cbn [negb].
              ** destruct (Js.truthy usage) eqn:Hu;
                   [rewrite !(Husage eq_refl)|];
                   destruct (Js.isStr (Js.getOpt c "finish_reason") "stop");
                   eexists; reflexivity.
              ** eexists; reflexivity.
           ++ destruct (Js.truthy usage) eqn:Hu;
                [rewrite !(Husage eq_refl)|];
                destruct (Js.isStr (Js.getOpt c "finish_reason") "stop");
                eexists; reflexivity.
        -- rewrite (getOpt_of_falsy _ Hd). cbn [Js.truthy andb].
           destruct (Js.truthy usage) eqn:Hu;
             [rewrite !(Husage eq_refl)|];
             destruct (Js.isStr (Js.getOpt c "finish_reason") "stop");
             eexists; reflexivity.
    + destruct (nullish c) eqn:Hc.
      * rewrite (get_nullish c "finish_reason" Hc), (getOpt_nullish c "finish_reason" Hc).
        destruct (Js.truthy usage) eqn:Hu;
          [rewrite !(Husage eq_refl)|]; eexists; reflexivity.
      * rewrite (get_getOpt c "finish_reason" Hc).
        destruct (Js.truthy usage) eqn:Hu;
          [rewrite !(Husage eq_refl)|];
          destruct (Js.isStr (Js.getOpt c "finish_reason") "stop");
          eexists; reflexivity.
  - rewrite (get0_falsy _ Hchoices). cbn [andb Js.getOpt Js.get Js.isStr].
    destruct (Js.truthy usage) eqn:Hu;
      [rewrite !(Husage eq_refl)|]; eexists; reflexivity.
Qed.

End Frames.

Lemma get_of_getOpt (v : JS) (k : string) (x : JS) :
  Js.getOpt v k = x -> x <> JUndef -> Js.get v k = Val x.
Proof.
  intros Hx Hdef. destruct (nullish v) eqn:Hv.
  - rewrite (getOpt_nullish _ _ Hv) in Hx. congruence.
  - rewrite (get_getOpt _ _ Hv). now f_equal.
Qed.

Lemma getOpt_not_nullish (v : JS) (k : string) (x : JS) :
  Js.getOpt v k = x -> x <> JUndef -> nullish v = false.
Proof.
  intros Hx Hdef. destruct (nullish v) eqn:Hv; [|reflexivity].
  rewrite (getOpt_nullish _ _ Hv) in Hx. congruence.
Qed.

Lemma startsWith_dataLine (payload : string) :
  Str.startsWith (dataLine payload) "data: " = true.
Proof. reflexivity. Qed.

Lemma slice_dataLine (payload : string) :
  Str.slice 6 (dataLine payload) = payload.
Proof. reflexivity. Qed.

(** *** Frames of the Anthropic format *)

Lemma anthropicFrame_message_start (frame input : JS) (u : Usage) :
  Js.getOpt frame "type" = JStr "message_start" ->
  Js.getOpt (Js.getOpt (Js.getOpt frame "message") "usage") "input_tokens" = input ->
  input <> JUndef ->
  anthropicFrame frame u
    = ([UsageChunk input (output_tokens u)],
       (Val tt, {| input_tokens := input; output_tokens := output_tokens u |})).
Proof.
  intros Htype Hinput Hdef.
  pose proof (getOpt_not_nullish _ _ _ Hinput Hdef) as Husage.
  assert (Hmessage : nullish (Js.getOpt frame "message") = false).
  { destruct (nullish (Js.getOpt frame "message")) eqn:H; [|reflexivity].
    rewrite (getOpt_nullish _ "usage" H) in Husage. discriminate. }
  assert (Hframe : nullish frame = false).
  { apply (getOpt_not_nullish _ _ _ Htype). discriminate. }
  unfold anthropicFrame, liftRes, getLocal, setLocal. unfold_m.
  rewrite (get_getOpt _ "type" Hframe), Htype. cbn [Js.isStr String.eqb Ascii.eqb Bool.eqb].
  rewrite (get_getOpt _ "message" Hframe), (get_getOpt _ "usage" Hmessage),
    (get_getOpt _ "input_tokens" Husage), Hinput.
  reflexivity.
Qed.

Lemma anthropicFrame_text_delta (frame text : JS) (u : Usage) :
  Js.getOpt frame "type" = JStr "content_block_delta" ->
  Js.getOpt (Js.getOpt frame "delta") "type" = JStr "text_delta" ->
  Js.getOpt (Js.getOpt frame "delta") "text" = text ->
  anthropicFrame frame u = ([TextChunk (Js.or text (JStr ""))], (Val tt, u)).
Proof.
  intros Htype Hblock Htext.
  assert (Hframe : nullish frame = false).
  { apply (getOpt_not_nullish _ _ _ Htype). discriminate. }
  assert (Hdelta : nullish (Js.getOpt frame "delta") = false).
  { apply (getOpt_not_nullish _ _ _ Hblock). discriminate. }
  unfold anthropicFrame, liftRes, getLocal, setLocal. unfold_m.
  rewrite (get_getOpt _ "type" Hframe), Htype. cbn [Js.isStr String.eqb Ascii.eqb Bool.eqb orb].
  rewrite (get_getOpt _ "delta" Hframe), (get_getOpt _ "type" Hdelta), Hblock.
  cbn [Js.isStr String.eqb Ascii.eqb Bool.eqb orb].
  rewrite (get_getOpt _ "text" Hdelta), Htext. reflexivity.
Qed.

Lemma anthropicFrame_message_delta (frame output : JS) (u : Usage) :
  Js.getOpt frame "type" = JStr "message_delta" ->
  Js.truthy (Js.getOpt frame "usage") = true ->
  Js.getOpt (Js.getOpt frame "usage") "output_tokens" = output ->
  anthropicFrame frame u
    = ([UsageChunk (JNum 0) output],
       (Val tt, {| input_tokens := input_tokens u; output_tokens := output |})).
Proof.
  intros Htype Husage Houtput.
  assert (Hframe : nullish frame = false).
  { apply (getOpt_not_nullish _ _ _ Htype). discriminate. }
  unfold anthropicFrame, liftRes, getLocal, setLocal. unfold_m.
  rewrite (get_getOpt _ "type" Hframe), Htype. cbn [Js.isStr String.eqb Ascii.eqb Bool.eqb orb].
  rewrite (get_getOpt _ "usage" Hframe), Husage.
  rewrite (get_getOpt _ "output_tokens" (truthy_not_nullish _ Husage)), Houtput.
  reflexivity.
Qed.

Section Lines.

Variable JSON_parse : string -> option JS.
Variable ToString : JS -> Res string.
Variable coercedPositive : JS -> bool.

(** A [data: ] line that parses: the chunks and the locals are those of its
    frame, and an exception raised on the way is swallowed. *)
Lemma anthropicLine_frame (line : string) (frame : JS) (u u' : Usage)
    (out : list ApiStreamChunk) (r : Res unit) :
  Str.startsWith line "data: " = true ->
  JSON_parse (Str.slice 6 line) = Some frame ->
  anthropicFrame frame u = (out, (r, u')) ->
  anthropicLine JSON_parse line u = (out, (Val false, u')).
Proof.
  intros Hdata Hparse Hframe. unfold anthropicLine, parseJson, liftRes. unfold_m.
  rewrite Hdata, Hparse, Hframe.
  destruct r; simpl; now rewrite !app_nil_r.
Qed.

Lemma gptLine_frame (line : string) (frame : JS) (t t' : Totals)
    (out : list ApiStreamChunk) (r : Res unit) :
  isSentinel line = false ->
  Str.startsWith line "data: " = true ->
  JSON_parse (Str.slice 6 line) = Some frame ->
  gptFrame ToString coercedPositive frame t = (out, (r, t')) ->
  gptLine JSON_parse ToString coercedPositive line t = (out, (Val false, t')).
Proof.
  unfold isSentinel. intros Hsentinel Hdata Hparse Hframe.
  unfold gptLine, parseJson, liftRes. unfold_m.
  rewrite Hsentinel, Hdata, Hparse, Hframe.
  destruct r; simpl; now rewrite !app_nil_r.
Qed.

(** C5. A stream whose lines are three [data: ] lines carrying, in this
    order, a [message_start] frame with 10 input tokens, a
    [content_block_delta] frame whose text delta is "hi", and a
    [message_delta] frame whose usage reports 3 output tokens, makes
    [streamCompletion] yield exactly the usage chunk (10, 0), the text chunk
    "hi" and the usage chunk (0, 3), and then end normally. *)
Theorem streamCompletion_three_frames {S} (stream : Stream) (s : S)
    (p1 p2 p3 : string) (f1 f2 f3 : JS) :
  linesOfStream stream = [dataLine p1; dataLine p2; dataLine p3] ->
  broken stream = false ->
  JSON_parse p1 = Some f1 ->
  JSON_parse p2 = Some f2 ->
  JSON_parse p3 = Some f3 ->
  Js.getOpt f1 "type" = JStr "message_start" ->
  Js.getOpt (Js.getOpt (Js.getOpt f1 "message") "usage") "input_tokens" = JNum 10 ->
  Js.getOpt f2 "type" = JStr "content_block_delta" ->
  Js.getOpt (Js.getOpt f2 "delta") "type" = JStr "text_delta" ->
  Js.getOpt (Js.getOpt f2 "delta") "text" = JStr "hi" ->
  Js.getOpt f3 "type" = JStr "message_delta" ->
  Js.getOpt (Js.getOpt f3 "usage") "output_tokens" = JNum 3 ->
  streamCompletion JSON_parse stream s
    = ([ UsageChunk (JNum 10) (JNum 0); TextChunk (JStr "hi");
         UsageChunk (JNum 0) (JNum 3) ],
       (Val tt, s)).
Proof.
  intros Hlines Hbroken Hp1 Hp2 Hp3 Ht1 Hin Ht2 Hblock Htext Ht3 Hout.
  assert (Husage : Js.truthy (Js.getOpt f3 "usage") = true).
  { assert (H : nullish (Js.getOpt f3 "usage") = false)
      by (apply (getOpt_not_nullish _ _ _ Hout); discriminate).
    destruct (Js.getOpt f3 "usage") as [| |b|n|str|elems|members];
      try discriminate; try reflexivity; simpl in Hout; try discriminate. }
  rewrite streamCompletion_lines, Hlines.
  cbn [Monad.forOf]. unfold Monad.gbind.
  rewrite (anthropicLine_frame (dataLine p1) f1 noUsage _ _ _ (startsWith_dataLine p1) Hp1
             (anthropicFrame_message_start f1 (JNum 10) noUsage Ht1 Hin ltac:(discriminate))).
  rewrite (anthropicLine_frame (dataLine p2) f2 _ _ _ _ (startsWith_dataLine p2) Hp2
             (anthropicFrame_text_delta f2 (JStr "hi") _ Ht2 Hblock Htext)).
  rewrite (anthropicLine_frame (dataLine p3) f3 _ _ _ _ (startsWith_dataLine p3) Hp3
             (anthropicFrame_message_delta f3 (JNum 3) _ Ht3 Husage Hout)).
  unfold finish. simpl. rewrite Hbroken. reflexivity.
Qed.

End Lines.

Lemma positive_length (coercedPositive : JS -> bool) (c : JS) (rest : list JS) :
  positive coercedPositive (Js.getOpt (JArr (c :: rest)) "length") = true.
Proof.
  cbn [Js.getOpt Js.get String.eqb Ascii.eqb Bool.eqb positive].
  apply Z.ltb_lt. cbn [List.length]. lia.
Qed.

(** A frame whose first choice has content has choices, and the first of
    them is the one the parser reads. *)
Lemma deltaContent_choice0 (coercedPositive : JS -> bool) (frame : JS) :
  Js.truthy (deltaContent frame) = true ->
  hasChoices coercedPositive frame = true
  /\ choice0 frame = firstChoice frame
  /\ nullish (choice0 frame) = false.
Proof.
  unfold deltaContent, firstChoice, hasChoices, choice0.
  destruct (Js.getOpt frame "choices") as [| |b|n|str|elems|members];
    try discriminate.
  destruct elems as [|c rest]; [discriminate|].
  intros H. apply truthy_getOpt_not_nullish in H.
  rewrite positive_length. repeat split.
  cbn [Js.get0 hd].
  destruct (nullish c) eqn:Hc; [|reflexivity].
  now rewrite (getOpt_nullish _ "delta" Hc) in H.
Qed.

Section OpenAI.

Variable JSON_parse : string -> option JS.
Variable ToString : JS -> Res string.
Variable coercedPositive : JS -> bool.

Lemma gptLine_exact (line : string) (frame : JS) (t : Totals) :
  isSentinel line = false ->
  Str.startsWith line "data: " = true ->
  JSON_parse (Str.slice 6 line) = Some frame ->
  gptLine JSON_parse ToString coercedPositive line t
    = ((if hasChoices coercedPositive frame && Js.truthy (content0 frame)
        then [TextChunk (content0 frame)] else [])
       ++ (if cutShort ToString coercedPositive frame then []
           else usagePart t frame
                  ++ (if stopped frame && negb (Js.truthy (frameUsage frame))
                      then [UsageChunk (inputTokens t) (outputTokens t)]
                      else [])),
       (Val false, if cutShort ToString coercedPositive frame then t else merged t frame)).
Proof.
  intros Hsentinel Hdata Hparse.
  destruct (gptFrame_exact ToString coercedPositive frame t) as (r & Hframe).
  exact (gptLine_frame JSON_parse ToString coercedPositive line frame t _ _ r
           Hsentinel Hdata Hparse Hframe).
Qed.

(** A frame whose first choice has a string as content is read to its end. *)
Lemma gptLine_text (line : string) (frame : JS) (t : Totals) (text : string) :
  isSentinel line = false ->
  Str.startsWith line "data: " = true ->
  JSON_parse (Str.slice 6 line) = Some frame ->
  deltaContent frame = JStr text ->
  Str.isEmpty text = false ->
  gptLine JSON_parse ToString coercedPositive line t
    = ([TextChunk (JStr text)] ++ usagePart t frame ++ flushPart t frame,
       (Val false, merged t frame)).
Proof.
  intros Hsentinel Hdata Hparse Hcontent Hfull.
  assert (Htruthy : Js.truthy (deltaContent frame) = true).
  { rewrite Hcontent. simpl. now rewrite Hfull. }
  destruct (deltaContent_choice0 coercedPositive frame Htruthy) as (Hhas & Hfirst & Hc).
  assert (Hc0 : content0 frame = JStr text).
  { unfold content0. rewrite Hfirst. exact Hcontent. }
  rewrite (gptLine_exact line frame t Hsentinel Hdata Hparse).
  unfold cutShort, coerces, flushPart, finishedStop, stopped.
  rewrite Hhas, Hc, Hc0, Hfirst. simpl. now rewrite Hfull.
Qed.

(** C6. When a [data: ] line carrying a frame whose first choice has the
    delta content "hi" is followed by the line [data: [DONE]],
    [streamCompletionGPT] yields the text chunk "hi", then whatever usage
    chunks the frame itself calls for, then exactly one final usage chunk with
    the totals known at that point, and returns: the lines and chunks that
    follow are not read, and a later failure of the stream is not seen.  With
    no line before and no usage reported by the frame, the chunks are the text
    "hi" and the usage (0, 0). *)
Theorem streamCompletionGPT_text_then_done {S} (stream : Stream) (s : S)
    (before after : list string) (payload : string) (frame : JS)
    (out : list ApiStreamChunk) (t : Totals) :
  linesOfStream stream = before ++ dataLine payload :: "data: [DONE]" :: after ->
  Monad.forOf (gptLine JSON_parse ToString coercedPositive) before noTotals
    = (out, (Val false, t)) ->
  isSentinel (dataLine payload) = false ->
  JSON_parse payload = Some frame ->
  deltaContent frame = JStr "hi" ->
  streamCompletionGPT JSON_parse ToString coercedPositive stream s
    = (out ++ [TextChunk (JStr "hi")] ++ usagePart t frame ++ flushPart t frame
         ++ [UsageChunk (inputTokens (merged t frame)) (outputTokens (merged t frame))],
       (Val tt, s))
  /\ (before = [] ->
      Js.truthy (frameUsage frame) = false ->
      finishedStop frame = false ->
      streamCompletionGPT JSON_parse ToString coercedPositive stream s
        = ([TextChunk (JStr "hi"); UsageChunk (JNum 0) (JNum 0)], (Val tt, s))).
Proof.
  intros Hlines Hbefore Hsentinel Hparse Hcontent.
  assert (Hline : gptLine JSON_parse ToString coercedPositive (dataLine payload) t
                  = ([TextChunk (JStr "hi")] ++ usagePart t frame ++ flushPart t frame,
                     (Val false, merged t frame))).
  { exact (gptLine_text _ frame t "hi" Hsentinel (startsWith_dataLine payload) Hparse
             Hcontent eq_refl). }
  assert (Hrun : streamCompletionGPT JSON_parse ToString coercedPositive stream s
                 = (out ++ [TextChunk (JStr "hi")] ++ usagePart t frame
                      ++ flushPart t frame
                      ++ [UsageChunk (inputTokens (merged t frame))
                            (outputTokens (merged t frame))],
                    (Val tt, s))).
  { assert (Hloop : Monad.forOf (gptLine JSON_parse ToString coercedPositive)
                      (before ++ dataLine payload :: "data: [DONE]" :: after) noTotals
                    = (out ++ [TextChunk (JStr "hi")] ++ usagePart t frame
                         ++ flushPart t frame
                         ++ [UsageChunk (inputTokens (merged t frame))
                               (outputTokens (merged t frame))],
                       (Val true, merged t frame))).
    { rewrite forOf_app. unfold Monad.gbind at 1. rewrite Hbefore.
      cbn [Monad.forOf]. unfold Monad.gbind. rewrite Hline.
      rewrite (gptLine_sentinel JSON_parse ToString coercedPositive "data: [DONE]"
                 (merged t frame) eq_refl).
      unfold Monad.gret. f_equal. f_equal. simpl.
      now rewrite <- !app_assoc. }
    rewrite streamCompletionGPT_lines, Hlines, Hloop. reflexivity. }
  split; [exact Hrun|].
  intros -> Husage Hstop. simpl in Hbefore. unfold Monad.gret in Hbefore.
  injection Hbefore as <- <-. rewrite Hrun.
  unfold usagePart, flushPart, merged. rewrite Husage, Hstop. reflexivity.
Qed.

(** C7. A [data: ] line whose rest is not JSON leaves no chunk and no change
    in either parser, and the stream yields what it would yield without the
    line: the events of the frames before and after it, and the same outcome.
    In [streamCompletionGPT] the line that reads [data: [DONE]] once trimmed
    is not a frame: it is the sentinel, recognised before any line is
    parsed. *)
Theorem malformed_line_is_skipped {S} (stream stream' : Stream) (s : S)
    (before after : list string) (line : string) :
  linesOfStream stream = before ++ line :: after ->
  linesOfStream stream' = before ++ after ->
  broken stream' = broken stream ->
  Str.startsWith line "data: " = true ->
  JSON_parse (Str.slice 6 line) = None ->
  (forall u, anthropicLine JSON_parse line u = ([], (Val false, u)))
  /\ streamCompletion JSON_parse stream s = streamCompletion JSON_parse stream' s
  /\ (isSentinel line = false ->
      (forall t, gptLine JSON_parse ToString coercedPositive line t = ([], (Val false, t)))
      /\ streamCompletionGPT JSON_parse ToString coercedPositive stream s
         = streamCompletionGPT JSON_parse ToString coercedPositive stream' s).
Proof.
  intros Hlines Hlines' Hbroken Hdata Hparse.
  assert (Ha : forall u, anthropicLine JSON_parse line u = ([], (Val false, u))).
  { intros u. now apply anthropicLine_malformed. }
  split; [exact Ha|]. split.
  - rewrite !streamCompletion_lines, Hlines, Hlines'.
    rewrite (forOf_skip _ line before after noUsage Ha).
    unfold finish. now rewrite Hbroken.
  - intros Hsentinel.
    assert (Hg : forall t, gptLine JSON_parse ToString coercedPositive line t = ([], (Val false, t))).
    { intros t. now apply gptLine_malformed. }
    split; [exact Hg|].
    rewrite !streamCompletionGPT_lines, Hlines, Hlines'.
    rewrite (forOf_skip _ line before after noTotals Hg).
    unfold finish. now rewrite Hbroken.
Qed.


End OpenAI.

(** ** Request dispatcher *)

Lemma atMostOne_noInference (p : NetCall -> bool) (calls : list NetCall) :
  (forall c, p c = true -> isPostInference c = false) ->
  atMostOne p calls -> noInference calls = true.
Proof.
  intros Hp [->|(c & -> & Hc)]; [reflexivity|].
  unfold noInference. simpl. now rewrite (Hp c Hc).
Qed.

Lemma noInference_app (xs ys : list NetCall) :
  noInference xs = true -> noInference ys = true -> noInference (xs ++ ys) = true.
Proof.
  unfold noInference. intros Hx Hy. rewrite forallb_app. now rewrite Hx, Hy.
Qed.

Lemma postToken_noInference (calls : list NetCall) :
  atMostOne isPostToken calls -> noInference calls = true.
Proof.
  apply atMostOne_noInference. intros [] H; try discriminate; reflexivity.
Qed.

Lemma getDeployments_noInference (calls : list NetCall) :
  atMostOne isGetDeployments calls -> noInference calls = true.
Proof.
  apply atMostOne_noInference. intros [] H; try discriminate; reflexivity.
Qed.

Section Dispatch.

Variable JSON_parse : string -> option JS.
Variable ToString : JS -> Res string.
Variable coercedPositive : JS -> bool.
Variable sapAiCoreModels : list (string * ModelInfo).
Variable sapAiCoreDefaultModelId : string.
Variable convertToOpenAiMessages : list JS -> list JS.
Variable env : Env.

(** [getModel] never throws: it returns the configured id when [in] finds it
    in the registry, and the default id otherwise. *)
Lemma getModel_falls_back (opts : ApiHandlerOptions) :
  (match apiModelId opts with
   | Some modelId => Str.isEmpty modelId = true \/ hasProperty modelId sapAiCoreModels = false
   | None => True
   end) ->
  getModel sapAiCoreModels sapAiCoreDefaultModelId opts
    = {| model_id := sapAiCoreDefaultModelId;
         model_info := member sapAiCoreDefaultModelId sapAiCoreModels |}.
Proof.
  unfold getModel. destruct (apiModelId opts) as [modelId|]; [|reflexivity].
  intros [H|H]; rewrite H; simpl; [reflexivity|now rewrite andb_false_r].
Qed.

Lemma createMessage_unsupported (systemPrompt : string) (messages : list JS) (s : State) :
  unsupported (model_id (getModel sapAiCoreModels sapAiCoreDefaultModelId (options s))) = true ->
  createMessage JSON_parse ToString coercedPositive sapAiCoreModels
      sapAiCoreDefaultModelId convertToOpenAiMessages env systemPrompt messages s
    = match getToken env s with
      | (Val _, s1) =>
          match getDeploymentForModel ToString env
                  (model_id (getModel sapAiCoreModels sapAiCoreDefaultModelId (options s))) s1 with
          | (Val _, s2) =>
              ([], (Throw (Err ("Unsupported model: "
                                  ++ model_id (getModel sapAiCoreModels
                                                 sapAiCoreDefaultModelId (options s)))%string),
                    s2))
          | (Throw e, s2) => ([], (Throw e, s2))
          end
      | (Throw e, s1) => ([], (Throw e, s1))
      end.
Proof.
  unfold unsupported. intros Hun. apply andb_true_iff in Hun as (Ha & Ho).
  apply negb_true_iff in Ha, Ho.
  unfold createMessage, getLocal, liftRes. unfold_m.
  pose proof (getToken_options env s) as Hopts.
  destruct (getToken env s) as [[bearer|e] s1]; [|reflexivity].
  simpl in Hopts. rewrite Hopts.
  destruct (getDeploymentForModel ToString env _ s1) as [[deploymentId|e] s2]; [|reflexivity].
  rewrite Ha, Ho. reflexivity.
Qed.

(** C1, amended. When the model id is in neither list, [createMessage] yields
    nothing and fails without ever sending an inference request.  It first
    asks for a token and for the deployment of the model, which may send
    token exchanges and a listing request.  When the token cannot be had, the
    error of [getToken] is the outcome; when the deployment cannot be
    resolved, the error of [getDeploymentForModel] is the outcome; and when
    both succeed the outcome is the error "Unsupported model:" followed by
    the model id. *)
Theorem createMessage_unsupported_model (systemPrompt : string) (messages : list JS)
    (s : State) :
  unsupported (model_id (getModel sapAiCoreModels sapAiCoreDefaultModelId (options s))) = true ->
  (forall e s1,
     getToken env s = (Throw e, s1) ->
     createMessage JSON_parse ToString coercedPositive sapAiCoreModels
         sapAiCoreDefaultModelId convertToOpenAiMessages env systemPrompt messages s
       = ([], (Throw e, s1)))
  /\ (forall bearer s1 e s2,
        getToken env s = (Val bearer, s1) ->
        getDeploymentForModel ToString env
          (model_id (getModel sapAiCoreModels sapAiCoreDefaultModelId (options s))) s1
          = (Throw e, s2) ->
        createMessage JSON_parse ToString coercedPositive sapAiCoreModels
            sapAiCoreDefaultModelId convertToOpenAiMessages env systemPrompt messages s
          = ([], (Throw e, s2)))
  /\ (forall bearer s1 deploymentId s2,
        getToken env s = (Val bearer, s1) ->
        getDeploymentForModel ToString env
          (model_id (getModel sapAiCoreModels sapAiCoreDefaultModelId (options s))) s1
          = (Val deploymentId, s2) ->
        createMessage JSON_parse ToString coercedPositive sapAiCoreModels
            sapAiCoreDefaultModelId convertToOpenAiMessages env systemPrompt messages s
          = ([], (Throw (Err ("Unsupported model: "
                                ++ model_id (getModel sapAiCoreModels sapAiCoreDefaultModelId
                                               (options s)))%string),
                  s2)))
  /\ exists e s' calls,
       createMessage JSON_parse ToString coercedPositive sapAiCoreModels
           sapAiCoreDefaultModelId convertToOpenAiMessages env systemPrompt messages s
         = ([], (Throw e, s'))
       /\ trace s' = trace s ++ calls
       /\ noInference calls = true.
Proof.
  intros Hun. rewrite (createMessage_unsupported _ _ _ Hun).
  set (modelId := model_id (getModel sapAiCoreModels sapAiCoreDefaultModelId (options s))).
  split; [|split; [|split]].
  - intros e s1 ->. reflexivity.
  - intros bearer s1 e s2 -> ->. reflexivity.
  - intros bearer s1 deploymentId s2 -> ->. reflexivity.
  - destruct (getToken_trace env s) as (auth & Hauth & Hone).
    destruct (getToken env s) as [[bearer|e] s1] eqn:Htoken; simpl in Hauth.
    + destruct (getDeploymentForModel_trace ToString env modelId s1)
        as (auth' & listing & Htrace & Hauth' & Hlisting).
      destruct (getDeploymentForModel ToString env modelId s1) as [[deploymentId|e] s2] eqn:Hdep;
        simpl in Htrace.
      * exists (Err ("Unsupported model: " ++ modelId)%string), s2, (auth ++ auth' ++ listing).
        split; [reflexivity|]. split; [now rewrite Htrace, Hauth, <- app_assoc|].
        repeat apply noInference_app;
          auto using postToken_noInference, getDeployments_noInference.
      * exists e, s2, (auth ++ auth' ++ listing).
        split; [reflexivity|]. split; [now rewrite Htrace, Hauth, <- app_assoc|].
        repeat apply noInference_app;
          auto using postToken_noInference, getDeployments_noInference.
    + exists e, s1, auth.
      split; [reflexivity|]. split; [assumption|].
      now apply postToken_noInference.
Qed.

End Dispatch.

(** On a handler configured with the eighth model of the extended registry:
    the token and the deployment are had, and the model is then refused. *)
Lemma createMessage_unsupported_model_witness :
  fst (snd (createMessage Json.parse Example.toString Example.noCoercion Example.extended
              Example.defaultId Example.convert Example.otherEnv "system" []
              (constructor (Example.withModel "mistralai--mistral-large-instruct"))))
    = Throw (Err "Unsupported model: mistralai--mistral-large-instruct")
  /\ exists e s' calls,
       createMessage Json.parse Example.toString Example.noCoercion Example.extended
           Example.defaultId Example.convert Example.otherEnv "system" []
           (constructor (Example.withModel "mistralai--mistral-large-instruct"))
         = ([], (Throw e, s'))
       /\ trace s' = calls
       /\ noInference calls = true.
Proof.
  destruct (createMessage_unsupported_model Json.parse Example.toString
              Example.noCoercion Example.extended Example.defaultId Example.convert
              Example.otherEnv "system" []
              (constructor (Example.withModel "mistralai--mistral-large-instruct")) eq_refl)
    as (_ & _ & Hboth & e & s' & calls & Hrun & Htrace & Hno).
  split.
  - rewrite (Hboth "abc"
               (snd (getToken Example.otherEnv
                       (constructor (Example.withModel "mistralai--mistral-large-instruct"))))
               (JStr "d9")
               (snd (getDeploymentForModel Example.toString Example.otherEnv
                       "mistralai--mistral-large-instruct"
                       (snd (getToken Example.otherEnv
                               (constructor
                                  (Example.withModel "mistralai--mistral-large-instruct"))))))).
    + reflexivity.
    + vm_compute. reflexivity.
    + vm_compute. reflexivity.
  - exists e, s', calls. repeat split; assumption.
Defined.

(** C1 as stated fails.  For a registered model that is in neither list, a
    token exchange and a listing request are sent before the error
    "Unsupported model" is raised.  And with the registry of the seven known
    models, the configured id "toString" is in neither list either: the same
    two requests are sent, and the error is that of the resolver. *)
Lemma createMessage_unsupported_after_requests :
  (model_id (getModel Example.extended Example.defaultId
               (Example.withModel "mistralai--mistral-large-instruct"))
     = "mistralai--mistral-large-instruct"
   /\ Str.includes anthropicModels "mistralai--mistral-large-instruct" = false
   /\ Str.includes openAIModels "mistralai--mistral-large-instruct" = false
   /\ fst (snd (createMessage Json.parse Example.toString Example.noCoercion
                  Example.extended Example.defaultId Example.convert Example.otherEnv
                  "system" []
                  (constructor (Example.withModel "mistralai--mistral-large-instruct"))))
      = Throw (Err "Unsupported model: mistralai--mistral-large-instruct")
   /\ trace (snd (snd (createMessage Json.parse Example.toString Example.noCoercion
                  Example.extended Example.defaultId Example.convert Example.otherEnv
                  "system" []
                  (constructor (Example.withModel "mistralai--mistral-large-instruct")))))
      = [ PostToken "https://auth.example/oauth/token" "client" "secret";
          GetDeployments "https://api.example/v2/lm/deployments?$top=10000&$skip=0"
            {| Authorization := "Bearer abc"; AI_Resource_Group := "default" |} ])
  /\ (model_id (getModel Example.registry Example.defaultId (Example.withModel "toString"))
        = "toString"
      /\ Str.includes anthropicModels "toString" = false
      /\ Str.includes openAIModels "toString" = false
      /\ fst (snd (createMessage Json.parse Example.toString Example.noCoercion
                     Example.registry Example.defaultId Example.convert Example.env
                     "system" [] (constructor (Example.withModel "toString"))))
         = Throw (Err "No running deployment found for model toString")
      /\ trace (snd (snd (createMessage Json.parse Example.toString Example.noCoercion
                     Example.registry Example.defaultId Example.convert Example.env
                     "system" [] (constructor (Example.withModel "toString")))))
         = [ PostToken "https://auth.example/oauth/token" "client" "secret";
             GetDeployments "https://api.example/v2/lm/deployments?$top=10000&$skip=0"
               {| Authorization := "Bearer abc"; AI_Resource_Group := "default" |} ]).
Proof.
  repeat split; vm_compute; reflexivity.
Qed.

(** C10 fails on a configured id that names a member of [Object.prototype]:
    [in] finds it on the registry, so [getModel] returns it in place of the
    default id, whatever the registry holds. *)
Theorem getModel_inherited_key (registry : list (string * ModelInfo))
    (defaultId : string) (opts : ApiHandlerOptions) :
  apiModelId opts = Some "toString" ->
  model_id (getModel registry defaultId opts) = "toString"
  /\ (ownMember "toString" registry = None ->
      model_info (getModel registry defaultId opts) = InheritedMember).
Proof.
  intros Hid. unfold getModel, hasProperty, member. rewrite Hid.
  destruct (ownMember "toString" registry) eqn:Hown; simpl.
  - split; [reflexivity|discriminate].
  - split; reflexivity.
Qed.

(** On the registry of the seven known models. *)
Lemma getModel_inherited_key_witness :
  ownMember "toString" Example.registry = None
  /\ getModel Example.registry Example.defaultId (Example.withModel "toString")
     = {| model_id := "toString"; model_info := InheritedMember |}.
Proof.
  destruct (getModel_inherited_key Example.registry Example.defaultId
              (Example.withModel "toString") eq_refl) as [Hid Hinfo].
  split; [reflexivity|].
  specialize (Hinfo eq_refl).
  destruct (getModel Example.registry Example.defaultId (Example.withModel "toString"))
    as [i m]. simpl in *. now subst.
Defined.

(** ** The statements on concrete streams *)

(** The three frames as text, split over two chunks. *)
Lemma streamCompletion_three_frames_witness :
  streamCompletion Json.parse Example.anthropicStream tt
    = ([ UsageChunk (JNum 10) (JNum 0); TextChunk (JStr "hi");
         UsageChunk (JNum 0) (JNum 3) ],
       (Val tt, tt)).
Proof.
  apply (streamCompletion_three_frames Json.parse Example.anthropicStream tt
           Example.messageStart Example.textDelta Example.messageDelta
           (Example.parsed Example.messageStart) (Example.parsed Example.textDelta)
           (Example.parsed Example.messageDelta));
    vm_compute; reflexivity.
Defined.

(** A frame and the sentinel, followed by a chunk that is never read. *)
Lemma streamCompletionGPT_text_then_done_witness :
  streamCompletionGPT Json.parse Example.toString Example.noCoercion Example.gptStream tt
    = ([TextChunk (JStr "hi"); UsageChunk (JNum 0) (JNum 0)], (Val tt, tt)).
Proof.
  refine (proj2 (streamCompletionGPT_text_then_done Json.parse Example.toString
                   Example.noCoercion
                   Example.gptStream tt [] [dataLine Example.contentHi]
                   Example.contentHi (Example.parsed Example.contentHi) [] noTotals
                   _ _ _ _ _) eq_refl _ _);
    vm_compute; reflexivity.
Defined.

(** A cut-off frame between valid frames, in both formats. *)
Lemma malformed_line_is_skipped_witness :
  streamCompletion Json.parse Example.garbledStream tt
    = streamCompletion Json.parse Example.anthropicStream tt
  /\ streamCompletionGPT Json.parse Example.toString Example.noCoercion Example.garbledGptStream tt
     = streamCompletionGPT Json.parse Example.toString Example.noCoercion Example.plainGptStream tt.
Proof.
  split.
  - refine (proj1 (proj2 (malformed_line_is_skipped Json.parse Example.toString
                            Example.noCoercion
                            Example.garbledStream Example.anthropicStream tt
                            [dataLine Example.messageStart]
                            [dataLine Example.textDelta; dataLine Example.messageDelta]
                            (Json.text "data: {'type':") _ _ _ _ _)));
      vm_compute; reflexivity.
  - refine (proj2 (proj2 (proj2 (malformed_line_is_skipped Json.parse Example.toString
                            Example.noCoercion
                            Example.garbledGptStream Example.plainGptStream tt
                            [dataLine Example.contentHi] [dataLine Example.contentHi]
                            (Json.text "data: {'choices':") _ _ _ _ _)) _));
      vm_compute; reflexivity.
Defined.



(** * Further properties of the class *)

(** ** Credential manager *)

Section CredentialsMore.

Variable env : Env.

(** The only error of [getToken] is the rejection of the exchange. *)
Lemma getToken_throws (s : State) (e : Error) :
  fst (getToken env s) = Throw e -> e = AxiosError.
Proof.
  destruct (token s) as [cached|] eqn:Htok.
  - destruct (Z.lt_ge_cases (Token.exipres_at cached) (clock env (ticks s))) as [Hlt|Hge].
    + rewrite (getToken_expired env s cached Htok Hlt). unfold refreshed.
      destruct (tokenReply env _); simpl; congruence.
    + rewrite (getToken_fresh env s cached Htok Hge). simpl. congruence.
  - rewrite (getToken_absent env s Htok). unfold refreshed.
    destruct (tokenReply env _); simpl; congruence.
Qed.

(** The string [getToken] returns is that of the token it leaves cached. *)
Lemma getToken_cached (s s1 : State) (bearer : string) :
  getToken env s = (Val bearer, s1) ->
  exists tok, token s1 = Some tok /\ Token.access_token tok = bearer.
Proof.
  intros Hrun.
  destruct (token s) as [cached|] eqn:Htok.
  - destruct (Z.lt_ge_cases (Token.exipres_at cached) (clock env (ticks s))) as [Hlt|Hge].
    + rewrite (getToken_expired env s cached Htok Hlt) in Hrun. unfold refreshed in Hrun.
      destruct (tokenReply env _) as [tok|]; [|discriminate].
      injection Hrun as <- <-. eexists. split; reflexivity.
    + rewrite (getToken_fresh env s cached Htok Hge) in Hrun.
      injection Hrun as <- <-. exists cached. split; [exact Htok|reflexivity].
  - rewrite (getToken_absent env s Htok) in Hrun. unfold refreshed in Hrun.
    destruct (tokenReply env _) as [tok|]; [|discriminate].
    injection Hrun as <- <-. eexists. split; reflexivity.
Qed.

(** A cached token is replaced, never dropped. *)
Lemma getToken_keeps_token (s : State) :
  token s <> None -> token (snd (getToken env s)) <> None.
Proof.
  intros Hsome. destruct (token s) as [cached|] eqn:Htok; [|congruence].
  destruct (Z.lt_ge_cases (Token.exipres_at cached) (clock env (ticks s))) as [Hlt|Hge].
  - rewrite (getToken_expired env s cached Htok Hlt). unfold refreshed.
    destruct (tokenReply env _); simpl; [discriminate|]. rewrite Htok. discriminate.
  - rewrite (getToken_fresh env s cached Htok Hge). simpl. rewrite Htok. discriminate.
Qed.

(** X1. After a successful [getToken] the cache holds a token whose
    [access_token] is the string returned.  A second [getToken] that reads
    the clock at or before that token's expiry returns the same string and
    sends no request. *)
Theorem getToken_again (s s1 : State) (bearer : string) :
  getToken env s = (Val bearer, s1) ->
  exists tok,
    token s1 = Some tok
    /\ Token.access_token tok = bearer
    /\ (clock env (ticks s1) <= Token.exipres_at tok ->
        getToken env s1 = (Val bearer, tick s1)
        /\ trace (tick s1) = trace s1).
Proof.
  intros Hrun.
  destruct (getToken_cached s s1 bearer Hrun) as (tok & Htok & Hbearer).
  exists tok. repeat split; try assumption.
  rewrite (getToken_fresh env s1 tok Htok H), Hbearer. reflexivity.
Qed.

End CredentialsMore.

(** On a fresh handler: the token issued at instant 1000 for 3600 seconds is
    reused at instant 1001. *)
Lemma getToken_again_witness :
  getToken Example.env (snd (getToken Example.env Example.fresh))
    = (Val "abc", tick (snd (getToken Example.env Example.fresh))).
Proof.
  destruct (getToken_again Example.env Example.fresh
              (snd (getToken Example.env Example.fresh)) "abc" eq_refl)
    as (tok & Htok & _ & Hagain).
  apply Hagain.
  vm_compute in Htok. injection Htok as <-. vm_compute. discriminate.
Defined.

(** ** Deployment listing *)

Lemma nullish_rows (rows : list JS) :
  Forall (fun row => nullish row = false) rows
  \/ Exists (fun row => nullish row = true) rows.
Proof.
  induction rows as [|row rows [IH|IH]].
  - left. constructor.
  - destruct (nullish row) eqn:Hrow.
    + right. now constructor.
    + left. now constructor.
  - right. now apply Exists_cons_tl.
Qed.

Lemma Forall_not_Exists_nullish (rows : list JS) :
  Forall (fun row => nullish row = false) rows ->
  ~ Exists (fun row => nullish row = true) rows.
Proof.
  intros Hall Hex. apply Exists_exists in Hex as (row & Hin & Hrow).
  rewrite Forall_forall in Hall. specialize (Hall row Hin). congruence.
Qed.

Section ListingMore.

Variable ToString : JS -> Res string.
Variable env : Env.

(** [listed] fails exactly on an unusable reply. *)
Lemma listed_failure (reply : option JS) :
  listed ToString reply = Throw (Err "Failed to fetch deployments")
  <-> unusableListing ToString reply.
Proof.
  unfold listed, unusableListing.
  destruct reply as [data|]; [|tauto].
  destruct (Js.get data "resources") as [resources|e]; cbn [bindRes]; [|tauto].
  destruct resources as [| |b|n|str|rows|members]; try (simpl; tauto).
  destruct (nullish_rows rows) as [Hall|Hex].
  - rewrite (runningDeployments_rows ToString rows Hall).
    destruct (mapRes (rowDeployment ToString) (filter rowKept rows)) as [ds|e] eqn:Hmap.
    + split; [discriminate|].
      intros [Hex|Hex]; [now apply Forall_not_Exists_nullish in Hex|].
      apply Exists_exists in Hex as (row & Hin & Hkept & Hnone).
      assert (Hrow : In row (filter rowKept rows)) by (apply filter_In; now split).
      apply mapRes_Forall2 in Hmap.
      assert (Hd : exists d, rowDeployment ToString row = Val d).
      { clear - Hmap Hrow. induction Hmap as [|x y xs ys Hx _ IH]; [destruct Hrow|].
        destruct Hrow as [<-|Hrow]; [now exists y|now apply IH]. }
      apply rowDeployment_rowLabel in Hd as (label & Hlabel).
      destruct (Hnone label Hlabel).
    + split; [|reflexivity]. intros _. right.
      destruct (mapRes_Throw _ _ _ Hmap) as (row & Hin & Hrow).
      apply filter_In in Hin as (Hin & Hkept).
      apply Exists_exists. exists row. repeat split; try assumption.
      intros label Hlabel. unfold rowDeployment in Hrow. rewrite Hlabel in Hrow.
      discriminate.
  - unfold runningDeployments. rewrite (filterRes_null_row rows Hex). simpl. tauto.
Qed.

(** X2. With a client secret configured and a token at hand,
    [getAiCoreDeployments] sends exactly one listing request, with that token
    as bearer, and fails with "Failed to fetch deployments" exactly when the
    reply is unusable: the request is rejected, the body is [null], its
    [resources] is not an array, a row is [null], or the name or the version
    of a row that is to be kept cannot be converted to a string.  The cached
    list is not touched. *)
Theorem getAiCoreDeployments_listing_failure (s s1 : State) (bearer : string) :
  isEmptySecret (sapAiCoreClientSecret (options s)) = false ->
  getToken env s = (Val bearer, s1) ->
  (fst (getAiCoreDeployments ToString env s) = Throw (Err "Failed to fetch deployments")
   <-> unusableListing ToString (deploymentsReply env (List.length (trace s1))))
  /\ trace (snd (getAiCoreDeployments ToString env s))
     = trace s1 ++ [listingRequest bearer s1]
  /\ deployments (snd (getAiCoreDeployments ToString env s)) = deployments s.
Proof.
  intros Hsecret Htoken.
  pose proof (getToken_deployments env s) as Hdep. rewrite Htoken in Hdep.
  rewrite getAiCoreDeployments_run, Hsecret, Htoken. simpl.
  split; [apply listed_failure|]. split; [reflexivity|exact Hdep].
Qed.

(** X3. When the token exchange is rejected, [getAiCoreDeployments] passes the
    rejection on as it is, not as "Failed to fetch deployments", and sends no
    listing request. *)
Theorem getAiCoreDeployments_token_failure (s : State) (e : Error) :
  isEmptySecret (sapAiCoreClientSecret (options s)) = false ->
  fst (getToken env s) = Throw e ->
  fst (getAiCoreDeployments ToString env s) = Throw AxiosError
  /\ count isGetDeployments (trace (snd (getAiCoreDeployments ToString env s)))
     = count isGetDeployments (trace s)
  /\ deployments (snd (getAiCoreDeployments ToString env s)) = deployments s.
Proof.
  intros Hsecret Hthrow.
  pose proof (getToken_throws env s e Hthrow) as ->.
  pose proof (getToken_deployments env s) as Hdep.
  destruct (getToken_trace env s) as (auth & Htrace & Hauth).
  rewrite getAiCoreDeployments_run, Hsecret.
  destruct (getToken env s) as [[bearer|e] s1]; simpl in *; [discriminate|].
  injection Hthrow as ->. split; [reflexivity|]. split; [|exact Hdep].
  rewrite Htrace. unfold count. rewrite filter_app, length_app.
  destruct Hauth as [->|(c & -> & Hc)]; simpl; [lia|].
  destruct c; try discriminate. simpl. lia.
Qed.

End ListingMore.

(** ** Deployment resolver *)

Lemma find_none_existsb {A} (p : A -> bool) (xs : list A) :
  find p xs = None -> existsb p xs = false.
Proof.
  induction xs as [|x xs IH]; simpl; [reflexivity|].
  destruct (p x); [discriminate|]. exact IH.
Qed.

Lemma existsb_find {A} (p : A -> bool) (xs : list A) :
  existsb p xs = true -> exists x, find p xs = Some x.
Proof.
  induction xs as [|x xs IH]; simpl; [discriminate|].
  destruct (p x); [now exists x|]. exact IH.
Qed.

(** What [find] returns is the first element that passes. *)
Lemma find_first {A} (p : A -> bool) (xs : list A) (x : A) :
  find p xs = Some x ->
  exists before after,
    xs = before ++ x :: after /\ forallb (fun y => negb (p y)) before = true /\ p x = true.
Proof.
  induction xs as [|y xs IH]; simpl; [discriminate|].
  destruct (p y) eqn:Hy.
  - intros [= ->]. exists [], xs. repeat split. exact Hy.
  - intros Hfind. destruct (IH Hfind) as (before & after & -> & Hbefore & Hx).
    exists (y :: before), after. simpl. rewrite Hy. repeat split; assumption.
Qed.

Lemma find_pointwise {A} (p q : A -> bool) (xs : list A) :
  (forall x, p x = q x) -> find p xs = find q xs.
Proof.
  intros Hpq. induction xs as [|x xs IH]; simpl; [reflexivity|].
  rewrite Hpq, IH. reflexivity.
Qed.

Lemma existsb_pointwise {A} (p q : A -> bool) (xs : list A) :
  (forall x, p x = q x) -> existsb p xs = existsb q xs.
Proof.
  intros Hpq. induction xs as [|x xs IH]; simpl; [reflexivity|].
  rewrite Hpq, IH. reflexivity.
Qed.

(** *** Base names *)

Lemma beforeFirst_suffix (c : ascii) (m v : string) :
  beforeFirst c (m ++ String c v)%string = beforeFirst c m.
Proof.
  induction m as [|d m IH]; simpl.
  - now rewrite Ascii.eqb_refl.
  - destruct (Ascii.eqb d c); [reflexivity|]. now rewrite IH.
Qed.

Lemma lowerChar_idempotent (c : ascii) :
  Str.lowerChar (Str.lowerChar c) = Str.lowerChar c.
Proof.
  destruct c as [[] [] [] [] [] [] [] []]; reflexivity.
Qed.

Lemma lowerChar_colon (c : ascii) :
  Ascii.eqb (Str.lowerChar c) Str.COLON = Ascii.eqb c Str.COLON.
Proof.
  destruct c as [[] [] [] [] [] [] [] []]; reflexivity.
Qed.

Lemma toLowerCase_idempotent (s : string) :
  Str.toLowerCase (Str.toLowerCase s) = Str.toLowerCase s.
Proof.
  induction s as [|c s IH]; simpl; [reflexivity|].
  now rewrite lowerChar_idempotent, IH.
Qed.

Lemma beforeFirst_toLowerCase (s : string) :
  beforeFirst Str.COLON (Str.toLowerCase s)
    = Str.toLowerCase (beforeFirst Str.COLON s).
Proof.
  induction s as [|c s IH]; simpl; [reflexivity|].
  rewrite lowerChar_colon. destruct (Ascii.eqb c Str.COLON); [reflexivity|].
  simpl. now rewrite IH.
Qed.

Lemma sameBaseName_version (m v : string) :
  sameBaseName (m ++ ":" ++ v)%string m.
Proof.
  unfold sameBaseName.
  change (m ++ ":" ++ v)%string with (m ++ String Str.COLON v)%string.
  now rewrite beforeFirst_suffix.
Qed.

Lemma sameBaseName_lower (m : string) :
  sameBaseName (Str.toLowerCase m) m.
Proof.
  unfold sameBaseName. now rewrite beforeFirst_toLowerCase, toLowerCase_idempotent.
Qed.

Lemma matchesModel_same (m m' : string) (d : Deployment.t) :
  sameBaseName m m' -> matchesModel m d = matchesModel m' d.
Proof.
  unfold sameBaseName, matchesModel, baseName. intros H.
  rewrite !split0_beforeFirst. now rewrite H.
Qed.

Section ResolverMore.

Variable ToString : JS -> Res string.
Variable env : Env.

Lemma getAiCoreDeployments_deployments (s : State) :
  deployments (snd (getAiCoreDeployments ToString env s)) = deployments s.
Proof.
  rewrite getAiCoreDeployments_run.
  destruct (isEmptySecret _); [reflexivity|].
  pose proof (getToken_deployments env s) as H.
  destruct (getToken env s) as [[bearer|e] s1]; simpl in *; exact H.
Qed.

(** [getAiCoreDeployments] fails in two ways only. *)
Lemma getAiCoreDeployments_throws (s : State) (e : Error) :
  fst (getAiCoreDeployments ToString env s) = Throw e ->
  e = AxiosError \/ e = Err "Failed to fetch deployments".
Proof.
  rewrite getAiCoreDeployments_run.
  destruct (isEmptySecret _); [discriminate|].
  pose proof (getToken_throws env s) as Hthrows.
  destruct (getToken env s) as [[bearer|e'] s1]; simpl in *.
  - unfold listed. destruct (deploymentsReply env _) as [data|]; [|intros [= <-]; now right].
    destruct (bindRes _ _); [discriminate|]. intros [= <-]. now right.
  - intros [= <-]. left. now apply Hthrows.
Qed.

(** X4. A resolution that succeeded is repeated from the cache: the same call
    made again returns the same id, sends nothing and changes nothing. *)
Theorem getDeploymentForModel_again (modelId : string) (s s1 : State) (id : JS) :
  getDeploymentForModel ToString env modelId s = (Val id, s1) ->
  getDeploymentForModel ToString env modelId s1 = (Val id, s1).
Proof.
  intros Hrun.
  destruct (hasDeploymentForModel modelId s) eqn:Hhas.
  - unfold hasDeploymentForModel in Hhas.
    destruct (deployments s) as [ds|] eqn:Hds; [|discriminate].
    rewrite (getDeploymentForModel_hit _ _ _ _ _ Hds Hhas) in Hrun.
    injection Hrun as Hres <-.
    rewrite (getDeploymentForModel_hit _ _ _ _ _ Hds Hhas). now rewrite Hres.
  - rewrite (getDeploymentForModel_miss _ _ _ _ Hhas) in Hrun.
    destruct (getAiCoreDeployments ToString env s) as [[ds|e] s0]; [|discriminate].
    injection Hrun as Hres <-.
    assert (Hex : existsb (matchesModel modelId) ds = true).
    { unfold resolve in Hres.
      destruct (find (matchesModel modelId) ds) eqn:Hfind; [|discriminate].
      exact (find_existsb _ _ _ Hfind). }
    rewrite (getDeploymentForModel_hit _ _ modelId (set_deployments ds s0) ds eq_refl Hex).
    now rewrite Hres.
Qed.

(** X5. Only the base name of the requested model counts.  Two model ids whose
    parts before the first colon agree up to letter case leave the same state
    behind and resolve to the same deployment id; in particular a version
    suffix after a colon, and the letter case of the id, make no difference. *)
Theorem getDeploymentForModel_ignores_version_and_case
    (modelId other : string) (s : State) :
  sameBaseName other modelId ->
  snd (getDeploymentForModel ToString env other s)
    = snd (getDeploymentForModel ToString env modelId s)
  /\ (forall id,
        fst (getDeploymentForModel ToString env other s) = Val id
        <-> fst (getDeploymentForModel ToString env modelId s) = Val id)
  /\ (forall version, sameBaseName (modelId ++ ":" ++ version)%string modelId)
  /\ sameBaseName (Str.toLowerCase modelId) modelId.
Proof.
  intros Hsame.
  assert (Hmatch : forall d, matchesModel other d = matchesModel modelId d).
  { intros d. now apply matchesModel_same. }
  assert (Hhas : hasDeploymentForModel other s = hasDeploymentForModel modelId s).
  { unfold hasDeploymentForModel. destruct (deployments s); [|reflexivity].
    now apply existsb_pointwise. }
  assert (Hres : forall ds id, resolve other ds = Val id <-> resolve modelId ds = Val id).
  { intros ds id. unfold resolve. rewrite (find_pointwise _ _ ds Hmatch).
    destruct (find (matchesModel modelId) ds); [reflexivity|].
    split; discriminate. }
  split; [|split; [|split]].
  - destruct (hasDeploymentForModel modelId s) eqn:Hm.
    + unfold hasDeploymentForModel in Hhas, Hm.
      destruct (deployments s) as [ds|] eqn:Hds; [|discriminate].
      now rewrite (getDeploymentForModel_hit _ _ _ _ _ Hds Hhas),
        (getDeploymentForModel_hit _ _ _ _ _ Hds Hm).
    + rewrite (getDeploymentForModel_miss _ _ _ _ Hhas),
        (getDeploymentForModel_miss _ _ _ _ Hm).
      destruct (getAiCoreDeployments ToString env s) as [[ds|e] s0]; reflexivity.
  - intros id. destruct (hasDeploymentForModel modelId s) eqn:Hm.
    + unfold hasDeploymentForModel in Hhas, Hm.
      destruct (deployments s) as [ds|] eqn:Hds; [|discriminate].
      rewrite (getDeploymentForModel_hit _ _ _ _ _ Hds Hhas),
        (getDeploymentForModel_hit _ _ _ _ _ Hds Hm). apply Hres.
    + rewrite (getDeploymentForModel_miss _ _ _ _ Hhas),
        (getDeploymentForModel_miss _ _ _ _ Hm).
      destruct (getAiCoreDeployments ToString env s) as [[ds|e] s0]; simpl.
      * apply Hres.
      * reflexivity.
  - intros version. apply sameBaseName_version.
  - apply sameBaseName_lower.
Qed.

(** X6. When resolution fails with "No running deployment found for model",
    the list just fetched has nevertheless replaced the cached one, and it
    holds no deployment for the model: the failure is not remembered, and the
    next resolution of that model fetches the list again. *)
Theorem getDeploymentForModel_unserved (modelId : string) (s : State) :
  fst (getDeploymentForModel ToString env modelId s) = Throw (noDeployment modelId) ->
  exists ds,
    fst (getAiCoreDeployments ToString env s) = Val ds
    /\ deployments (snd (getDeploymentForModel ToString env modelId s)) = Some ds
    /\ hasDeploymentForModel modelId (snd (getDeploymentForModel ToString env modelId s))
       = false
    /\ needsRefresh modelId (snd (getDeploymentForModel ToString env modelId s)) = true.
Proof.
  intros Hfail.
  destruct (hasDeploymentForModel modelId s) eqn:Hhas.
  - unfold hasDeploymentForModel in Hhas.
    destruct (deployments s) as [ds|] eqn:Hds; [|discriminate].
    rewrite (getDeploymentForModel_hit _ _ _ _ _ Hds Hhas) in Hfail.
    destruct (existsb_find _ _ Hhas) as (d & Hfind).
    unfold resolve in Hfail. rewrite Hfind in Hfail. discriminate.
  - rewrite (getDeploymentForModel_miss _ _ _ _ Hhas) in *.
    pose proof (getAiCoreDeployments_throws s) as Hthrows.
    destruct (getAiCoreDeployments ToString env s) as [[ds|e] s0]; simpl in *.
    + exists ds. unfold resolve in Hfail.
      destruct (find (matchesModel modelId) ds) eqn:Hfind; [discriminate|].
      assert (Hno : hasDeploymentForModel modelId (set_deployments ds s0) = false).
      { unfold hasDeploymentForModel. simpl. now apply find_none_existsb. }
      repeat split; try assumption.
      rewrite needsRefresh_has, Hno. reflexivity.
    + injection Hfail as ->. destruct (Hthrows _ eq_refl) as [H|H]; discriminate.
Qed.

(** X7. When the refresh itself fails, resolution fails with the same error,
    which is the rejection of the token exchange or "Failed to fetch
    deployments", and the cached list stays as it was. *)
Theorem getDeploymentForModel_failed_refresh (modelId : string) (s : State) (e : Error) :
  hasDeploymentForModel modelId s = false ->
  fst (getAiCoreDeployments ToString env s) = Throw e ->
  fst (getDeploymentForModel ToString env modelId s) = Throw e
  /\ deployments (snd (getDeploymentForModel ToString env modelId s)) = deployments s
  /\ (e = AxiosError \/ e = Err "Failed to fetch deployments").
Proof.
  intros Hhas Hthrow.
  pose proof (getAiCoreDeployments_throws s e Hthrow) as He.
  pose proof (getAiCoreDeployments_deployments s) as Hdep.
  rewrite (getDeploymentForModel_miss _ _ _ _ Hhas).
  destruct (getAiCoreDeployments ToString env s) as [[ds|e'] s0]; simpl in *;
    [discriminate|].
  injection Hthrow as ->. repeat split; assumption.
Qed.

(** X8. Every deployment of the cached list can be resolved by its own label:
    the call sends nothing and returns the id of the first deployment of the
    list whose base name is that of the label. *)
Theorem getDeploymentForModel_own_label (s : State) (ds : list Deployment.t)
    (d : Deployment.t) :
  deployments s = Some ds ->
  In d ds ->
  exists before first after,
    ds = before ++ first :: after
    /\ forallb (fun x => negb (matchesModel (Deployment.name d) x)) before = true
    /\ sameBaseName (Deployment.name first) (Deployment.name d)
    /\ getDeploymentForModel ToString env (Deployment.name d) s
       = (Val (Deployment.id first), s).
Proof.
  intros Hds Hin.
  assert (Hself : matchesModel (Deployment.name d) d = true).
  { apply matchesModel_sameBaseName. reflexivity. }
  assert (Hex : existsb (matchesModel (Deployment.name d)) ds = true).
  { apply existsb_exists. now exists d. }
  destruct (existsb_find _ _ Hex) as (first & Hfind).
  destruct (find_first _ _ _ Hfind) as (before & after & Hsplit & Hbefore & Hfirst).
  exists before, first, after. repeat split; try assumption.
  - now apply matchesModel_sameBaseName.
  - rewrite (getDeploymentForModel_hit _ _ _ _ _ Hds Hex). unfold resolve.
    now rewrite Hfind.
Qed.

(** X9. From listing to resolution.  When the cached list does not serve the
    model and the listing, in which every row to be kept has a label, has a
    running row whose model name is [name], every model id with the base name
    of [name] is resolved, to the id of a running row, with the listing
    request as the last request sent. *)
Theorem getDeploymentForModel_listed_model (modelId name bearer : string)
    (s s1 : State) (data : JS) (rows : list JS) (row : JS) :
  match deployments s with
  | Some ds => unserved modelId ds
  | None => True
  end ->
  isEmptySecret (sapAiCoreClientSecret (options s)) = false ->
  getToken env s = (Val bearer, s1) ->
  deploymentsReply env (List.length (trace s1)) = Some data ->
  Js.get data "resources" = Val (JArr rows) ->
  Forall (fun r => nullish r = false) rows ->
  (forall r, In r rows -> rowKept r = true ->
     exists label, rowLabel ToString r = Val label) ->
  In row rows ->
  rowKept row = true ->
  Js.getOpt (rowModel row) "name" = JStr name ->
  sameBaseName modelId name ->
  exists found,
    In found rows
    /\ rowKept found = true
    /\ fst (getDeploymentForModel ToString env modelId s) = Val (Js.getOpt found "id")
    /\ trace (snd (getDeploymentForModel ToString env modelId s))
       = trace s1 ++ [listingRequest bearer s1].
Proof.
  intros Hnone Hsecret Htoken Hreply Hres Hrows Hlabels Hin Hkept Hname Hsame.
  apply unserved_has in Hnone as Hhas.
  rewrite (getDeploymentForModel_miss _ _ _ _ Hhas).
  rewrite getAiCoreDeployments_run, Hsecret, Htoken, Hreply.
  unfold listed. rewrite Hres. cbn [bindRes].
  rewrite (runningDeployments_rows ToString rows Hrows).
  destruct (mapRes_total (rowDeployment ToString) (filter rowKept rows)) as (ds & Hmap).
  { intros r Hr. apply filter_In in Hr as (Hr & Hrkept).
    apply rowDeployment_rowLabel. now apply Hlabels. }
  rewrite Hmap.
  destruct (proj2 (rowDeployment_rowLabel ToString row) (Hlabels row Hin Hkept))
    as (d & Hd).
  assert (Hmatch : matchesModel modelId d = true).
  { apply matchesModel_sameBaseName.
    apply rowDeployment_label in Hd as (n & v & Hn & _ & ->).
    rewrite Hname in Hn. injection Hn as <-. simpl Deployment.name.
    unfold sameBaseName in *.
    change (name ++ ":" ++ v)%string with (name ++ String Str.COLON v)%string.
    rewrite beforeFirst_suffix. now symmetry. }
  assert (Hex : existsb (matchesModel modelId) ds = true).
  { apply existsb_exists. exists d. split; [|exact Hmatch].
    apply (mapRes_In _ _ _ Hmap). exists row. split; [|exact Hd].
    apply filter_In. now split. }
  destruct (existsb_find _ _ Hex) as (d' & Hfind).
  pose proof (find_some _ _ Hfind) as (Hd' & _).
  apply (mapRes_In _ _ _ Hmap) in Hd' as (found & Hfound & Hmade).
  apply filter_In in Hfound as (Hfound & Hfkept).
  apply rowDeployment_label in Hmade as (n & v & _ & _ & ->).
  exists found. unfold resolve. rewrite Hfind. simpl. repeat split; assumption.
Qed.

End ResolverMore.

Section ResolverCache.

Variable ToString : JS -> Res string.
Variable env : Env.

(** A successful resolution leaves a list that holds the deployment. *)
Lemma getDeploymentForModel_cached (modelId : string) (s s1 : State) (id : JS) :
  getDeploymentForModel ToString env modelId s = (Val id, s1) ->
  exists ds,
    deployments s1 = Some ds
    /\ existsb (matchesModel modelId) ds = true
    /\ resolve modelId ds = Val id.
Proof.
  intros Hrun.
  destruct (hasDeploymentForModel modelId s) eqn:Hhas.
  - unfold hasDeploymentForModel in Hhas.
    destruct (deployments s) as [ds|] eqn:Hds; [|discriminate].
    rewrite (getDeploymentForModel_hit _ _ _ _ _ Hds Hhas) in Hrun.
    injection Hrun as Hres <-. now exists ds.
  - rewrite (getDeploymentForModel_miss _ _ _ _ Hhas) in Hrun.
    destruct (getAiCoreDeployments ToString env s) as [[ds|e] s0]; [|discriminate].
    injection Hrun as Hres <-. exists ds. repeat split; try assumption.
    unfold resolve in Hres.
    destruct (find (matchesModel modelId) ds) eqn:Hfind; [|discriminate].
    exact (find_existsb _ _ _ Hfind).
Qed.

Lemma getAiCoreDeployments_keeps_token (s : State) :
  token s <> None -> token (snd (getAiCoreDeployments ToString env s)) <> None.
Proof.
  intros Hsome. rewrite getAiCoreDeployments_run.
  destruct (isEmptySecret _); [exact Hsome|].
  pose proof (getToken_keeps_token env s Hsome) as H.
  destruct (getToken env s) as [[bearer|e] s1]; simpl in *; exact H.
Qed.

Lemma getDeploymentForModel_keeps_token (modelId : string) (s : State) :
  token s <> None ->
  token (snd (getDeploymentForModel ToString env modelId s)) <> None.
Proof.
  intros Hsome. destruct (hasDeploymentForModel modelId s) eqn:Hhas.
  - unfold hasDeploymentForModel in Hhas.
    destruct (deployments s) as [ds|] eqn:Hds; [|discriminate].
    now rewrite (getDeploymentForModel_hit _ _ _ _ _ Hds Hhas).
  - rewrite (getDeploymentForModel_miss _ _ _ _ Hhas).
    pose proof (getAiCoreDeployments_keeps_token s Hsome) as H.
    destruct (getAiCoreDeployments ToString env s) as [[ds|e] s0]; simpl in *; exact H.
Qed.

(** With an empty client secret and nothing but the sentinel in the cache, a
    model of another base name is not resolved, and nothing is sent. *)
Lemma getDeploymentForModel_sentinel (modelId : string) (s : State) :
  sapAiCoreClientSecret (options s) = Some "" ->
  sentinelCache s ->
  Str.toLowerCase (beforeFirst Str.COLON modelId) <> "ai-core-not-configured" ->
  getDeploymentForModel ToString env modelId s
    = (Throw (noDeployment modelId), set_deployments [notConfigured] s).
Proof.
  intros Hsecret Hcache Hbase.
  assert (Hno : matchesModel modelId notConfigured = false).
  { apply not_true_is_false. intros Hm.
    apply matchesModel_sameBaseName in Hm. unfold sameBaseName in Hm.
    apply Hbase. rewrite <- Hm. reflexivity. }
  assert (Hhas : hasDeploymentForModel modelId s = false).
  { unfold hasDeploymentForModel.
    destruct Hcache as [->| ->]; [reflexivity|]. simpl. now rewrite Hno. }
  rewrite (getDeploymentForModel_miss _ _ _ _ Hhas), getAiCoreDeployments_run, Hsecret.
  unfold resolve. cbn [isEmptySecret Str.isEmpty find]. now rewrite Hno.
Qed.

End ResolverCache.

(** ** The statements above on concrete handlers *)

(** A listing with a [null] row is unusable, and so is a listing with a
    running row whose version cannot be converted to a string. *)
Lemma getAiCoreDeployments_listing_failure_witness :
  fst (getAiCoreDeployments Example.toString Example.nullRowEnv Example.fresh)
    = Throw (Err "Failed to fetch deployments")
  /\ fst (getAiCoreDeployments Example.toString Example.oddVersionEnv Example.fresh)
     = Throw (Err "Failed to fetch deployments").
Proof.
  split.
  - apply (proj1 (getAiCoreDeployments_listing_failure Example.toString Example.nullRowEnv
                    Example.fresh (snd (getToken Example.nullRowEnv Example.fresh)) "abc"
                    eq_refl eq_refl)).
    left. apply Exists_cons_tl, Exists_cons_hd. reflexivity.
  - apply (proj1 (getAiCoreDeployments_listing_failure Example.toString
                    Example.oddVersionEnv Example.fresh
                    (snd (getToken Example.oddVersionEnv Example.fresh)) "abc"
                    eq_refl eq_refl)).
    right. apply Exists_cons_hd. split; [reflexivity|].
    intros label H. vm_compute in H. discriminate.
Defined.

(** With every request rejected, the rejection of the exchange is the error. *)
Lemma getAiCoreDeployments_token_failure_witness :
  fst (getAiCoreDeployments Example.toString Example.offlineEnv Example.fresh)
    = Throw AxiosError.
Proof.
  apply (getAiCoreDeployments_token_failure Example.toString Example.offlineEnv
           Example.fresh AxiosError eq_refl eq_refl).
Defined.

(** The deployment of "gpt-4o", once found, is found again. *)
Lemma getDeploymentForModel_again_witness :
  getDeploymentForModel Example.toString Example.env "gpt-4o"
      (snd (getDeploymentForModel Example.toString Example.env "gpt-4o" Example.fresh))
    = (Val (JStr "d5"),
       snd (getDeploymentForModel Example.toString Example.env "gpt-4o" Example.fresh)).
Proof.
  apply (getDeploymentForModel_again Example.toString Example.env "gpt-4o" Example.fresh).
  vm_compute. reflexivity.
Defined.

(** "GPT-4o:2024-05-13" is resolved as "gpt-4o" is. *)
Lemma getDeploymentForModel_ignores_version_and_case_witness :
  fst (getDeploymentForModel Example.toString Example.env "GPT-4o:2024-05-13" Example.fresh)
    = Val (JStr "d5").
Proof.
  apply (proj1 (proj2 (getDeploymentForModel_ignores_version_and_case
                         Example.toString Example.env "gpt-4o" "GPT-4o:2024-05-13"
                         Example.fresh eq_refl))).
  vm_compute. reflexivity.
Defined.

(** "gpt-4", whose only deployment is stopped, stays unserved. *)
Lemma getDeploymentForModel_unserved_witness :
  hasDeploymentForModel "gpt-4"
    (snd (getDeploymentForModel Example.toString Example.env "gpt-4" Example.fresh))
    = false.
Proof.
  destruct (getDeploymentForModel_unserved Example.toString Example.env "gpt-4"
              Example.fresh eq_refl) as (ds & _ & _ & Hhas & _).
  exact Hhas.
Defined.

Lemma getDeploymentForModel_failed_refresh_witness :
  fst (getDeploymentForModel Example.toString Example.nullRowEnv "gpt-4o" Example.fresh)
    = Throw (Err "Failed to fetch deployments")
  /\ deployments (snd (getDeploymentForModel Example.toString Example.nullRowEnv "gpt-4o"
                         Example.fresh)) = None.
Proof.
  destruct (getDeploymentForModel_failed_refresh Example.toString Example.nullRowEnv
              "gpt-4o" Example.fresh (Err "Failed to fetch deployments") eq_refl eq_refl)
    as (Hfail & Hcache & _).
  split; assumption.
Defined.

(** Of two cached versions of a model, the label of the second resolves to
    the first. *)
Lemma getDeploymentForModel_own_label_witness :
  getDeploymentForModel Example.toString Example.env "Claude-3-5-Sonnet:v2"
      Example.twoVersions
    = (Val (JStr "d1"), Example.twoVersions).
Proof.
  destruct (getDeploymentForModel_own_label Example.toString Example.env
              Example.twoVersions
              [ Deployment.mk (JStr "d1") "claude-3-5-sonnet:v1";
                Deployment.mk (JStr "d2") "Claude-3-5-Sonnet:v2" ]
              (Deployment.mk (JStr "d2") "Claude-3-5-Sonnet:v2") eq_refl)
    as (before & first & after & Hsplit & Hbefore & _ & Hrun).
  - right. left. reflexivity.
  - simpl Deployment.name in Hrun. rewrite Hrun. f_equal. f_equal.
    destruct before as [|x before].
    + injection Hsplit as <- _. reflexivity.
    + injection Hsplit as <- _. vm_compute in Hbefore. discriminate.
Defined.

Lemma getDeploymentForModel_listed_model_witness :
  exists found,
    In found Example.listingRows
    /\ rowKept found = true
    /\ fst (getDeploymentForModel Example.toString Example.env "GPT-4o:latest"
              Example.fresh) = Val (Js.getOpt found "id").
Proof.
  destruct (getDeploymentForModel_listed_model Example.toString Example.env
              "GPT-4o:latest" "gpt-4o" "abc" Example.fresh
              (snd (getToken Example.env Example.fresh))
              Example.listing Example.listingRows
              (nth 4 Example.listingRows JUndef))
    as (found & Hin & Hkept & Hrun & _).
  - exact I.
  - reflexivity.
  - vm_compute. reflexivity.
  - reflexivity.
  - vm_compute. reflexivity.
  - vm_compute. repeat constructor.
  - intros r Hr Hk. vm_compute in Hr.
    repeat (destruct Hr as [<-|Hr];
            [first [discriminate Hk | eexists; vm_compute; reflexivity]|]).
    destruct Hr.
  - vm_compute. do 4 right. left. reflexivity.
  - vm_compute. reflexivity.
  - vm_compute. reflexivity.
  - vm_compute. reflexivity.
  - exists found. repeat split; assumption.
Defined.

(** ** Lines of a chunk *)

Lemma split_no_separator (c : ascii) (s : string) :
  Forall (fun piece => contains c piece = false) (Str.split c s).
Proof.
  induction s as [|d s IH]; simpl.
  - repeat constructor.
  - destruct (Ascii.eqb d c) eqn:Hd.
    + constructor; [reflexivity|exact IH].
    + destruct (Str.split c s) as [|piece pieces].
      * constructor; [|constructor]. simpl. now rewrite Hd.
      * inversion IH as [|? ? Hpiece Hpieces]; subst.
        constructor; [|exact Hpieces]. simpl. now rewrite Hd, Hpiece.
Qed.

Lemma split_line (c : ascii) (l rest : string) :
  contains c l = false ->
  Str.split c (l ++ String c rest)%string = l :: Str.split c rest.
Proof.
  induction l as [|d l IH]; simpl; intros Hl.
  - now rewrite Ascii.eqb_refl.
  - apply orb_false_iff in Hl as (Hd & Hl). rewrite Hd, (IH Hl). reflexivity.
Qed.

(** X10. The lines of a chunk are never empty and never hold a line feed; and
    the text made of lines, each ended by a line feed, splits back into
    exactly those lines, so that blank lines and the final line feed leave no
    line behind. *)
Theorem linesOf_joinLines (chunk : string) (ls : list string) :
  Forall (fun l => isLine l = true) (linesOf chunk)
  /\ (forallb isLine ls = true -> linesOf (joinLines ls) = ls)
  /\ linesOf (String Str.LF (String Str.LF (joinLines ls)))
     = linesOf (joinLines ls).
Proof.
  split; [|split].
  - unfold linesOf. apply Forall_forall. intros l Hin.
    apply filter_In in Hin as (Hin & Hne).
    pose proof (split_no_separator Str.LF chunk) as Hall.
    rewrite Forall_forall in Hall. unfold isLine. now rewrite Hne, (Hall l Hin).
  - induction ls as [|l ls IH]; simpl; intros Hls; [reflexivity|].
    apply andb_true_iff in Hls as (Hl & Hls).
    unfold isLine in Hl. apply andb_true_iff in Hl as (Hne & Hlf).
    apply negb_true_iff in Hlf.
    unfold linesOf in *. rewrite (split_line _ _ _ Hlf). simpl.
    rewrite Hne. now rewrite (IH Hls).
  - reflexivity.
Qed.

Lemma linesOf_joinLines_witness :
  linesOf (joinLines ["data: a"; "event: b"]) = ["data: a"; "event: b"].
Proof.
  apply (proj1 (proj2 (linesOf_joinLines "" ["data: a"; "event: b"]))). reflexivity.
Defined.

(** ** Outcome of the parsers *)

Section LoopOutcome.

Context {S X : Type}.
Variable body : X -> Gen S bool.
Variable returns : X -> bool.
Hypothesis body_returns : forall x s, fst (snd (body x s)) = Val (returns x).

(** A loop whose body never throws returns exactly when the body does so on
    some element. *)
Lemma forOf_outcome (xs : list X) (s : S) :
  fst (snd (Monad.forOf body xs s)) = Val (existsb returns xs).
Proof.
  revert s. induction xs as [|x xs IH]; intros s; simpl; [reflexivity|].
  unfold Monad.gbind. specialize (body_returns x s).
  destruct (body x s) as [out [r s1]]. simpl in body_returns. subst r.
  destruct (returns x); simpl; [reflexivity|].
  specialize (IH s1). destruct (Monad.forOf body xs s1) as [out' [r' s2]].
  simpl in *. exact IH.
Qed.

End LoopOutcome.

Section ParserOutcome.

Variable JSON_parse : string -> option JS.
Variable ToString : JS -> Res string.
Variable coercedPositive : JS -> bool.

Lemma anthropicLine_outcome (line : string) (u : Usage) :
  fst (snd (anthropicLine JSON_parse line u)) = Val false.
Proof.
  unfold anthropicLine. unfold_m.
  destruct (Str.startsWith line "data: "); [|reflexivity].
  destruct (liftRes (parseJson JSON_parse (Str.slice 6 line)) u) as [out [[data|e] u1]].
  - destruct (anthropicFrame data u1) as [out' [[[]|e] u2]]; reflexivity.
  - reflexivity.
Qed.

Lemma gptLine_outcome (line : string) (t : Totals) :
  fst (snd (gptLine JSON_parse ToString coercedPositive line t)) = Val (isSentinel line).
Proof.
  unfold gptLine, isSentinel, yieldTotals, getLocal. unfold_m.
  destruct (String.eqb (Str.trim line) "data: [DONE]"); [reflexivity|].
  destruct (Str.startsWith line "data: "); [|reflexivity].
  destruct (liftRes (parseJson JSON_parse (Str.slice 6 line)) t) as [out [[data|e] t1]].
  - destruct (gptFrame ToString coercedPositive data t1) as [out' [[[]|e] t2]]; reflexivity.
  - reflexivity.
Qed.

(** X11. Whatever the lines of the stream and whatever [JSON.parse] says of
    them, [streamCompletion] ends normally when the transport does and
    rethrows the failure of the transport when it fails: no line makes it
    throw or stop early. *)
Theorem streamCompletion_outcome {S} (stream : Stream) (s : S) :
  snd (streamCompletion JSON_parse stream s)
    = (if broken stream then Throw StreamError else Val tt, s)
  /\ fst (streamCompletion JSON_parse stream s)
     = fst (Monad.forOf (anthropicLine JSON_parse) (linesOfStream stream) noUsage).
Proof.
  rewrite streamCompletion_lines.
  pose proof (forOf_outcome (anthropicLine JSON_parse) (fun _ => false)
                anthropicLine_outcome (linesOfStream stream) noUsage) as Hout.
  destruct (Monad.forOf (anthropicLine JSON_parse) (linesOfStream stream) noUsage)
    as [out [r u]]. simpl in Hout. subst r.
  assert (Hnone : existsb (fun _ : string => false) (linesOfStream stream) = false).
  { induction (linesOfStream stream); simpl; auto. }
  rewrite Hnone. simpl. split; reflexivity.
Qed.

(** X12. [streamCompletionGPT] ends normally when one of the lines is the
    sentinel, whatever the transport does afterwards; without a sentinel it
    ends as the transport does.  It never throws anything but the failure of
    the transport. *)
Theorem streamCompletionGPT_outcome {S} (stream : Stream) (s : S) :
  snd (streamCompletionGPT JSON_parse ToString coercedPositive stream s)
    = (if existsb isSentinel (linesOfStream stream) then Val tt
       else if broken stream then Throw StreamError else Val tt,
       s).
Proof.
  rewrite streamCompletionGPT_lines.
  pose proof (forOf_outcome (gptLine JSON_parse ToString coercedPositive) isSentinel
                gptLine_outcome (linesOfStream stream) noTotals) as Hout.
  destruct (Monad.forOf (gptLine JSON_parse ToString coercedPositive) (linesOfStream stream) noTotals)
    as [out [r t]]. simpl in Hout. subst r.
  destruct (existsb isSentinel (linesOfStream stream)); reflexivity.
Qed.

(** X13. Only the lines count, not the chunks they arrive in: two streams with
    the same lines, chunk after chunk, that end in the same way make each
    parser yield the same chunks and end alike. *)
Theorem parsers_ignore_chunking {S} (stream stream' : Stream) (s : S) :
  linesOfStream stream = linesOfStream stream' ->
  broken stream = broken stream' ->
  streamCompletion JSON_parse stream s = streamCompletion JSON_parse stream' s
  /\ streamCompletionGPT JSON_parse ToString coercedPositive stream s
     = streamCompletionGPT JSON_parse ToString coercedPositive stream' s.
Proof.
  intros Hlines Hbroken.
  rewrite !streamCompletion_lines, !streamCompletionGPT_lines, Hlines.
  unfold finish. rewrite Hbroken. split; reflexivity.
Qed.

(** A line that does not start with [data: ]. *)
Lemma anthropicLine_other (line : string) (u : Usage) :
  Str.startsWith line "data: " = false ->
  anthropicLine JSON_parse line u = ([], (Val false, u)).
Proof.
  intros H. unfold anthropicLine. now rewrite H.
Qed.

Lemma gptLine_other (line : string) (t : Totals) :
  isSentinel line = false ->
  Str.startsWith line "data: " = false ->
  gptLine JSON_parse ToString coercedPositive line t = ([], (Val false, t)).
Proof.
  unfold isSentinel. intros Hs H. unfold gptLine. now rewrite Hs, H.
Qed.

(** X14. A line that does not start with [data: ], such as an [event: ] line
    or a comment, is passed over: the stream yields what it would yield
    without the line.  In [streamCompletionGPT] this holds unless the line is
    the sentinel, which may be indented. *)
Theorem other_line_is_skipped {S} (stream stream' : Stream) (s : S)
    (before after : list string) (line : string) :
  linesOfStream stream = before ++ line :: after ->
  linesOfStream stream' = before ++ after ->
  broken stream' = broken stream ->
  Str.startsWith line "data: " = false ->
  streamCompletion JSON_parse stream s = streamCompletion JSON_parse stream' s
  /\ (isSentinel line = false ->
      streamCompletionGPT JSON_parse ToString coercedPositive stream s
        = streamCompletionGPT JSON_parse ToString coercedPositive stream' s).
Proof.
  intros Hlines Hlines' Hbroken Hother. split.
  - rewrite !streamCompletion_lines, Hlines, Hlines'.
    rewrite (forOf_skip _ line before after noUsage
               (fun u => anthropicLine_other line u Hother)).
    unfold finish. now rewrite Hbroken.
  - intros Hsentinel.
    rewrite !streamCompletionGPT_lines, Hlines, Hlines'.
    rewrite (forOf_skip _ line before after noTotals
               (fun t => gptLine_other line t Hsentinel Hother)).
    unfold finish. now rewrite Hbroken.
Qed.

(** X15. What follows the first sentinel is never read: the stream yields what
    the stream cut after that line yields, however either of them ends.  The
    last chunk is then a usage chunk with the totals known at the sentinel. *)
Theorem streamCompletionGPT_stops_at_sentinel {S} (stream stream' : Stream) (s : S)
    (before after : list string) (line : string) :
  linesOfStream stream = before ++ line :: after ->
  linesOfStream stream' = before ++ [line] ->
  isSentinel line = true ->
  streamCompletionGPT JSON_parse ToString coercedPositive stream s
    = streamCompletionGPT JSON_parse ToString coercedPositive stream' s
  /\ (existsb isSentinel before = false ->
      exists out t,
        Monad.forOf (gptLine JSON_parse ToString coercedPositive) before noTotals
          = (out, (Val false, t))
        /\ streamCompletionGPT JSON_parse ToString coercedPositive stream s
           = (out ++ [UsageChunk (inputTokens t) (outputTokens t)], (Val tt, s))).
Proof.
  intros Hlines Hlines' Hsentinel.
  assert (Hloop : forall rest,
            Monad.forOf (gptLine JSON_parse ToString coercedPositive) (before ++ line :: rest) noTotals
            = match Monad.forOf (gptLine JSON_parse ToString coercedPositive) before noTotals with
              | (out, (Val false, t)) =>
                  (out ++ [UsageChunk (inputTokens t) (outputTokens t)], (Val true, t))
              | (out, (Val true, t)) => (out ++ [], (Val true, t))
              | (out, (Throw e, t)) => (out, (Throw e, t))
              end).
  { intros rest. rewrite forOf_app. unfold Monad.gbind at 1.
    destruct (Monad.forOf (gptLine JSON_parse ToString coercedPositive) before noTotals)
      as [out [[[]|e] t]]; try reflexivity.
    cbn [Monad.forOf]. unfold Monad.gbind.
    rewrite (gptLine_sentinel JSON_parse ToString coercedPositive line t Hsentinel).
    unfold Monad.gret. reflexivity. }
  split.
  - rewrite !streamCompletionGPT_lines, Hlines, Hlines', !Hloop.
    destruct (Monad.forOf (gptLine JSON_parse ToString coercedPositive) before noTotals)
      as [out [[[]|e] t]]; reflexivity.
  - intros Hnone.
    pose proof (forOf_outcome (gptLine JSON_parse ToString coercedPositive) isSentinel
                  gptLine_outcome before noTotals) as Hout.
    rewrite streamCompletionGPT_lines, Hlines, Hloop.
    destruct (Monad.forOf (gptLine JSON_parse ToString coercedPositive) before noTotals)
      as [out [r t]]. simpl in Hout. rewrite Hnone in Hout. subst r.
    exists out, t. split; reflexivity.
Qed.

End ParserOutcome.

(** ** Frames of the Anthropic format, case by case *)

Lemma isStr_eq (v : JS) (s : string) :
  Js.isStr v s = true -> v = JStr s.
Proof.
  destruct v; simpl; try discriminate. intros H. apply String.eqb_eq in H. now subst.
Qed.

Lemma anthropicFrame_nullish (frame : JS) (u : Usage) :
  nullish frame = true -> anthropicFrame frame u = ([], (Throw TypeError, u)).
Proof.
  intros H. unfold anthropicFrame, liftRes. unfold_m.
  now rewrite (get_nullish _ _ H).
Qed.

Lemma anthropicFrame_unknown (frame : JS) (u : Usage) :
  knownType (Js.getOpt frame "type") = false ->
  exists r, anthropicFrame frame u = ([], (r, u)).
Proof.
  intros Hknown. destruct (nullish frame) eqn:Hframe.
  - rewrite (anthropicFrame_nullish _ _ Hframe). now eexists.
  - unfold knownType in Hknown.
    apply orb_false_iff in Hknown as (Hknown & Hdelta).
    apply orb_false_iff in Hknown as (Hknown & Hblock).
    apply orb_false_iff in Hknown as (Hstart & Hbstart).
    unfold anthropicFrame, liftRes. unfold_m.
    rewrite (get_getOpt _ "type" Hframe), Hstart, Hbstart, Hblock, Hdelta.
    simpl. now eexists.
Qed.

Lemma anthropicFrame_block (frame : JS) (u : Usage) :
  Js.isStr (Js.getOpt frame "type") "content_block_start"
  || Js.isStr (Js.getOpt frame "type") "content_block_delta" = true ->
  exists r,
    anthropicFrame frame u
      = (if isTextBlock (blockOf frame)
         then [TextChunk (Js.or (Js.getOpt (blockOf frame) "text") (JStr ""))]
         else [],
         (r, u)).
Proof.
  intros Htype.
  assert (Hframe : nullish frame = false).
  { destruct (nullish frame) eqn:H; [|reflexivity].
    rewrite (getOpt_nullish _ "type" H) in Htype. discriminate. }
  assert (Hstart : Js.isStr (Js.getOpt frame "type") "message_start" = false).
  { apply orb_true_iff in Htype as [H|H]; apply isStr_eq in H; now rewrite H. }
  unfold anthropicFrame, liftRes, blockOf, isTextBlock. unfold_m.
  rewrite (get_getOpt _ "type" Hframe), Hstart, Htype.
  rewrite !(get_getOpt frame _ Hframe).
  set (block := if Js.isStr (Js.getOpt frame "type") "content_block_start"
                then Js.getOpt frame "content_block" else Js.getOpt frame "delta").
  assert (Hblock : (if Js.isStr (Js.getOpt frame "type") "content_block_start"
                    then Val (Js.getOpt frame "content_block")
                    else Val (Js.getOpt frame "delta")) = Val block).
  { unfold block. now destruct (Js.isStr (Js.getOpt frame "type") "content_block_start"). }
  rewrite Hblock.
  destruct (nullish block) eqn:Hnull.
  - rewrite (get_nullish _ "type" Hnull), (getOpt_nullish _ "type" Hnull).
    simpl. now eexists.
  - rewrite !(get_getOpt block _ Hnull).
    destruct (Js.isStr (Js.getOpt block "type") "text"
              || Js.isStr (Js.getOpt block "type") "text_delta");
      simpl; now eexists.
Qed.

Lemma anthropicFrame_start (frame : JS) (u : Usage) :
  Js.isStr (Js.getOpt frame "type") "message_start" = true ->
  exists r,
    anthropicFrame frame u
      = if nullish (Js.getOpt (Js.getOpt frame "message") "usage")
        then ([], (r, u))
        else ([UsageChunk
                 (Js.getOpt (Js.getOpt (Js.getOpt frame "message") "usage") "input_tokens")
                 (output_tokens u)],
              (r,
               {| input_tokens :=
                    Js.getOpt (Js.getOpt (Js.getOpt frame "message") "usage") "input_tokens";
                  output_tokens := output_tokens u |})).
Proof.
  intros Htype.
  assert (Hframe : nullish frame = false).
  { destruct (nullish frame) eqn:H; [|reflexivity].
    rewrite (getOpt_nullish _ "type" H) in Htype. discriminate. }
  unfold anthropicFrame, liftRes, getLocal, setLocal. unfold_m.
  rewrite (get_getOpt _ "type" Hframe), Htype, (get_getOpt _ "message" Hframe).
  destruct (nullish (Js.getOpt frame "message")) eqn:Hmessage.
  - rewrite (get_nullish _ "usage" Hmessage), (getOpt_nullish _ "usage" Hmessage).
    simpl. now eexists.
  - rewrite (get_getOpt _ "usage" Hmessage).
    destruct (nullish (Js.getOpt (Js.getOpt frame "message") "usage")) eqn:Husage.
    + rewrite (get_nullish _ "input_tokens" Husage). now eexists.
    + rewrite (get_getOpt _ "input_tokens" Husage). now eexists.
Qed.

Lemma anthropicFrame_delta (frame : JS) (u : Usage) :
  Js.isStr (Js.getOpt frame "type") "message_delta" = true ->
  exists r,
    anthropicFrame frame u
      = if Js.truthy (Js.getOpt frame "usage")
        then ([UsageChunk (JNum 0) (Js.getOpt (Js.getOpt frame "usage") "output_tokens")],
              (r,
               {| input_tokens := input_tokens u;
                  output_tokens := Js.getOpt (Js.getOpt frame "usage") "output_tokens" |}))
        else ([], (r, u)).
Proof.
  intros Htype.
  assert (Hframe : nullish frame = false).
  { destruct (nullish frame) eqn:H; [|reflexivity].
    rewrite (getOpt_nullish _ "type" H) in Htype. discriminate. }
  apply isStr_eq in Htype.
  unfold anthropicFrame, liftRes, getLocal, setLocal. unfold_m.
  rewrite (get_getOpt _ "type" Hframe), Htype.
  cbn [Js.isStr String.eqb Ascii.eqb Bool.eqb orb].
  rewrite (get_getOpt _ "usage" Hframe).
  destruct (Js.truthy (Js.getOpt frame "usage")) eqn:Husage.
  - rewrite (get_getOpt _ "output_tokens" (truthy_not_nullish _ Husage)). now eexists.
  - now eexists.
Qed.

Section AnthropicLines.

Variable JSON_parse : string -> option JS.

(** Turns what is known of a frame into what is known of its line. *)
Lemma anthropicLine_of_frame (line : string) (frame : JS) (u u' : Usage)
    (out : list ApiStreamChunk) :
  Str.startsWith line "data: " = true ->
  JSON_parse (Str.slice 6 line) = Some frame ->
  (exists r, anthropicFrame frame u = (out, (r, u'))) ->
  anthropicLine JSON_parse line u = (out, (Val false, u')).
Proof.
  intros Hdata Hparse (r & Hframe).
  exact (anthropicLine_frame JSON_parse line frame u u' out r Hdata Hparse Hframe).
Qed.

(** X16. A frame whose [type] is none of [message_start],
    [content_block_start], [content_block_delta] and [message_delta] (a ping,
    a [message_stop], a frame without [type], the value [null]) yields nothing
    and leaves the usage counts as they are. *)
Theorem anthropicLine_unknown_type (line : string) (frame : JS) (u : Usage) :
  Str.startsWith line "data: " = true ->
  JSON_parse (Str.slice 6 line) = Some frame ->
  knownType (Js.getOpt frame "type") = false ->
  anthropicLine JSON_parse line u = ([], (Val false, u)).
Proof.
  intros Hdata Hparse Hknown.
  apply (anthropicLine_of_frame line frame u u [] Hdata Hparse).
  now apply anthropicFrame_unknown.
Qed.

(** X17. A [content_block_start] or [content_block_delta] frame yields one
    text chunk when the [type] of its block is "text" or "text_delta", and
    nothing otherwise (a tool-use block, a missing block).  The chunk carries
    the [text] of the block, or the empty string when that is missing or
    empty.  The usage counts are not touched. *)
Theorem anthropicLine_content_block (line : string) (frame : JS) (u : Usage) :
  Str.startsWith line "data: " = true ->
  JSON_parse (Str.slice 6 line) = Some frame ->
  Js.isStr (Js.getOpt frame "type") "content_block_start"
  || Js.isStr (Js.getOpt frame "type") "content_block_delta" = true ->
  anthropicLine JSON_parse line u
    = (if isTextBlock (blockOf frame)
       then [TextChunk (Js.or (Js.getOpt (blockOf frame) "text") (JStr ""))]
       else [],
       (Val false, u)).
Proof.
  intros Hdata Hparse Htype.
  apply (anthropicLine_of_frame line frame u u _ Hdata Hparse).
  now apply anthropicFrame_block.
Qed.

(** X18. A [message_start] frame yields one usage chunk, with its
    [input_tokens] and with the output count of the latest [message_delta]
    (zero before any), and records the input count; when the frame has no
    [message] or no [usage] the exception is swallowed and nothing is yielded
    or recorded.  A [message_delta] frame with a usage object yields one usage
    chunk with input count 0 and its [output_tokens], and records the output
    count; without one it yields nothing. *)
Theorem anthropicLine_usage_frames (line : string) (frame : JS) (u : Usage) :
  Str.startsWith line "data: " = true ->
  JSON_parse (Str.slice 6 line) = Some frame ->
  (Js.isStr (Js.getOpt frame "type") "message_start" = true ->
   anthropicLine JSON_parse line u
     = if nullish (Js.getOpt (Js.getOpt frame "message") "usage")
       then ([], (Val false, u))
       else ([UsageChunk
                (Js.getOpt (Js.getOpt (Js.getOpt frame "message") "usage") "input_tokens")
                (output_tokens u)],
             (Val false,
              {| input_tokens :=
                   Js.getOpt (Js.getOpt (Js.getOpt frame "message") "usage") "input_tokens";
                 output_tokens := output_tokens u |})))
  /\ (Js.isStr (Js.getOpt frame "type") "message_delta" = true ->
      anthropicLine JSON_parse line u
        = if Js.truthy (Js.getOpt frame "usage")
          then ([UsageChunk (JNum 0) (Js.getOpt (Js.getOpt frame "usage") "output_tokens")],
                (Val false,
                 {| input_tokens := input_tokens u;
                    output_tokens := Js.getOpt (Js.getOpt frame "usage") "output_tokens" |}))
          else ([], (Val false, u))).
Proof.
  intros Hdata Hparse. split; intros Htype.
  - destruct (anthropicFrame_start frame u Htype) as (r & Hframe).
    destruct (nullish (Js.getOpt (Js.getOpt frame "message") "usage"));
      exact (anthropicLine_frame JSON_parse line frame u _ _ r Hdata Hparse Hframe).
  - destruct (anthropicFrame_delta frame u Htype) as (r & Hframe).
    destruct (Js.truthy (Js.getOpt frame "usage"));
      exact (anthropicLine_frame JSON_parse line frame u _ _ r Hdata Hparse Hframe).
Qed.

End AnthropicLines.

(** ** Request dispatcher, further *)

Lemma includes_anthropic_not_openAI (id : string) :
  Str.includes anthropicModels id = true -> Str.includes openAIModels id = false.
Proof.
  unfold Str.includes, anthropicModels. simpl existsb at 1.
  intros H. repeat (apply orb_true_iff in H as [H|H]);
    try discriminate; apply String.eqb_eq in H; subst; reflexivity.
Qed.

Lemma streamCompletion_state {S} (parse : string -> option JS) (stream : Stream) (s : S) :
  snd (snd (streamCompletion parse stream s)) = s.
Proof.
  now rewrite streamCompletion_lines.
Qed.

Lemma streamCompletionGPT_state {S} (parse : string -> option JS)
    (coerce : JS -> Res string) (coerced : JS -> bool) (stream : Stream) (s : S) :
  snd (snd (streamCompletionGPT parse coerce coerced stream s)) = s.
Proof.
  now rewrite streamCompletionGPT_lines.
Qed.

Section DispatchMore.

Variable JSON_parse : string -> option JS.
Variable ToString : JS -> Res string.
Variable coercedPositive : JS -> bool.
Variable sapAiCoreModels : list (string * ModelInfo).
Variable sapAiCoreDefaultModelId : string.
Variable convertToOpenAiMessages : list JS -> list JS.
Variable env : Env.

Local Abbreviation run :=
  (createMessage JSON_parse ToString coercedPositive sapAiCoreModels
     sapAiCoreDefaultModelId convertToOpenAiMessages env).
Local Abbreviation modelOf s :=
  (getModel sapAiCoreModels sapAiCoreDefaultModelId (options s)).

(** [createMessage] once the token and the deployment are at hand and the id
    of the deployment can be put in the url, for a model of the Anthropic
    list. *)
Lemma createMessage_anthropic (systemPrompt : string) (messages : list JS)
    (s s1 s2 : State) (bearer idText : string) (deploymentId max_tokens : JS) :
  Str.includes anthropicModels (model_id (modelOf s)) = true ->
  getToken env s = (Val bearer, s1) ->
  getDeploymentForModel ToString env (model_id (modelOf s)) s1 = (Val deploymentId, s2) ->
  show ToString deploymentId = Val idText ->
  maxTokensOf (model_info (modelOf s)) = Val max_tokens ->
  run systemPrompt messages s
    = inference env
        (PostInference
           (inferenceUrl s idText "/invoke-with-response-stream")
           (anthropicPayload max_tokens systemPrompt messages)
           (headersFor bearer s))
        (streamCompletion JSON_parse) s2.
Proof.
  intros Hlist Htoken Hdep Hshow Hmax.
  pose proof (includes_anthropic_not_openAI _ Hlist) as Hnot.
  pose proof (getToken_options env s) as Hopts. rewrite Htoken in Hopts. simpl in Hopts.
  unfold createMessage, getLocal, liftRes, inference, request, inferenceUrl, headersFor.
  unfold_m. rewrite Htoken, Hopts, Hdep, Hlist, Hshow, Hmax, Hnot.
  destruct (inferenceReply env (List.length (trace s2))) as [stream|]; [|reflexivity].
  pose proof (streamCompletion_state JSON_parse stream
                (log_call (PostInference
                   (showOpt (sapAiCoreBaseUrl (options s)) ++ "/inference/deployments/"
                      ++ idText ++ "/invoke-with-response-stream")%string
                   (anthropicPayload max_tokens systemPrompt messages)
                   {| Authorization := ("Bearer " ++ bearer)%string;
                      AI_Resource_Group :=
                        orDefault (sapAiResourceGroup (options s)) "default" |}) s2))
    as Hstate.
  destruct (streamCompletion JSON_parse stream _) as [out [[[]|e] s3]];
    simpl in *; subst s3; rewrite ?app_nil_r; reflexivity.
Qed.

(** The same for a model of the OpenAI list. *)
Lemma createMessage_openAI (systemPrompt : string) (messages : list JS)
    (s s1 s2 : State) (bearer idText : string) (deploymentId max_tokens : JS) :
  Str.includes anthropicModels (model_id (modelOf s)) = false ->
  Str.includes openAIModels (model_id (modelOf s)) = true ->
  getToken env s = (Val bearer, s1) ->
  getDeploymentForModel ToString env (model_id (modelOf s)) s1 = (Val deploymentId, s2) ->
  show ToString deploymentId = Val idText ->
  maxTokensOf (model_info (modelOf s)) = Val max_tokens ->
  run systemPrompt messages s
    = inference env
        (PostInference
           (inferenceUrl s idText "/chat/completions?api-version=2023-05-15")
           (openAiPayload convertToOpenAiMessages max_tokens systemPrompt messages)
           (headersFor bearer s))
        (streamCompletionGPT JSON_parse ToString coercedPositive) s2.
Proof.
  intros Hnot Hlist Htoken Hdep Hshow Hmax.
  pose proof (getToken_options env s) as Hopts. rewrite Htoken in Hopts. simpl in Hopts.
  unfold createMessage, getLocal, liftRes, inference, request, inferenceUrl, headersFor.
  unfold_m. rewrite Htoken, Hopts, Hdep, Hnot, Hlist, Hshow, Hmax.
  destruct (inferenceReply env (List.length (trace s2))) as [stream|]; [|reflexivity].
  pose proof (streamCompletionGPT_state JSON_parse ToString coercedPositive stream
                (log_call (PostInference
                   (showOpt (sapAiCoreBaseUrl (options s)) ++ "/inference/deployments/"
                      ++ idText ++ "/chat/completions?api-version=2023-05-15")%string
                   (openAiPayload convertToOpenAiMessages max_tokens systemPrompt messages)
                   {| Authorization := ("Bearer " ++ bearer)%string;
                      AI_Resource_Group :=
                        orDefault (sapAiResourceGroup (options s)) "default" |}) s2))
    as Hstate.
  destruct (streamCompletionGPT JSON_parse ToString coercedPositive stream _) as [out [[[]|e] s3]];
    simpl in *; subst s3; rewrite ?app_nil_r; reflexivity.
Qed.

End DispatchMore.

Lemma atMostOne_nil (p : NetCall -> bool) : atMostOne p [].
Proof. now left. Qed.

Lemma atMostOne_one (p : NetCall -> bool) (c : NetCall) :
  p c = true -> atMostOne p [c].
Proof. intros H. right. now exists c. Qed.

Section DispatchCases.

Variable JSON_parse : string -> option JS.
Variable ToString : JS -> Res string.
Variable coercedPositive : JS -> bool.
Variable sapAiCoreModels : list (string * ModelInfo).
Variable sapAiCoreDefaultModelId : string.
Variable convertToOpenAiMessages : list JS -> list JS.
Variable env : Env.

Local Abbreviation run :=
  (createMessage JSON_parse ToString coercedPositive sapAiCoreModels
     sapAiCoreDefaultModelId convertToOpenAiMessages env).
Local Abbreviation modelOf s :=
  (getModel sapAiCoreModels sapAiCoreDefaultModelId (options s)).

Lemma createMessage_token_failure (systemPrompt : string) (messages : list JS)
    (s s1 : State) (e : Error) :
  getToken env s = (Throw e, s1) ->
  run systemPrompt messages s = ([], (Throw e, s1)).
Proof.
  intros Htoken. unfold createMessage. unfold_m. now rewrite Htoken.
Qed.

Lemma createMessage_resolution_failure (systemPrompt : string) (messages : list JS)
    (s s1 s2 : State) (bearer : string) (e : Error) :
  getToken env s = (Val bearer, s1) ->
  getDeploymentForModel ToString env (model_id (modelOf s)) s1 = (Throw e, s2) ->
  run systemPrompt messages s = ([], (Throw e, s2)).
Proof.
  intros Htoken Hdep.
  pose proof (getToken_options env s) as Hopts. rewrite Htoken in Hopts. simpl in Hopts.
  unfold createMessage, getLocal. unfold_m. now rewrite Htoken, Hopts, Hdep.
Qed.

(** A listed model whose deployment id cannot be put in the url: the
    exception of the template literal leaves [createMessage] as it is, before
    the [try]. *)
Lemma createMessage_no_url (systemPrompt : string) (messages : list JS)
    (s s1 s2 : State) (bearer : string) (deploymentId : JS) (e : Error) :
  unsupported (model_id (modelOf s)) = false ->
  getToken env s = (Val bearer, s1) ->
  getDeploymentForModel ToString env (model_id (modelOf s)) s1 = (Val deploymentId, s2) ->
  show ToString deploymentId = Throw e ->
  run systemPrompt messages s = ([], (Throw e, s2)).
Proof.
  intros Hsup Htoken Hdep Hshow. unfold unsupported in *.
  pose proof (getToken_options env s) as Hopts. rewrite Htoken in Hopts. simpl in Hopts.
  unfold createMessage, getLocal, liftRes. unfold_m.
  rewrite Htoken, Hopts, Hdep, Hshow.
  destruct (Str.includes anthropicModels _); [reflexivity|].
  destruct (Str.includes openAIModels _); [reflexivity|discriminate].
Qed.

(** A listed model whose registry entry is missing: reading its limit
    throws. *)
Lemma createMessage_no_info (systemPrompt : string) (messages : list JS)
    (s s1 s2 : State) (bearer idText : string) (deploymentId : JS) (e : Error) :
  unsupported (model_id (modelOf s)) = false ->
  getToken env s = (Val bearer, s1) ->
  getDeploymentForModel ToString env (model_id (modelOf s)) s1 = (Val deploymentId, s2) ->
  show ToString deploymentId = Val idText ->
  maxTokensOf (model_info (modelOf s)) = Throw e ->
  run systemPrompt messages s = ([], (Throw e, s2)).
Proof.
  intros Hsup Htoken Hdep Hshow Hmax. unfold unsupported in *.
  pose proof (getToken_options env s) as Hopts. rewrite Htoken in Hopts. simpl in Hopts.
  unfold createMessage, getLocal, liftRes. unfold_m.
  rewrite Htoken, Hopts, Hdep, Hshow, Hmax.
  destruct (Str.includes anthropicModels _); [reflexivity|].
  destruct (Str.includes openAIModels _); [reflexivity|discriminate].
Qed.

Lemma inference_trace (call : NetCall) (parser : Stream -> Gen State unit) (s2 : State) :
  trace (snd (snd (inference env call parser s2))) = trace s2 ++ [call].
Proof.
  unfold inference. destruct (inferenceReply env _); reflexivity.
Qed.

(** X19. Whatever happens, [createMessage] sends its requests in this order:
    at most one token exchange, then for the deployment at most one more
    token exchange and at most one listing request, then at most one
    inference request, and nothing after it. *)
Theorem createMessage_requests (systemPrompt : string) (messages : list JS) (s : State) :
  exists auth auth' listing infer,
    trace (snd (snd (run systemPrompt messages s)))
      = trace s ++ auth ++ auth' ++ listing ++ infer
    /\ atMostOne isPostToken auth
    /\ atMostOne isPostToken auth'
    /\ atMostOne isGetDeployments listing
    /\ atMostOne isPostInference infer.
Proof.
  destruct (getToken_trace env s) as (auth & Hauth & Hone).
  destruct (getToken env s) as [[bearer|e] s1] eqn:Htoken; simpl in Hauth.
  - destruct (getDeploymentForModel_trace ToString env (model_id (modelOf s)) s1)
      as (auth' & listing & Htrace & Hauth' & Hlisting).
    destruct (getDeploymentForModel ToString env (model_id (modelOf s)) s1)
      as [[deploymentId|e] s2] eqn:Hdep; simpl in Htrace.
    + assert (Hquiet : forall e, run systemPrompt messages s = ([], (Throw e, s2)) ->
                exists auth auth' listing infer,
                  trace (snd (snd (run systemPrompt messages s)))
                    = trace s ++ auth ++ auth' ++ listing ++ infer
                  /\ atMostOne isPostToken auth /\ atMostOne isPostToken auth'
                  /\ atMostOne isGetDeployments listing
                  /\ atMostOne isPostInference infer).
      { intros e Hrun. exists auth, auth', listing, []. rewrite Hrun. simpl.
        rewrite Htrace, Hauth, app_nil_r, <- app_assoc.
        repeat split; auto using atMostOne_nil. }
      assert (Hsent : forall call parser,
                isPostInference call = true ->
                run systemPrompt messages s = inference env call parser s2 ->
                exists auth auth' listing infer,
                  trace (snd (snd (run systemPrompt messages s)))
                    = trace s ++ auth ++ auth' ++ listing ++ infer
                  /\ atMostOne isPostToken auth /\ atMostOne isPostToken auth'
                  /\ atMostOne isGetDeployments listing
                  /\ atMostOne isPostInference infer).
      { intros call parser Hcall Hrun. exists auth, auth', listing, [call].
        rewrite Hrun, inference_trace, Htrace, Hauth, <- !app_assoc.
        repeat split; auto using atMostOne_one. }
      destruct (unsupported (model_id (modelOf s))) eqn:Hun.
      { eapply Hquiet.
        rewrite (createMessage_unsupported _ _ _ _ _ _ _ _ _ s Hun), Htoken, Hdep.
        reflexivity. }
      destruct (show ToString deploymentId) as [idText|e] eqn:Hshow;
        [|eapply Hquiet; exact (createMessage_no_url _ _ _ _ _ _ _ _ Hun Htoken Hdep Hshow)].
      destruct (maxTokensOf (model_info (modelOf s))) as [max_tokens|e] eqn:Hmax.
      * destruct (Str.includes anthropicModels (model_id (modelOf s))) eqn:Hlist.
        -- eapply Hsent; [|exact (createMessage_anthropic _ _ _ _ _ _ _ _ _ _ _ _ _ _ _ _
                                    Hlist Htoken Hdep Hshow Hmax)]. reflexivity.
        -- assert (Hopen : Str.includes openAIModels (model_id (modelOf s)) = true).
           { unfold unsupported in Hun. rewrite Hlist in Hun. simpl in Hun.
             now apply negb_false_iff in Hun. }
           eapply Hsent; [|exact (createMessage_openAI _ _ _ _ _ _ _ _ _ _ _ _ _ _ _ _
                                    Hlist Hopen Htoken Hdep Hshow Hmax)]. reflexivity.
      * eapply Hquiet.
        exact (createMessage_no_info _ _ _ _ _ _ _ _ _ Hun Htoken Hdep Hshow Hmax).
    + exists auth, auth', listing, [].
      rewrite (createMessage_resolution_failure _ _ _ _ _ _ _ Htoken Hdep). simpl.
      rewrite Htrace, Hauth, app_nil_r, <- app_assoc.
      repeat split; auto using atMostOne_nil.
  - exists auth, [], [], [].
    rewrite (createMessage_token_failure _ _ _ _ _ Htoken). simpl.
    rewrite Hauth, app_nil_r. repeat split; auto using atMostOne_nil.
Qed.

(** X20. For a model of the Anthropic list, with a token and a deployment at
    hand whose id can be converted to a string, [createMessage] sends one
    inference request, to the [invoke-with-response-stream] endpoint of the
    deployment, with the token as bearer and the limit of the registry as
    [max_tokens].  When the request is answered it yields the chunks of
    [streamCompletion] on the body; it ends normally when the transport does,
    and with "Failed to create message" when the transport fails, the chunks
    yielded before being kept. *)
Theorem createMessage_anthropic_stream (systemPrompt : string) (messages : list JS)
    (s s1 s2 : State) (bearer idText : string) (deploymentId max_tokens : JS)
    (stream : Stream) :
  Str.includes anthropicModels (model_id (modelOf s)) = true ->
  getToken env s = (Val bearer, s1) ->
  getDeploymentForModel ToString env (model_id (modelOf s)) s1 = (Val deploymentId, s2) ->
  show ToString deploymentId = Val idText ->
  maxTokensOf (model_info (modelOf s)) = Val max_tokens ->
  inferenceReply env (List.length (trace s2)) = Some stream ->
  fst (run systemPrompt messages s) = fst (streamCompletion JSON_parse stream tt)
  /\ fst (snd (run systemPrompt messages s))
     = (if broken stream then Throw (Err "Failed to create message") else Val tt)
  /\ trace (snd (snd (run systemPrompt messages s)))
     = trace s2
         ++ [PostInference
               (showOpt (sapAiCoreBaseUrl (options s)) ++ "/inference/deployments/"
                  ++ idText ++ "/invoke-with-response-stream")%string
               (anthropicPayload max_tokens systemPrompt messages)
               {| Authorization := ("Bearer " ++ bearer)%string;
                  AI_Resource_Group := orDefault (sapAiResourceGroup (options s)) "default" |}].
Proof.
  intros Hlist Htoken Hdep Hshow Hmax Hreply.
  rewrite (createMessage_anthropic _ _ _ _ _ _ _ _ _ _ _ _ _ _ _ _
             Hlist Htoken Hdep Hshow Hmax).
  split; [|split].
  - unfold inference. rewrite Hreply. simpl. now rewrite !streamCompletion_lines.
  - unfold inference. rewrite Hreply. simpl.
    rewrite (proj1 (streamCompletion_outcome JSON_parse stream _)). simpl.
    destruct (broken stream); reflexivity.
  - apply inference_trace.
Qed.

(** X21. For a model of the OpenAI list, with a token and a deployment at
    hand whose id can be converted to a string, [createMessage] sends one
    inference request, to the [chat/completions] endpoint of the deployment,
    and when it is answered yields the chunks of [streamCompletionGPT] on the
    body.  It ends normally when the body has a sentinel line or the transport
    ends, and with "Failed to create message" when the transport fails before
    any sentinel. *)
Theorem createMessage_openAI_stream (systemPrompt : string) (messages : list JS)
    (s s1 s2 : State) (bearer idText : string) (deploymentId max_tokens : JS)
    (stream : Stream) :
  Str.includes openAIModels (model_id (modelOf s)) = true ->
  Str.includes anthropicModels (model_id (modelOf s)) = false ->
  getToken env s = (Val bearer, s1) ->
  getDeploymentForModel ToString env (model_id (modelOf s)) s1 = (Val deploymentId, s2) ->
  show ToString deploymentId = Val idText ->
  maxTokensOf (model_info (modelOf s)) = Val max_tokens ->
  inferenceReply env (List.length (trace s2)) = Some stream ->
  fst (run systemPrompt messages s)
    = fst (streamCompletionGPT JSON_parse ToString coercedPositive stream tt)
  /\ fst (snd (run systemPrompt messages s))
     = (if existsb isSentinel (linesOfStream stream) then Val tt
        else if broken stream then Throw (Err "Failed to create message") else Val tt)
  /\ trace (snd (snd (run systemPrompt messages s)))
     = trace s2
         ++ [PostInference
               (showOpt (sapAiCoreBaseUrl (options s)) ++ "/inference/deployments/"
                  ++ idText ++ "/chat/completions?api-version=2023-05-15")%string
               (openAiPayload convertToOpenAiMessages max_tokens systemPrompt messages)
               {| Authorization := ("Bearer " ++ bearer)%string;
                  AI_Resource_Group := orDefault (sapAiResourceGroup (options s)) "default" |}].
Proof.
  intros Hlist Hnot Htoken Hdep Hshow Hmax Hreply.
  rewrite (createMessage_openAI _ _ _ _ _ _ _ _ _ _ _ _ _ _ _ _
             Hnot Hlist Htoken Hdep Hshow Hmax).
  split; [|split].
  - unfold inference. rewrite Hreply. simpl. now rewrite !streamCompletionGPT_lines.
  - unfold inference. rewrite Hreply. simpl.
    rewrite (streamCompletionGPT_outcome JSON_parse ToString coercedPositive stream _). simpl.
    destruct (existsb isSentinel (linesOfStream stream)); [reflexivity|].
    destruct (broken stream); reflexivity.
  - apply inference_trace.
Qed.

(** X22. When the url and the payload can be built and the inference request
    is rejected, [createMessage] yields nothing and fails with "Failed to
    create message"; the rejected request is the last one sent. *)
Theorem createMessage_rejected (systemPrompt : string) (messages : list JS)
    (s s1 s2 : State) (bearer idText : string) (deploymentId max_tokens : JS) :
  unsupported (model_id (modelOf s)) = false ->
  getToken env s = (Val bearer, s1) ->
  getDeploymentForModel ToString env (model_id (modelOf s)) s1 = (Val deploymentId, s2) ->
  show ToString deploymentId = Val idText ->
  maxTokensOf (model_info (modelOf s)) = Val max_tokens ->
  inferenceReply env (List.length (trace s2)) = None ->
  exists call,
    isPostInference call = true
    /\ run systemPrompt messages s
       = ([], (Throw (Err "Failed to create message"), log_call call s2)).
Proof.
  intros Hsup Htoken Hdep Hshow Hmax Hreply.
  destruct (Str.includes anthropicModels
              (model_id (getModel sapAiCoreModels sapAiCoreDefaultModelId (options s))))
    eqn:Hlist.
  - rewrite (createMessage_anthropic _ _ _ _ _ _ _ _ _ _ _ _ _ _ _ _
               Hlist Htoken Hdep Hshow Hmax).
    unfold inference. rewrite Hreply. eexists. split; [|reflexivity]. reflexivity.
  - assert (Hopen : Str.includes openAIModels
                      (model_id (getModel sapAiCoreModels sapAiCoreDefaultModelId
                                   (options s))) = true).
    { unfold unsupported in Hsup. rewrite Hlist in Hsup. simpl in Hsup.
      now apply negb_false_iff in Hsup. }
    rewrite (createMessage_openAI _ _ _ _ _ _ _ _ _ _ _ _ _ _ _ _
               Hlist Hopen Htoken Hdep Hshow Hmax).
    unfold inference. rewrite Hreply. eexists. split; [|reflexivity]. reflexivity.
Qed.

(** X27. When the id of the deployment cannot be converted to a string, no
    url can be built: for a model of one of the two lists, [createMessage]
    yields nothing and throws the exception of the conversion as it is, not
    as "Failed to create message", since the template literal comes before
    the [try]; no inference request is sent. *)
Theorem createMessage_unusable_id (systemPrompt : string) (messages : list JS)
    (s s1 s2 : State) (bearer : string) (deploymentId : JS) (e : Error) :
  unsupported (model_id (modelOf s)) = false ->
  getToken env s = (Val bearer, s1) ->
  getDeploymentForModel ToString env (model_id (modelOf s)) s1 = (Val deploymentId, s2) ->
  show ToString deploymentId = Throw e ->
  run systemPrompt messages s = ([], (Throw e, s2))
  /\ exists calls, trace s2 = trace s ++ calls /\ noInference calls = true.
Proof.
  intros Hsup Htoken Hdep Hshow.
  split; [exact (createMessage_no_url _ _ _ _ _ _ _ _ Hsup Htoken Hdep Hshow)|].
  destruct (getToken_trace env s) as (auth & Hauth & Hone).
  rewrite Htoken in Hauth. simpl in Hauth.
  destruct (getDeploymentForModel_trace ToString env (model_id (modelOf s)) s1)
    as (auth' & listing & Htrace & Hauth' & Hlisting).
  rewrite Hdep in Htrace. simpl in Htrace.
  exists (auth ++ auth' ++ listing). split.
  - now rewrite Htrace, Hauth, <- app_assoc.
  - repeat apply noInference_app;
      auto using postToken_noInference, getDeployments_noInference.
Qed.

End DispatchCases.

Lemma lastCall_snoc (calls : list NetCall) (c : NetCall) :
  lastCall (calls ++ [c]) = Some c.
Proof.
  unfold lastCall. rewrite map_app. simpl. apply last_last.
Qed.

Section DispatchCache.

Variable JSON_parse : string -> option JS.
Variable ToString : JS -> Res string.
Variable coercedPositive : JS -> bool.
Variable sapAiCoreModels : list (string * ModelInfo).
Variable sapAiCoreDefaultModelId : string.
Variable convertToOpenAiMessages : list JS -> list JS.
Variable env : Env.

Local Abbreviation run :=
  (createMessage JSON_parse ToString coercedPositive sapAiCoreModels
     sapAiCoreDefaultModelId convertToOpenAiMessages env).
Local Abbreviation modelOf s :=
  (getModel sapAiCoreModels sapAiCoreDefaultModelId (options s)).

Lemma inference_state (call : NetCall) (parser : Stream -> Gen State unit) (s2 : State) :
  snd (snd (inference env call parser s2)) = log_call call s2.
Proof.
  unfold inference. destruct (inferenceReply env _); reflexivity.
Qed.

(** Once dispatched, [createMessage] is the inference of some request. *)
Lemma createMessage_dispatched (systemPrompt : string) (messages : list JS)
    (s s1 s2 : State) (bearer idText : string) (deploymentId max_tokens : JS) :
  unsupported (model_id (modelOf s)) = false ->
  getToken env s = (Val bearer, s1) ->
  getDeploymentForModel ToString env (model_id (modelOf s)) s1 = (Val deploymentId, s2) ->
  show ToString deploymentId = Val idText ->
  maxTokensOf (model_info (modelOf s)) = Val max_tokens ->
  exists url payload parser,
    Js.getOpt payload "max_tokens" = max_tokens
    /\ run systemPrompt messages s
       = inference env (PostInference url payload (headersFor bearer s)) parser s2.
Proof.
  intros Hsup Htoken Hdep Hshow Hmax.
  destruct (Str.includes anthropicModels (model_id (modelOf s))) eqn:Hlist.
  - rewrite (createMessage_anthropic _ _ _ _ _ _ _ _ _ _ _ _ _ _ _ _
               Hlist Htoken Hdep Hshow Hmax).
    do 3 eexists. split; [|reflexivity]. reflexivity.
  - assert (Hopen : Str.includes openAIModels (model_id (modelOf s)) = true).
    { unfold unsupported in Hsup. rewrite Hlist in Hsup. simpl in Hsup.
      now apply negb_false_iff in Hsup. }
    rewrite (createMessage_openAI _ _ _ _ _ _ _ _ _ _ _ _ _ _ _ _
               Hlist Hopen Htoken Hdep Hshow Hmax).
    do 3 eexists. split; [|reflexivity]. reflexivity.
Qed.

(** X23. The caches work across calls.  After a [createMessage] that got as
    far as its inference request (the model is listed, the token and the
    deployment were had, and the url and the payload could be built), a second
    [createMessage] that reads the clock at or before the expiry of the cached
    token sends one request only, the inference request: no token exchange
    and no listing. *)
Theorem createMessage_second_call (systemPrompt systemPrompt' : string)
    (messages messages' : list JS) (s s1 s2 : State) (bearer idText : string)
    (deploymentId max_tokens : JS) :
  unsupported (model_id (modelOf s)) = false ->
  getToken env s = (Val bearer, s1) ->
  getDeploymentForModel ToString env (model_id (modelOf s)) s1 = (Val deploymentId, s2) ->
  show ToString deploymentId = Val idText ->
  maxTokensOf (model_info (modelOf s)) = Val max_tokens ->
  (forall tok,
      token (snd (snd (run systemPrompt messages s))) = Some tok ->
      clock env (ticks (snd (snd (run systemPrompt messages s)))) <= Token.exipres_at tok) ->
  exists call,
    isPostInference call = true
    /\ trace (snd (snd (run systemPrompt' messages' (snd (snd (run systemPrompt messages s))))))
       = trace (snd (snd (run systemPrompt messages s))) ++ [call].
Proof.
  intros Hsup Htoken Hdep Hshow Hmax Hclock.
  destruct (createMessage_dispatched systemPrompt messages s s1 s2 bearer idText deploymentId
              max_tokens Hsup Htoken Hdep Hshow Hmax) as (url & payload & parser & _ & Hrun).
  rewrite Hrun in *. rewrite inference_state in *.
  set (s3 := log_call (PostInference url payload (headersFor bearer s)) s2) in *.
  assert (Hopts : options s3 = options s).
  { unfold s3. simpl.
    pose proof (getDeploymentForModel_options ToString env (model_id (modelOf s)) s1) as H2.
    rewrite Hdep in H2. simpl in H2. rewrite H2.
    pose proof (getToken_options env s) as H. now rewrite Htoken in H. }
  assert (Hsome : token s3 <> None).
  { unfold s3. simpl.
    pose proof (getDeploymentForModel_keeps_token ToString env (model_id (modelOf s)) s1) as H.
    rewrite Hdep in H. apply H.
    destruct (getToken_cached env s s1 bearer Htoken) as (tok & Htok & _).
    rewrite Htok. discriminate. }
  destruct (token s3) as [tok|] eqn:Htok; [|congruence].
  pose proof (getToken_fresh env s3 tok Htok (Hclock tok eq_refl)) as Htoken'.
  destruct (getDeploymentForModel_cached ToString env _ _ _ _ Hdep) as (ds & Hds & Hex & Hres).
  assert (Hdep' : getDeploymentForModel ToString env (model_id (modelOf s3)) (tick s3)
                  = (Val deploymentId, tick s3)).
  { rewrite Hopts.
    rewrite (getDeploymentForModel_hit ToString env _ (tick s3) ds Hds Hex).
    now rewrite Hres. }
  assert (Hsup' : unsupported (model_id (modelOf s3)) = false) by now rewrite Hopts.
  assert (Hmax' : maxTokensOf (model_info (modelOf s3)) = Val max_tokens) by now rewrite Hopts.
  destruct (createMessage_dispatched systemPrompt' messages' s3 (tick s3) (tick s3)
              (Token.access_token tok) idText deploymentId max_tokens
              Hsup' Htoken' Hdep' Hshow Hmax')
    as (url' & payload' & parser' & _ & Hrun').
  rewrite Hrun', inference_trace. eexists. split; [|reflexivity]. reflexivity.
Qed.

(** X24. A handler configured with an empty client secret still asks for a
    token: from a handler without a token whose cache holds at most the
    sentinel, [createMessage] for a model of another base name yields nothing,
    sends the token exchange with the empty secret and nothing else, and fails
    with the rejection of the exchange or, when a token is granted, with "No
    running deployment found for model". *)
Theorem createMessage_not_configured (systemPrompt : string) (messages : list JS)
    (s : State) :
  sapAiCoreClientSecret (options s) = Some "" ->
  token s = None ->
  sentinelCache s ->
  Str.toLowerCase (beforeFirst Str.COLON (model_id (modelOf s)))
    <> "ai-core-not-configured" ->
  fst (run systemPrompt messages s) = []
  /\ trace (snd (snd (run systemPrompt messages s)))
     = trace s
         ++ [PostToken (orDefault (sapAiCoreTokenUrl (options s)) "")
               (orDefault (sapAiCoreClientId (options s)) "") ""]
  /\ fst (snd (run systemPrompt messages s))
     = match tokenReply env (List.length (trace s)) with
       | Some _ => Throw (noDeployment (model_id (modelOf s)))
       | None => Throw AxiosError
       end.
Proof.
  intros Hsecret Htok Hcache Hbase.
  assert (Hreq : tokenRequest s
                 = PostToken (orDefault (sapAiCoreTokenUrl (options s)) "")
                     (orDefault (sapAiCoreClientId (options s)) "") "").
  { unfold tokenRequest. now rewrite Hsecret. }
  pose proof (getToken_absent env s Htok) as Htoken. unfold refreshed in Htoken.
  rewrite <- Hreq.
  destruct (tokenReply env (List.length (trace s))) as [tok|].
  - set (s1 := set_token (stamped env (ticks s) tok) (tick (log_call (tokenRequest s) s))) in *.
    assert (Hdep : getDeploymentForModel ToString env (model_id (modelOf s)) s1
                   = (Throw (noDeployment (model_id (modelOf s))),
                      set_deployments [notConfigured] s1)).
    { apply getDeploymentForModel_sentinel; assumption. }
    rewrite (createMessage_resolution_failure _ _ _ _ _ _ _ _ _ _ _ _ _ _ Htoken Hdep).
    repeat split.
  - rewrite (createMessage_token_failure _ _ _ _ _ _ _ _ _ _ _ _ Htoken). repeat split.
Qed.

(** X25. [createUserReadableRequest] shows what [createMessage] sends: for a
    model of one of the two lists, with a token and a deployment at hand whose
    id can be converted to a string, the request shown names the model
    [createMessage] dispatches on and has the [max_tokens] of the payload of
    the inference request.  When the registry has no entry for the model,
    both throw a [TypeError], and no inference request is sent. *)
Theorem createUserReadableRequest_agrees (systemPrompt : string) (messages content : list JS)
    (s s1 s2 : State) (bearer idText : string) (deploymentId : JS) :
  unsupported (model_id (modelOf s)) = false ->
  getToken env s = (Val bearer, s1) ->
  getDeploymentForModel ToString env (model_id (modelOf s)) s1 = (Val deploymentId, s2) ->
  show ToString deploymentId = Val idText ->
  (exists request url payload headers,
      createUserReadableRequest sapAiCoreModels sapAiCoreDefaultModelId content s
        = Val request
      /\ Js.getOpt request "model" = JStr (model_id (modelOf s))
      /\ lastCall (trace (snd (snd (run systemPrompt messages s))))
         = Some (PostInference url payload headers)
      /\ Js.getOpt payload "max_tokens" = Js.getOpt request "max_tokens")
  \/ (createUserReadableRequest sapAiCoreModels sapAiCoreDefaultModelId content s
        = Throw TypeError
      /\ run systemPrompt messages s = ([], (Throw TypeError, s2))).
Proof.
  intros Hsup Htoken Hdep Hshow.
  destruct (maxTokensOf (model_info (modelOf s))) as [max_tokens|e] eqn:Hmax.
  - left.
    destruct (createMessage_dispatched systemPrompt messages s s1 s2 bearer idText
                deploymentId max_tokens Hsup Htoken Hdep Hshow Hmax)
      as (url & payload & parser & Hpay & Hrun).
    unfold createUserReadableRequest. rewrite Hmax. cbn [bindRes].
    do 4 eexists. split; [reflexivity|]. split; [reflexivity|].
    split; [rewrite Hrun, inference_trace; apply lastCall_snoc|].
    rewrite Hpay. reflexivity.
  - right.
    assert (He : e = TypeError).
    { destruct (model_info (modelOf s)); simpl in Hmax; congruence. }
    subst e. split.
    + unfold createUserReadableRequest. now rewrite Hmax.
    + exact (createMessage_no_info _ _ _ _ _ _ _ _ _ _ _ _ _ _ _ _
               Hsup Htoken Hdep Hshow Hmax).
Qed.

(** X26. [getModel] returns the configured id with its own registry entry
    when the id is an own key of the registry, and the default id with the
    entry of the default when no id is configured, when it is empty, or when
    [in] does not find it.  The id returned is thus always the default or one
    that [in] finds in the registry. *)
Theorem getModel_own_or_default (opts : ApiHandlerOptions) :
  (forall id info,
      apiModelId opts = Some id ->
      Str.isEmpty id = false ->
      ownMember id sapAiCoreModels = Some info ->
      getModel sapAiCoreModels sapAiCoreDefaultModelId opts
        = {| model_id := id; model_info := OwnMember info |})
  /\ ((apiModelId opts = None \/ apiModelId opts = Some ""
       \/ exists id, apiModelId opts = Some id /\ hasProperty id sapAiCoreModels = false) ->
      getModel sapAiCoreModels sapAiCoreDefaultModelId opts
        = {| model_id := sapAiCoreDefaultModelId;
             model_info := member sapAiCoreDefaultModelId sapAiCoreModels |})
  /\ (model_id (getModel sapAiCoreModels sapAiCoreDefaultModelId opts)
        = sapAiCoreDefaultModelId
      \/ hasProperty (model_id (getModel sapAiCoreModels sapAiCoreDefaultModelId opts))
           sapAiCoreModels = true).
Proof.
  split; [|split].
  - intros id info Hid Hne Hown. unfold getModel, hasProperty, member.
    now rewrite Hid, Hne, Hown.
  - intros Hcase. apply getModel_falls_back.
    destruct Hcase as [->|[->|(id & -> & Hno)]]; auto.
  - unfold getModel. destruct (apiModelId opts) as [id|]; [|now left].
    destruct (negb (Str.isEmpty id) && hasProperty id sapAiCoreModels) eqn:H.
    + right. simpl. now apply andb_true_iff in H.
    + now left.
Qed.

End DispatchCache.

(** ** The statements above on concrete streams and handlers *)

Lemma parsers_ignore_chunking_witness :
  streamCompletion Json.parse Example.rechunkedStream tt
    = streamCompletion Json.parse Example.anthropicStream tt.
Proof.
  apply (proj1 (parsers_ignore_chunking Json.parse Example.toString Example.noCoercion
                  Example.rechunkedStream Example.anthropicStream tt eq_refl eq_refl)).
Defined.

Lemma other_line_is_skipped_witness :
  streamCompletion Json.parse Example.eventStream tt
    = streamCompletion Json.parse Example.anthropicStream tt.
Proof.
  apply (proj1 (other_line_is_skipped Json.parse Example.toString Example.noCoercion
                  Example.eventStream Example.anthropicStream tt
                  [dataLine Example.messageStart]
                  [dataLine Example.textDelta; dataLine Example.messageDelta]
                  "event: content_block_delta" eq_refl eq_refl eq_refl eq_refl)).
Defined.

Lemma streamCompletionGPT_stops_at_sentinel_witness :
  streamCompletionGPT Json.parse Example.toString Example.noCoercion Example.gptStream tt
    = streamCompletionGPT Json.parse Example.toString Example.noCoercion Example.cutGptStream tt.
Proof.
  apply (proj1 (streamCompletionGPT_stops_at_sentinel Json.parse Example.toString Example.noCoercion
                  Example.gptStream Example.cutGptStream tt
                  [dataLine Example.contentHi] [dataLine Example.contentHi]
                  "data: [DONE]" eq_refl eq_refl eq_refl)).
Defined.

Lemma anthropicLine_unknown_type_witness :
  anthropicLine Json.parse (dataLine Example.ping) noUsage = ([], (Val false, noUsage)).
Proof.
  apply (anthropicLine_unknown_type Json.parse (dataLine Example.ping)
           (Example.parsed Example.ping) noUsage eq_refl eq_refl eq_refl).
Defined.

(** The start of a text block yields the empty text; the start of a tool-use
    block yields nothing. *)
Lemma anthropicLine_content_block_witness :
  anthropicLine Json.parse (dataLine Example.blockStart) noUsage
    = ([TextChunk (JStr "")], (Val false, noUsage))
  /\ anthropicLine Json.parse (dataLine Example.toolStart) noUsage
     = ([], (Val false, noUsage)).
Proof.
  split.
  - apply (anthropicLine_content_block Json.parse (dataLine Example.blockStart)
             (Example.parsed Example.blockStart) noUsage eq_refl eq_refl eq_refl).
  - apply (anthropicLine_content_block Json.parse (dataLine Example.toolStart)
             (Example.parsed Example.toolStart) noUsage eq_refl eq_refl eq_refl).
Defined.

(** A [message_start] after 3 output tokens were recorded, with and without
    usage. *)
Lemma anthropicLine_usage_frames_witness :
  anthropicLine Json.parse (dataLine Example.messageStart)
      {| input_tokens := JNum 0; output_tokens := JNum 3 |}
    = ([UsageChunk (JNum 10) (JNum 3)],
       (Val false, {| input_tokens := JNum 10; output_tokens := JNum 3 |}))
  /\ anthropicLine Json.parse (dataLine Example.startWithoutUsage) noUsage
     = ([], (Val false, noUsage))
  /\ anthropicLine Json.parse (dataLine Example.messageDelta)
       {| input_tokens := JNum 10; output_tokens := JNum 0 |}
     = ([UsageChunk (JNum 0) (JNum 3)],
        (Val false, {| input_tokens := JNum 10; output_tokens := JNum 3 |})).
Proof.
  split; [|split].
  - apply (proj1 (anthropicLine_usage_frames Json.parse (dataLine Example.messageStart)
                    (Example.parsed Example.messageStart)
                    {| input_tokens := JNum 0; output_tokens := JNum 3 |}
                    eq_refl eq_refl) eq_refl).
  - apply (proj1 (anthropicLine_usage_frames Json.parse
                    (dataLine Example.startWithoutUsage)
                    (Example.parsed Example.startWithoutUsage) noUsage
                    eq_refl eq_refl) eq_refl).
  - apply (proj2 (anthropicLine_usage_frames Json.parse (dataLine Example.messageDelta)
                    (Example.parsed Example.messageDelta)
                    {| input_tokens := JNum 10; output_tokens := JNum 0 |}
                    eq_refl eq_refl) eq_refl).
Defined.

Local Abbreviation runOn reply s :=
  (createMessage Json.parse Example.toString Example.noCoercion Example.registry
     Example.defaultId Example.convert (Example.servingEnv reply) "system" [] s).

Lemma createMessage_anthropic_stream_witness :
  fst (runOn (Some Example.anthropicStream) Example.claude)
    = [ UsageChunk (JNum 10) (JNum 0); TextChunk (JStr "hi");
        UsageChunk (JNum 0) (JNum 3) ]
  /\ fst (snd (runOn (Some Example.anthropicStream) Example.claude)) = Val tt.
Proof.
  destruct (createMessage_anthropic_stream Json.parse Example.toString Example.noCoercion
              Example.registry Example.defaultId Example.convert
              (Example.servingEnv (Some Example.anthropicStream)) "system" []
              Example.claude
              (snd (getToken (Example.servingEnv (Some Example.anthropicStream))
                      Example.claude))
              (snd (getDeploymentForModel Example.toString
                      (Example.servingEnv (Some Example.anthropicStream))
                      "anthropic--claude-3.5-sonnet"
                      (snd (getToken (Example.servingEnv (Some Example.anthropicStream))
                              Example.claude))))
              "abc" "da" (JStr "da") (JNum 8192) Example.anthropicStream
              eq_refl eq_refl eq_refl eq_refl eq_refl eq_refl)
    as (Hout & Hend & _).
  split; [exact Hout|exact Hend].
Defined.

(** The body fails after its sentinel: the call still ends normally. *)
Lemma createMessage_openAI_stream_witness :
  fst (runOn (Some Example.gptStream) Example.gpt)
    = [TextChunk (JStr "hi"); UsageChunk (JNum 0) (JNum 0)]
  /\ fst (snd (runOn (Some Example.gptStream) Example.gpt)) = Val tt.
Proof.
  destruct (createMessage_openAI_stream Json.parse Example.toString Example.noCoercion
              Example.registry Example.defaultId Example.convert
              (Example.servingEnv (Some Example.gptStream)) "system" []
              Example.gpt
              (snd (getToken (Example.servingEnv (Some Example.gptStream)) Example.gpt))
              (snd (getDeploymentForModel Example.toString
                      (Example.servingEnv (Some Example.gptStream)) "gpt-4o"
                      (snd (getToken (Example.servingEnv (Some Example.gptStream))
                              Example.gpt))))
              "abc" "dg" (JStr "dg") (JNum 4096) Example.gptStream
              eq_refl eq_refl eq_refl eq_refl eq_refl eq_refl eq_refl)
    as (Hout & Hend & _).
  split; [exact Hout|exact Hend].
Defined.

Lemma createMessage_rejected_witness :
  fst (runOn None Example.gpt) = []
  /\ fst (snd (runOn None Example.gpt)) = Throw (Err "Failed to create message").
Proof.
  destruct (createMessage_rejected Json.parse Example.toString Example.noCoercion
              Example.registry Example.defaultId Example.convert
              (Example.servingEnv None) "system" [] Example.gpt
              (snd (getToken (Example.servingEnv None) Example.gpt))
              (snd (getDeploymentForModel Example.toString (Example.servingEnv None)
                      "gpt-4o" (snd (getToken (Example.servingEnv None) Example.gpt))))
              "abc" "dg" (JStr "dg") (JNum 4096)
              eq_refl eq_refl eq_refl eq_refl eq_refl eq_refl)
    as (call & _ & Hrun).
  rewrite Hrun. split; reflexivity.
Defined.

(** Three requests for the first message, one for the second. *)
Lemma createMessage_second_call_witness :
  List.length (trace (snd (snd (runOn (Some Example.gptStream) Example.gpt)))) = 3%nat
  /\ List.length
       (trace (snd (snd (runOn (Some Example.gptStream)
                           (snd (snd (runOn (Some Example.gptStream) Example.gpt)))))))
     = 4%nat.
Proof.
  destruct (createMessage_second_call Json.parse Example.toString Example.noCoercion
              Example.registry Example.defaultId Example.convert
              (Example.servingEnv (Some Example.gptStream)) "system" "system" [] []
              Example.gpt
              (snd (getToken (Example.servingEnv (Some Example.gptStream)) Example.gpt))
              (snd (getDeploymentForModel Example.toString
                      (Example.servingEnv (Some Example.gptStream)) "gpt-4o"
                      (snd (getToken (Example.servingEnv (Some Example.gptStream))
                              Example.gpt))))
              "abc" "dg" (JStr "dg") (JNum 4096)
              eq_refl eq_refl eq_refl eq_refl eq_refl)
    as (call & _ & Htrace).
  - intros tok Htok. vm_compute in Htok. injection Htok as <-. vm_compute. discriminate.
  - split; [reflexivity|]. rewrite Htrace, length_app. reflexivity.
Defined.

(** The cached deployment of "gpt-4o" has an object as id: the token is had,
    and then the url cannot be built. *)
Lemma createMessage_unusable_id_witness :
  fst (runOn None Example.oddId) = []
  /\ fst (snd (runOn None Example.oddId)) = Throw TypeError
  /\ trace (snd (snd (runOn None Example.oddId)))
     = [PostToken "https://auth.example/oauth/token" "client" "secret"].
Proof.
  destruct (createMessage_unusable_id Json.parse Example.toString Example.noCoercion
              Example.registry Example.defaultId Example.convert
              (Example.servingEnv None) "system" [] Example.oddId
              (snd (getToken (Example.servingEnv None) Example.oddId))
              (snd (getDeploymentForModel Example.toString (Example.servingEnv None)
                      "gpt-4o" (snd (getToken (Example.servingEnv None) Example.oddId))))
              "abc" (JObj [("toString", JNum 1)]) TypeError
              eq_refl eq_refl eq_refl eq_refl)
    as (Hrun & _).
  rewrite Hrun. repeat split.
Defined.

Lemma createMessage_not_configured_witness :
  fst (snd (createMessage Json.parse Example.toString Example.noCoercion Example.registry
              Example.defaultId Example.convert Example.env "system" []
              Example.unconfigured))
    = Throw (Err "No running deployment found for model gpt-4o")
  /\ trace (snd (snd (createMessage Json.parse Example.toString Example.noCoercion
                        Example.registry Example.defaultId Example.convert Example.env
                        "system" [] Example.unconfigured)))
     = [PostToken "https://auth.example/oauth/token" "client" ""].
Proof.
  destruct (createMessage_not_configured Json.parse Example.toString Example.noCoercion
              Example.registry Example.defaultId Example.convert Example.env "system" []
              Example.unconfigured eq_refl eq_refl (or_introl eq_refl))
    as (_ & Htrace & Hend).
  - vm_compute. discriminate.
  - split; [exact Hend|exact Htrace].
Defined.

Lemma createUserReadableRequest_agrees_witness :
  exists request,
    createUserReadableRequest Example.registry Example.defaultId [JStr "hello"] Example.gpt
      = Val request
    /\ Js.getOpt request "model" = JStr "gpt-4o"
    /\ Js.getOpt request "max_tokens" = JNum 4096.
Proof.
  destruct (createUserReadableRequest_agrees Json.parse Example.toString Example.noCoercion
              Example.registry Example.defaultId Example.convert
              (Example.servingEnv None) "system" [] [JStr "hello"] Example.gpt
              (snd (getToken (Example.servingEnv None) Example.gpt))
              (snd (getDeploymentForModel Example.toString (Example.servingEnv None)
                      "gpt-4o" (snd (getToken (Example.servingEnv None) Example.gpt))))
              "abc" "dg" (JStr "dg") eq_refl eq_refl eq_refl eq_refl)
    as [(request & url & payload & headers & Hreq & Hmodel & _ & _)|(Hthrow & _)].
  - exists request. split; [exact Hreq|]. split; [exact Hmodel|].
    vm_compute in Hreq. injection Hreq as <-. reflexivity.
  - vm_compute in Hthrow. discriminate.
Defined.

Lemma getModel_own_or_default_witness :
  getModel Example.registry Example.defaultId (Example.withModel "gpt-4")
    = {| model_id := "gpt-4"; model_info := OwnMember {| maxTokens := Some 4096 |} |}
  /\ getModel Example.registry Example.defaultId (Example.withModel "gpt-5")
     = {| model_id := "anthropic--claude-3.5-sonnet";
          model_info := OwnMember {| maxTokens := Some 8192 |} |}.
Proof.
  pose proof (getModel_own_or_default Example.registry Example.defaultId
                (Example.withModel "gpt-4")) as (Hown & _ & _).
  pose proof (getModel_own_or_default Example.registry Example.defaultId
                (Example.withModel "gpt-5")) as (_ & Hdefault & _).
  split.
  - apply (Hown "gpt-4" {| maxTokens := Some 4096 |}); reflexivity.
  - rewrite Hdefault; [reflexivity|].
    right. right. exists "gpt-5". split; reflexivity.
Defined.
